(** * fplmanagerstats: the manager-analysis aggregation of [src/server.js]
    and the bootstrap cache of the Vercel revision, embedded in Rocq.

    JavaScript numbers that the upstream API delivers as integers (points,
    ranks, ids, gameweek numbers) are modelled as [Z]; the two variables that
    start at [Infinity] range over [num].  Objects used as dictionaries keep
    their property creation order, and [Object.values] enumerates them the way
    the language prescribes (array-index keys first, ascending).  Upstream
    requests are threaded through a small monad that records every request
    issued and carries the exception that sends the handler to its [catch]. *)

From Stdlib Require Import ZArith List String Ascii Bool Lia Permutation Sorted.
From Stdlib Require Import DecimalString.
Import ListNotations.
Local Open Scope string_scope.
Local Open Scope list_scope.
Local Open Scope Z_scope.

Set Implicit Arguments.

(** ** JavaScript values the handler relies on *)

Module Js.

(** A number that is either an integer or [Infinity]. *)
Inductive num : Type :=
| Fin (z : Z)
| Infinity.

(** [a < b] for an integer [a] and a [num] [b]. *)
Definition ltb_num (a : Z) (b : num) : bool :=
  match b with
  | Fin z => a <? z
  | Infinity => true
  end.

(** An object used as a dictionary with numeric keys: the properties in
    creation order, each key present once. *)
Definition obj (V : Type) : Type := list (Z * V).

Fixpoint get {V} (o : obj V) (k : Z) : option V :=
  match o with
  | [] => None
  | (k', v) :: o' => if k' =? k then Some v else get o' k
  end.

(** [o[k] = v]: an existing property keeps its place, a new one goes last. *)
Fixpoint set {V} (o : obj V) (k : Z) (v : V) : obj V :=
  match o with
  | [] => [(k, v)]
  | (k', v') :: o' => if k' =? k then (k', v) :: o' else (k', v') :: set o' k v
  end.

(** A key is an array index when its canonical string is an integer in
    [0, 2^32 - 2]. *)
Definition is_array_index (k : Z) : bool := (0 <=? k) && (k <? 4294967295).

Section Sort.
Variable A : Type.
(** [before a b]: the comparator does not put [b] strictly before [a]
    ([cmp(a, b) <= 0]). *)
Variable before : A -> A -> bool.

Fixpoint insert_sorted (x : A) (l : list A) : list A :=
  match l with
  | [] => [x]
  | y :: t => if before x y then x :: y :: t else y :: insert_sorted x t
  end.

(** [Array.prototype.sort]: a stable sort; for a consistent comparator the
    result is unique, and it is computed here by insertion from the right. *)
Fixpoint sort (l : list A) : list A :=
  match l with
  | [] => []
  | x :: t => insert_sorted x (sort t)
  end.
End Sort.

(** [Object.values(o)]: array-index keys in ascending numeric order, then
    the other keys in creation order. *)
Definition values {V} (o : obj V) : list V :=
  map snd (sort (fun a b => fst a <=? fst b)
                (filter (fun kv => is_array_index (fst kv)) o))
  ++ map snd (filter (fun kv => negb (is_array_index (fst kv))) o).

(** [arr[i] = v] for an index inside the array. *)
Fixpoint array_set {V} (arr : list V) (i : nat) (v : V) : list V :=
  match arr, i with
  | [], _ => []
  | _ :: t, O => v :: t
  | x :: t, S j => x :: array_set t j v
  end.

(** [Array.prototype.join]. *)
Fixpoint join (sep : string) (l : list string) : string :=
  match l with
  | [] => ""
  | [x] => x
  | x :: t => (x ++ sep ++ join sep t)%string
  end.

(** Digits of a natural number grouped by three from the right. *)
Fixpoint group3 (rev_digits : list ascii) (n : nat) : list ascii :=
  match rev_digits with
  | [] => []
  | d :: t =>
      match n, t with
      | 2%nat, _ :: _ => d :: ","%char :: group3 t 0
      | _, _ => d :: group3 t (S n)
      end
  end.

(** [Number.prototype.toLocaleString] in the [en-US] locale, on integers. *)
Definition toLocaleString_int (z : Z) : string :=
  let digits := list_ascii_of_string (NilZero.string_of_uint (N.to_uint (Z.abs_N z))) in
  let body := string_of_list_ascii (rev (group3 (rev digits) 0)) in
  if z <? 0 then ("-" ++ body)%string else body.

(** The infinity sign, U+221E, in UTF-8. *)
Definition infinity_sign : string :=
  String (ascii_of_nat 226) (String (ascii_of_nat 136) (String (ascii_of_nat 158) "")).

Definition toLocaleString (n : num) : string :=
  match n with
  | Fin z => toLocaleString_int z
  | Infinity => infinity_sign
  end.

End Js.

(** ** Upstream data (the fields the handler reads) *)

Record Team := { team_name : string; team_short_name : string }.

Record Player := {
  id : Z;
  web_name : string;
  team : Z;
  element_type : Z
}.

Record Event := { event_id : Z; is_current : bool }.

Record BootstrapData := {
  events : list Event;
  teams : list Team;
  elements : list Player
}.

Record ManagerEntry := {
  player_first_name : string;
  player_last_name : string;
  entry_name : string;
  summary_overall_rank : option Z;
  summary_overall_points : Z
}.

Record SeasonRecord := { event : Z; overall_rank : option Z }.
Record Chip := { chip_name : string }.
Record PastSeason := { rank : Z }.

Record ManagerHistory := {
  current : list SeasonRecord;
  chips : list Chip;
  past : list PastSeason
}.

Record Pick := { element : Z; position : Z; is_captain : bool }.

Record GameweekPicks := { picks : list Pick; active_chip : option string }.

Record RoundRecord := { round : Z; total_points : Z }.

Record StandingRow := { total : Z }.

(** What the statistics provider answers to each request of one analysis;
    [None] is a request that fails (timeout, non-2xx). *)
Record Upstream := {
  bootstrap_static : option BootstrapData;
  entry : string -> option ManagerEntry;
  entry_history : string -> option ManagerHistory;
  league_standings : option (list StandingRow);
  entry_picks : string -> Z -> option GameweekPicks;
  element_summary : Z -> option (list RoundRecord)
}.

(** The requests [axios.get] can be asked for. *)
Inductive Call : Type :=
| GetBootstrapStatic
| GetEntry (managerId : string)
| GetEntryHistory (managerId : string)
| GetLeagueStandings
| GetEntryPicks (managerId : string) (gw : Z)
| GetElementSummary (playerId : Z).

(** ** Requests and exceptions *)

(** A computation receives the requests issued so far and returns them
    extended, with a value or [None] for a thrown exception. *)
Definition M (A : Type) : Type := list Call -> option A * list Call.

Definition ret {A} (a : A) : M A := fun log => (Some a, log).

Definition bind {A B} (m : M A) (k : A -> M B) : M B :=
  fun log =>
    match m log with
    | (Some a, log') => k a log'
    | (None, log') => (None, log')
    end.

Definition throw {A} : M A := fun log => (None, log).

(** [await axios.get(url)]: the request is issued, then its answer awaited. *)
Definition axios_get {A} (c : Call) (answer : option A) : M A :=
  fun log => (answer, log ++ [c]).

(** A value that is there, or a [TypeError]. *)
Definition defined {A} (o : option A) : M A :=
  match o with
  | Some a => ret a
  | None => throw
  end.

Declare Scope js_scope.
Delimit Scope js_scope with js.
Notation "x <- m ;; k" := (bind m (fun x => k))
  (at level 61, m at next level, right associativity) : js_scope.
Notation "' p <- m ;; k" := (bind m (fun x => match x with p => k end))
  (at level 61, p pattern, m at next level, right associativity) : js_scope.
Local Open Scope js_scope.

(** ** State of the analysis *)

Inductive Position : Type := GKP | DEF | MID | FWD.

Definition position_label (p : Position) : string :=
  match p with GKP => "GKP" | DEF => "DEF" | MID => "MID" | FWD => "FWD" end.

Record PlayerStat := {
  name : string;
  team_label : string;
  stat_position : option Position;
  totalPointsActive : Z;
  gwInSquad : Z;
  starts : Z;
  cappedPoints : Z;
  playerPoints : Z
}.

Record PositionEntry := { entry_label : string; points : Z }.

(** [positionPoints]: one dictionary per position label. *)
Record PositionPoints := {
  of_GKP : Js.obj PositionEntry;
  of_DEF : Js.obj PositionEntry;
  of_MID : Js.obj PositionEntry;
  of_FWD : Js.obj PositionEntry
}.

(** [positionPoints[position]]. *)
Definition get_position (pp : PositionPoints) (p : Position) : Js.obj PositionEntry :=
  match p with
  | GKP => of_GKP pp
  | DEF => of_DEF pp
  | MID => of_MID pp
  | FWD => of_FWD pp
  end.

Definition set_position (pp : PositionPoints) (p : Position)
    (o : Js.obj PositionEntry) : PositionPoints :=
  match p with
  | GKP => {| of_GKP := o; of_DEF := of_DEF pp; of_MID := of_MID pp; of_FWD := of_FWD pp |}
  | DEF => {| of_GKP := of_GKP pp; of_DEF := o; of_MID := of_MID pp; of_FWD := of_FWD pp |}
  | MID => {| of_GKP := of_GKP pp; of_DEF := of_DEF pp; of_MID := o; of_FWD := of_FWD pp |}
  | FWD => {| of_GKP := of_GKP pp; of_DEF := of_DEF pp; of_MID := of_MID pp; of_FWD := o |}
  end.

(** The variables the gameweek loop mutates.  [totalPointsActiveSum] is the
    handler's local [totalPointsActive]. *)
Record Acc := {
  totalCaptaincyPoints : Z;
  totalPointsActiveSum : Z;
  totalPointsLostOnBench : Z;
  playerStats : Js.obj PlayerStat;
  positionPoints : PositionPoints;
  weeklyPoints : list Z;
  weeklyRanks : list Z;
  highestPoints : Z;
  highestPointsGW : Z;
  lowestPoints : Js.num;
  lowestPointsGW : Z;
  highestRank : Js.num;
  highestRankGW : Z;
  lowestRank : Z;
  lowestRankGW : Z
}.

(** ** The report *)

Module Report.

Record ManagerInfo := {
  name : string;
  teamName : string;
  overallRanking : string;
  managerPoints : Z;
  allChipsUsed : string;
  lastSeasonRank : string;
  seasonBeforeLastRank : string;
  pointDifference : Z;
  totalPointsLostOnBench : Z;
  totalCaptaincyPoints : Z;
  currentGameweek : Z;
  highestPoints : Z;
  highestPointsGW : Z;
  lowestPoints : Js.num;
  lowestPointsGW : Z;
  highestRank : string;
  highestRankGW : Z;
  lowestRank : string;
  lowestRankGW : Z
}.

Record PositionSummary := {
  position : string;
  totalPoints : Z;
  players : list PositionEntry
}.

Record Analysis := {
  managerInfo : ManagerInfo;
  playerStats : list PlayerStat;
  positionSummary : list PositionSummary;
  weeklyPoints : list Z;
  weeklyRanks : list Z
}.

End Report.

Inductive Body : Type :=
| ErrorBody (error : string)
| AnalysisBody (analysis : Report.Analysis).

Record Response := { status : Z; body : Body }.

(** ** The handler of [/api/analyze-manager/:managerId] *)

Definition is_digit (c : ascii) : bool :=
  let n := nat_of_ascii c in (48 <=? n)%nat && (n <=? 57)%nat.

(** [/^\d+$/.test(s)]: one or more ASCII digits and nothing else. *)
Definition digits_only (s : string) : bool :=
  match list_ascii_of_string s with
  | [] => false
  | cs => forallb is_digit cs
  end.

(** [arr[i]] for a numeric index; [None] is [undefined]. *)
Definition index {A} (arr : list A) (i : Z) : option A :=
  if i <? 0 then None else nth_error arr (Z.to_nat i).

Definition chip_is (d : GameweekPicks) (label : string) : bool :=
  match active_chip d with
  | Some c => String.eqb c label
  | None => false
  end.

(** The record created for a player seen for the first time; reading
    [.name] of a team that is not there throws. *)
Definition new_stat (playerData : BootstrapData) (player : Player) : option PlayerStat :=
  match index (teams playerData) (team player - 1) with
  | None => None
  | Some t =>
      Some {| name := web_name player;
              team_label := team_name t;
              stat_position := index [GKP; DEF; MID; FWD] (element_type player - 1);
              totalPointsActive := 0;
              gwInSquad := 0;
              starts := 0;
              cappedPoints := 0;
              playerPoints := 0 |}
  end.

Definition add_playerPoints (s : PlayerStat) (d : Z) : PlayerStat :=
  {| name := name s; team_label := team_label s; stat_position := stat_position s;
     totalPointsActive := totalPointsActive s; gwInSquad := gwInSquad s;
     starts := starts s; cappedPoints := cappedPoints s;
     playerPoints := playerPoints s + d |}.

Definition add_cappedPoints (s : PlayerStat) (d : Z) : PlayerStat :=
  {| name := name s; team_label := team_label s; stat_position := stat_position s;
     totalPointsActive := totalPointsActive s; gwInSquad := gwInSquad s;
     starts := starts s; cappedPoints := cappedPoints s + d;
     playerPoints := playerPoints s |}.

Definition add_totalPointsActive (s : PlayerStat) (d : Z) : PlayerStat :=
  {| name := name s; team_label := team_label s; stat_position := stat_position s;
     totalPointsActive := totalPointsActive s + d; gwInSquad := gwInSquad s;
     starts := starts s; cappedPoints := cappedPoints s;
     playerPoints := playerPoints s |}.

Definition add_starts (s : PlayerStat) (d : Z) : PlayerStat :=
  {| name := name s; team_label := team_label s; stat_position := stat_position s;
     totalPointsActive := totalPointsActive s; gwInSquad := gwInSquad s;
     starts := starts s + d; cappedPoints := cappedPoints s;
     playerPoints := playerPoints s |}.

Definition add_gwInSquad (s : PlayerStat) (d : Z) : PlayerStat :=
  {| name := name s; team_label := team_label s; stat_position := stat_position s;
     totalPointsActive := totalPointsActive s; gwInSquad := gwInSquad s + d;
     starts := starts s; cappedPoints := cappedPoints s;
     playerPoints := playerPoints s |}.

(** The branch taken for an active pick: what it writes, given the player's
    record [s] after the raw accumulation. *)
Definition credit_active (a : Acc) (gwPoints : Z) (playerId : Z) (s : PlayerStat)
    (inStarting11 isCaptain isTripleCaptain : bool) (pointsThisWeek : Z)
    : option (Acc * Z) :=
  let activePoints :=
    if isCaptain then pointsThisWeek * (if isTripleCaptain then 3 else 2)
    else pointsThisWeek in
  let captaincy :=
    if isCaptain then totalCaptaincyPoints a + activePoints
    else totalCaptaincyPoints a in
  let s := if isCaptain then add_cappedPoints s activePoints else s in
  let s := add_totalPointsActive s activePoints in
  match stat_position s with
  | None => None
  | Some pos =>
      let entry :=
        match Js.get (get_position (positionPoints a) pos) playerId with
        | Some e => e
        | None => {| entry_label := name s; points := 0 |}
        end in
      let entry := {| entry_label := entry_label entry;
                      points := points entry + activePoints |} in
      let s := if inStarting11 then add_starts s 1 else s in
      let s := add_gwInSquad s 1 in
      Some ({| totalCaptaincyPoints := captaincy;
               totalPointsActiveSum := totalPointsActiveSum a + activePoints;
               totalPointsLostOnBench := totalPointsLostOnBench a;
               playerStats := Js.set (playerStats a) playerId s;
               positionPoints :=
                 set_position (positionPoints a) pos
                   (Js.set (get_position (positionPoints a) pos) playerId entry);
               weeklyPoints := weeklyPoints a;
               weeklyRanks := weeklyRanks a;
               highestPoints := highestPoints a;
               highestPointsGW := highestPointsGW a;
               lowestPoints := lowestPoints a;
               lowestPointsGW := lowestPointsGW a;
               highestRank := highestRank a;
               highestRankGW := highestRankGW a;
               lowestRank := lowestRank a;
               lowestRankGW := lowestRankGW a |},
            gwPoints + activePoints)
  end.

(** The [else] branch: a substitute in a week without bench boost. *)
Definition credit_bench (a : Acc) (playerId : Z) (s : PlayerStat)
    (pointsThisWeek : Z) : Acc :=
  {| totalCaptaincyPoints := totalCaptaincyPoints a;
     totalPointsActiveSum := totalPointsActiveSum a;
     totalPointsLostOnBench := totalPointsLostOnBench a + pointsThisWeek;
     playerStats := Js.set (playerStats a) playerId s;
     positionPoints := positionPoints a;
     weeklyPoints := weeklyPoints a;
     weeklyRanks := weeklyRanks a;
     highestPoints := highestPoints a;
     highestPointsGW := highestPointsGW a;
     lowestPoints := lowestPoints a;
     lowestPointsGW := lowestPointsGW a;
     highestRank := highestRank a;
     highestRankGW := highestRankGW a;
     lowestRank := lowestRank a;
     lowestRankGW := lowestRankGW a |}.

(** The body of the loop over the picks, from the creation of the player's
    record on: [None] is a thrown [TypeError]. *)
Definition accumulate (playerData : BootstrapData)
    (isBenchBoost isTripleCaptain : bool) (pick : Pick) (player : Player)
    (pointsThisWeek : Z) (st : Acc * Z) : option (Acc * Z) :=
  let '(a, gwPoints) := st in
  let playerId := element pick in
  let existing :=
    match Js.get (playerStats a) playerId with
    | Some s => Some s
    | None => new_stat playerData player
    end in
  match existing with
  | None => None
  | Some s =>
      let inStarting11 := position pick <=? 11 in
      let isCaptain := is_captain pick in
      let s := add_playerPoints s pointsThisWeek in
      if inStarting11 || isBenchBoost then
        credit_active a gwPoints playerId s inStarting11 isCaptain
          isTripleCaptain pointsThisWeek
      else
        Some (credit_bench a playerId s pointsThisWeek, gwPoints)
  end.

(** [resolveWeekPoints]: the score of the first record of the round, 0 when
    there is none. *)
Definition resolve_points (playerHistory : list RoundRecord) (gw : Z) : Z :=
  match find (fun history => round history =? gw) playerHistory with
  | Some gameweekHistory => total_points gameweekHistory
  | None => 0
  end.

Definition find_player (playerData : BootstrapData) (playerId : Z) : option Player :=
  find (fun p => id p =? playerId) (elements playerData).

Section Handler.
Variable up : Upstream.
Variable managerId : string.

(** [for (const pick of managerPicks)]. *)
Fixpoint pick_loop (playerData : BootstrapData) (gw : Z)
    (isBenchBoost isTripleCaptain : bool) (managerPicks : list Pick)
    (st : Acc * Z) : M (Acc * Z) :=
  match managerPicks with
  | [] => ret st
  | pick :: rest =>
      let playerId := element pick in
      match find_player playerData playerId with
      | None => pick_loop playerData gw isBenchBoost isTripleCaptain rest st
      | Some player =>
          playerHistory <- axios_get (GetElementSummary playerId)
                             (element_summary up playerId) ;;
          st' <- defined (accumulate playerData isBenchBoost isTripleCaptain
                            pick player (resolve_points playerHistory gw) st) ;;
          pick_loop playerData gw isBenchBoost isTripleCaptain rest st'
      end
  end.

(** [historyData.current.find(h => h.event === gw)?.overall_rank || 0]. *)
Definition resolve_rank (historyData : ManagerHistory) (gw : Z) : Z :=
  match find (fun h => event h =? gw) (current historyData) with
  | Some h =>
      match overall_rank h with
      | Some r => r
      | None => 0
      end
  | None => 0
  end.

(** The end of one gameweek: the weekly entries and the four extrema. *)
Definition update_weekly (a : Acc) (gw gwPoints gwRank : Z) : Acc :=
  let hp := gwPoints >? highestPoints a in
  let lp := Js.ltb_num gwPoints (lowestPoints a) in
  let hr := Js.ltb_num gwRank (highestRank a) in
  let lr := gwRank >? lowestRank a in
  {| totalCaptaincyPoints := totalCaptaincyPoints a;
     totalPointsActiveSum := totalPointsActiveSum a;
     totalPointsLostOnBench := totalPointsLostOnBench a;
     playerStats := playerStats a;
     positionPoints := positionPoints a;
     weeklyPoints := Js.array_set (weeklyPoints a) (Z.to_nat (gw - 1)) gwPoints;
     weeklyRanks := Js.array_set (weeklyRanks a) (Z.to_nat (gw - 1)) gwRank;
     highestPoints := if hp then gwPoints else highestPoints a;
     highestPointsGW := if hp then gw else highestPointsGW a;
     lowestPoints := if lp then Js.Fin gwPoints else lowestPoints a;
     lowestPointsGW := if lp then gw else lowestPointsGW a;
     highestRank := if hr then Js.Fin gwRank else highestRank a;
     highestRankGW := if hr then gw else highestRankGW a;
     lowestRank := if lr then gwRank else lowestRank a;
     lowestRankGW := if lr then gw else lowestRankGW a |}.

(** One iteration of [for (let gw = 1; gw <= currentGameweek; gw++)]. *)
Definition gameweek (playerData : BootstrapData) (historyData : ManagerHistory)
    (gw : Z) (a : Acc) : M Acc :=
  managerPicksData <- axios_get (GetEntryPicks managerId gw)
                        (entry_picks up managerId gw) ;;
  let isBenchBoost := chip_is managerPicksData "bboost" in
  let isTripleCaptain := chip_is managerPicksData "3xc" in
  '(a', gwPoints) <- pick_loop playerData gw isBenchBoost isTripleCaptain
                       (picks managerPicksData) (a, 0) ;;
  ret (update_weekly a' gw gwPoints (resolve_rank historyData gw)).

(** [n] iterations starting at gameweek [gw]. *)
Fixpoint gw_loop (playerData : BootstrapData) (historyData : ManagerHistory)
    (n : nat) (gw : Z) (a : Acc) : M Acc :=
  match n with
  | O => ret a
  | S n' =>
      a' <- gameweek playerData historyData gw a ;;
      gw_loop playerData historyData n' (gw + 1) a'
  end.

(** The variables as initialised before the loop. *)
Definition initial (currentGameweek : Z) : Acc :=
  {| totalCaptaincyPoints := 0;
     totalPointsActiveSum := 0;
     totalPointsLostOnBench := 0;
     playerStats := [];
     positionPoints := {| of_GKP := []; of_DEF := []; of_MID := []; of_FWD := [] |};
     weeklyPoints := repeat 0 (Z.to_nat currentGameweek);
     weeklyRanks := repeat 0 (Z.to_nat currentGameweek);
     highestPoints := 0;
     highestPointsGW := 0;
     lowestPoints := Js.Infinity;
     lowestPointsGW := 0;
     highestRank := Js.Infinity;
     highestRankGW := 0;
     lowestRank := 0;
     lowestRankGW := 0 |}.

(** [Promise.all] over the four upfront requests: all four are issued, and
    one failure rejects the whole. *)
Definition fetch_upfront
    : M (BootstrapData * ManagerEntry * ManagerHistory * list StandingRow) :=
  fun log =>
    let log' := log ++ [GetBootstrapStatic; GetEntry managerId;
                        GetEntryHistory managerId; GetLeagueStandings] in
    match bootstrap_static up, entry up managerId,
          entry_history up managerId, league_standings up with
    | Some b, Some e, Some h, Some l => (Some (b, e, h, l), log')
    | _, _, _, _ => (None, log')
    end.

Definition by_active_points (x y : PlayerStat) : bool :=
  totalPointsActive y <=? totalPointsActive x.

Definition by_points (x y : PositionEntry) : bool := points y <=? points x.

Definition summarise (pp : PositionPoints) (p : Position) : Report.PositionSummary :=
  {| Report.position := position_label p;
     Report.totalPoints :=
       fold_left (fun sum player => sum + points player)
                 (Js.values (get_position pp p)) 0;
     Report.players := Js.sort by_points (Js.values (get_position pp p)) |}.

Definition past_rank (historyData : ManagerHistory) (back : nat) : string :=
  let n := List.length (past historyData) in
  if (back <? n)%nat then
    match nth_error (past historyData) (n - 1 - back) with
    | Some p => Js.toLocaleString_int (rank p)
    | None => "Didn't Play"
    end
  else "Didn't Play".

(** The [analysis] object. *)
Definition assemble (managerEntryData : ManagerEntry) (historyData : ManagerHistory)
    (topManagerPoints currentGameweek : Z) (a : Acc) : Report.Analysis :=
  {| Report.managerInfo :=
       {| Report.name := (player_first_name managerEntryData ++ " "
                          ++ player_last_name managerEntryData)%string;
          Report.teamName := entry_name managerEntryData;
          Report.overallRanking :=
            match summary_overall_rank managerEntryData with
            | Some r => Js.toLocaleString_int r
            | None => "N/A"
            end;
          Report.managerPoints := summary_overall_points managerEntryData;
          Report.allChipsUsed :=
            (let s := Js.join ", " (map chip_name (chips historyData)) in
             if String.eqb s "" then "None" else s);
          Report.lastSeasonRank := past_rank historyData 0;
          Report.seasonBeforeLastRank := past_rank historyData 1;
          Report.pointDifference :=
            summary_overall_points managerEntryData - topManagerPoints;
          Report.totalPointsLostOnBench := totalPointsLostOnBench a;
          Report.totalCaptaincyPoints := totalCaptaincyPoints a;
          Report.currentGameweek := currentGameweek;
          Report.highestPoints := highestPoints a;
          Report.highestPointsGW := highestPointsGW a;
          Report.lowestPoints := lowestPoints a;
          Report.lowestPointsGW := lowestPointsGW a;
          Report.highestRank := Js.toLocaleString (highestRank a);
          Report.highestRankGW := highestRankGW a;
          Report.lowestRank := Js.toLocaleString_int (lowestRank a);
          Report.lowestRankGW := lowestRankGW a |};
     Report.playerStats := Js.sort by_active_points (Js.values (playerStats a));
     Report.positionSummary := map (summarise (positionPoints a)) [GKP; DEF; MID; FWD];
     Report.weeklyPoints := weeklyPoints a;
     Report.weeklyRanks := weeklyRanks a |}.

(** The [try] block up to the end of the gameweek loop: the values the
    report is assembled from. *)
Definition run_loop : M (ManagerEntry * ManagerHistory * Z * Z * Acc) :=
  '(playerData, managerEntryData, historyData, leagueData) <- fetch_upfront ;;
  current_event <- defined (find is_current (events playerData)) ;;
  let currentGameweek := event_id current_event in
  top <- defined (hd_error leagueData) ;;
  let topManagerPoints := total top in
  if (currentGameweek <? 0) || (4294967295 <? currentGameweek) then throw
  else
    a <- gw_loop playerData historyData (Z.to_nat currentGameweek) 1
           (initial currentGameweek) ;;
    ret (managerEntryData, historyData, topManagerPoints, currentGameweek, a).

(** The [try] block. *)
Definition analyze : M Report.Analysis :=
  '(managerEntryData, historyData, topManagerPoints, currentGameweek, a) <- run_loop ;;
  ret (assemble managerEntryData historyData topManagerPoints currentGameweek a).

(** The handler: the response sent and the upstream requests issued. *)
Definition analyze_manager : Response * list Call :=
  if negb (digits_only managerId) then
    ({| status := 400; body := ErrorBody "Invalid manager ID format" |}, [])
  else
    match analyze [] with
    | (Some analysis, log) => ({| status := 200; body := AnalysisBody analysis |}, log)
    | (None, log) => ({| status := 500; body := ErrorBody "Failed to analyze manager" |}, log)
    end.
End Handler.

(** ** The bootstrap cache of the Vercel revision *)

Module BootstrapCache.

Definition CACHE_DURATION : Z := 3600000.

(** The module-level variables, and the number of upstream requests issued
    so far.  The payload is the bootstrap object, which is truthy. *)
Record State := {
  bootstrapCache : option BootstrapData;
  bootstrapCacheTime : option Z;
  fetches : nat
}.

Definition start : State :=
  {| bootstrapCache := None; bootstrapCacheTime := None; fetches := 0 |}.

(** Truthiness of [bootstrapCacheTime]: [null] and [0] are falsy. *)
Definition time_truthy (t : option Z) : bool :=
  match t with
  | Some z => negb (z =? 0)
  | None => false
  end.

Definition fresh (s : State) (now : Z) : bool :=
  match bootstrapCache s, bootstrapCacheTime s with
  | Some _, Some t => time_truthy (Some t) && (now - t <? CACHE_DURATION)
  | _, _ => false
  end.

(** One call that runs to completion: [now] is what [Date.now()] returns
    and [answer] what the provider would answer ([None]: the request
    fails and the call rejects).  The result is the value returned. *)
Definition getBootstrapData (now : Z) (answer : option BootstrapData)
    (s : State) : option BootstrapData * State :=
  if fresh s now then (bootstrapCache s, s)
  else
    match answer with
    | Some data =>
        (Some data,
         {| bootstrapCache := Some data;
            bootstrapCacheTime := Some now;
            fetches := S (fetches s) |})
    | None =>
        (None,
         {| bootstrapCache := bootstrapCache s;
            bootstrapCacheTime := bootstrapCacheTime s;
            fetches := S (fetches s) |})
    end.

(** Calls made one after the other. *)
Fixpoint calls (cs : list (Z * option BootstrapData)) (s : State)
    : list (option BootstrapData) * State :=
  match cs with
  | [] => ([], s)
  | (now, answer) :: rest =>
      let '(r, s') := getBootstrapData now answer s in
      let '(rs, s'') := calls rest s' in
      (r :: rs, s'')
  end.

(** Every later call is less than the cache duration after every earlier
    one: the calls fall within one cache window. *)
Fixpoint within_window (times : list Z) : Prop :=
  match times with
  | [] => True
  | t :: rest => Forall (fun t' => t' - t < CACHE_DURATION) rest /\ within_window rest
  end.

End BootstrapCache.

(** ** Properties the statements are written with *)

Definition sum (l : list Z) : Z := fold_right Z.add 0 l.

(** The keys of a dictionary in creation order. *)
Definition keys {V} (o : Js.obj V) : list Z := map fst o.

(** A counter of a player's record, 0 while the player has none. *)
Definition credited (o : Js.obj PlayerStat) (playerId : Z) (f : PlayerStat -> Z) : Z :=
  match Js.get o playerId with
  | Some s => f s
  | None => 0
  end.

(** [a] is the state a computation ends in, whatever was requested before. *)
Definition returns {A} (m : M A) (a : A) : Prop :=
  exists log log', m log = (Some a, log').

(** What an active pick adds, from its base points. *)
Definition contribution (isCaptain isTripleCaptain : bool) (p : Z) : Z :=
  if isCaptain then (if isTripleCaptain then p * 3 else p * 2) else p.

(** Gameweek [g] is the first whose entry of [arr] is [v]. *)
Definition earliest (arr : list Z) (v g : Z) : Prop :=
  1 <= g <= Z.of_nat (List.length arr) /\
  nth (Z.to_nat (g - 1)) arr 0 = v /\
  forall j, (j < Z.to_nat (g - 1))%nat -> nth j arr 0 <> v.

(** Every score the provider reports is non-negative. *)
Definition scores_nonneg (up : Upstream) : Prop :=
  forall playerId h r,
    element_summary up playerId = Some h -> In r h -> 0 <= total_points r.

(** The weekly arrays and the extrema are the same in two states. *)
Definition same_weekly (a a' : Acc) : Prop :=
  weeklyPoints a' = weeklyPoints a /\ weeklyRanks a' = weeklyRanks a /\
  highestPoints a' = highestPoints a /\ highestPointsGW a' = highestPointsGW a /\
  lowestPoints a' = lowestPoints a /\ lowestPointsGW a' = lowestPointsGW a /\
  highestRank a' = highestRank a /\ highestRankGW a' = highestRankGW a /\
  lowestRank a' = lowestRank a /\ lowestRankGW a' = lowestRankGW a.

(** Raw points cover the active points earned outside captaincy. *)
Definition raw_covers_uncapped (s : PlayerStat) : Prop :=
  totalPointsActive s - cappedPoints s <= playerPoints s.

(** The active points of all players together. *)
Definition player_total (a : Acc) : Z :=
  sum (map totalPointsActive (map snd (playerStats a))).

(** After [k] of [G] gameweeks: the weekly array has its length, is still 0
    from entry [k] on, and adds up to the running total, as the players do. *)
Definition totals_agree (G k : nat) (a : Acc) : Prop :=
  (k <= G)%nat ->
  List.length (weeklyPoints a) = G /\
  (forall j, (k <= j)%nat -> nth j (weeklyPoints a) 0 = 0) /\
  sum (weeklyPoints a) = totalPointsActiveSum a /\
  player_total a = totalPointsActiveSum a.

(** A maximum that starts at 0 with gameweek 0: after [k] entries of [arr] it
    bounds them, and once positive it sits at gameweek [g], above every
    earlier entry. *)
Definition max_tracked (arr : list Z) (k : nat) (v g : Z) : Prop :=
  (forall j, (j < k)%nat -> nth j arr 0 <= v) /\
  ((v = 0 /\ g = 0) \/
   (0 < v /\ 1 <= g <= Z.of_nat k /\
    nth (Z.to_nat (g - 1)) arr 0 = v /\
    forall j, (j < Z.to_nat (g - 1))%nat -> nth j arr 0 < v)).

(** A minimum that starts at [Infinity] with gameweek 0: after the first
    entry it is finite, bounds the entries seen, and sits at gameweek [g],
    below every earlier entry. *)
Definition min_tracked (arr : list Z) (k : nat) (v : Js.num) (g : Z) : Prop :=
  match k with
  | O => v = Js.Infinity /\ g = 0
  | S _ =>
      exists z, v = Js.Fin z /\
        (forall j, (j < k)%nat -> z <= nth j arr 0) /\
        1 <= g <= Z.of_nat k /\
        nth (Z.to_nat (g - 1)) arr 0 = z /\
        forall j, (j < Z.to_nat (g - 1))%nat -> z < nth j arr 0
  end.

(** After [k] of [G] gameweeks: the weekly arrays and the four extrema. *)
Definition extrema_tracked (hist : ManagerHistory) (G k : nat) (a : Acc) : Prop :=
  (k <= G)%nat ->
  List.length (weeklyPoints a) = G /\
  List.length (weeklyRanks a) = G /\
  (forall j, (j < k)%nat ->
     nth j (weeklyRanks a) 0 = resolve_rank hist (Z.of_nat j + 1)) /\
  max_tracked (weeklyPoints a) k (highestPoints a) (highestPointsGW a) /\
  min_tracked (weeklyPoints a) k (lowestPoints a) (lowestPointsGW a) /\
  min_tracked (weeklyRanks a) k (highestRank a) (highestRankGW a) /\
  max_tracked (weeklyRanks a) k (lowestRank a) (lowestRankGW a).

(** The players accumulated so far have distinct keys, all array indices. *)
Definition index_keys (a : Acc) : Prop :=
  NoDup (keys (playerStats a)) /\
  Forall (fun k => Js.is_array_index k = true) (keys (playerStats a)).

(** A call the cache can answer for an hour: the clock does not read 0 and
    the provider answers. *)
Definition answered (c : Z * option BootstrapData) : Prop :=
  fst c <> 0 /\ snd c <> None.

(** ** Sample data *)

Module Sample.

Definition player (i : Z) (label : string) : Player :=
  {| id := i; web_name := label; team := 1; element_type := 3 |}.

Definition bootstrap (currentGameweek : Z) (ps : list Player) : BootstrapData :=
  {| events := [ {| event_id := currentGameweek; is_current := true |} ];
     teams := [ {| team_name := "Arsenal"; team_short_name := "ARS" |} ];
     elements := ps |}.

Definition manager : ManagerEntry :=
  {| player_first_name := "Ada"; player_last_name := "Byron";
     entry_name := "Engines"; summary_overall_rank := Some 1200;
     summary_overall_points := 100 |}.

Definition upstream (currentGameweek : Z) (ps : list Player)
    (hist : list SeasonRecord) (squad : Z -> GameweekPicks)
    (scores : Z -> list RoundRecord) : Upstream :=
  {| bootstrap_static := Some (bootstrap currentGameweek ps);
     entry := fun _ => Some manager;
     entry_history := fun _ =>
       Some {| current := hist; chips := []; past := [] |};
     league_standings := Some [ {| total := 150 |} ];
     entry_picks := fun _ gw => Some (squad gw);
     element_summary := fun playerId => Some (scores playerId) |}.

(** One gameweek, one starter who is captain and scores 5. *)
Definition captain_week : Upstream :=
  upstream 1 [player 5 "Saka"]
    [ {| event := 1; overall_rank := Some 1200 |} ]
    (fun _ => {| picks := [ {| element := 5; position := 1; is_captain := true |} ];
                 active_chip := None |})
    (fun _ => [ {| round := 1; total_points := 5 |} ]).

(** One gameweek in which nobody has played yet. *)
Definition opening_week : Upstream :=
  upstream 1 [player 5 "Saka"]
    [ {| event := 1; overall_rank := Some 1200 |} ]
    (fun _ => {| picks := [ {| element := 5; position := 1; is_captain := false |} ];
                 active_chip := None |})
    (fun _ => []).

(** Two gameweeks, no season record for either. *)
Definition no_ranks : Upstream :=
  upstream 2 [player 5 "Saka"] []
    (fun _ => {| picks := [ {| element := 5; position := 1; is_captain := false |} ];
                 active_chip := None |})
    (fun _ => [ {| round := 1; total_points := 2 |};
                {| round := 2; total_points := 6 |} ]).

(** One gameweek, player 5 picked before player 3, neither scoring. *)
Definition tied : Upstream :=
  upstream 1 [player 3 "Rice"; player 5 "Saka"]
    [ {| event := 1; overall_rank := Some 1200 |} ]
    (fun _ => {| picks := [ {| element := 5; position := 1; is_captain := false |};
                            {| element := 3; position := 2; is_captain := false |} ];
                 active_chip := None |})
    (fun _ => []).

Definition starter (i : Z) (captain : bool) : Pick :=
  {| element := i; position := 1; is_captain := captain |}.

Definition substitute (i : Z) : Pick :=
  {| element := i; position := 12; is_captain := false |}.

Definition week (ps : list Pick) (chip : option string) : GameweekPicks :=
  {| picks := ps; active_chip := chip |}.

Definition initial1 : Acc * Z := (initial 1, 0).

(** The state after a first pick of player 5 scoring [p]. *)
Definition after (d : GameweekPicks) (pick : Pick) (p : Z) : Acc * Z :=
  match accumulate (bootstrap 1 [player 5 "Saka"]) (chip_is d "bboost")
          (chip_is d "3xc") pick (player 5 "Saka") p initial1 with
  | Some st => st
  | None => initial1
  end.

Definition history (hist : list SeasonRecord) : ManagerHistory :=
  {| current := hist; chips := []; past := [] |}.

(** The state a sample run leaves after [n] gameweeks. *)
Definition state (up : Upstream) (currentGameweek : Z) (ps : list Player)
    (hist : list SeasonRecord) (n : nat) : Acc :=
  match fst (gw_loop up "42" (bootstrap currentGameweek ps) (history hist) n 1
               (initial currentGameweek) []) with
  | Some a => a
  | None => initial currentGameweek
  end.

Definition captain_week_state : Acc :=
  state captain_week 1 [player 5 "Saka"]
    [ {| event := 1; overall_rank := Some 1200 |} ] 1.

(** The report of a sample run. *)
Definition report (up : Upstream) : option Report.Analysis :=
  match body (fst (analyze_manager up "42")) with
  | AnalysisBody an => Some an
  | ErrorBody _ => None
  end.

Definition analysis (up : Upstream) : Report.Analysis :=
  match report up with
  | Some an => an
  | None => assemble manager (history []) 0 0 (initial 0)
  end.

(** Seven gameweeks; player 5 starts each week and scores 9 in gameweeks
    3 and 7, less in the others. *)
Definition seven_weeks : Upstream :=
  upstream 7 [player 5 "Saka"] []
    (fun _ => week [starter 5 false] None)
    (fun _ => [ {| round := 1; total_points := 2 |};
                {| round := 2; total_points := 3 |};
                {| round := 3; total_points := 9 |};
                {| round := 4; total_points := 1 |};
                {| round := 5; total_points := 4 |};
                {| round := 6; total_points := 2 |};
                {| round := 7; total_points := 9 |} ]).

Definition tied_state : Acc :=
  state tied 1 [player 3 "Rice"; player 5 "Saka"]
    [ {| event := 1; overall_rank := Some 1200 |} ] 1.

(** A cache filled at time 1000. *)
Definition filled : BootstrapCache.State :=
  {| BootstrapCache.bootstrapCache := Some (bootstrap 1 []);
     BootstrapCache.bootstrapCacheTime := Some 1000;
     BootstrapCache.fetches := 1 |}.

(** Two gameweeks: player 5 starts as captain and scores 4 each week, player
    3 sits on the bench and scores 3 each week; bench boost in gameweek 2. *)
Definition bench_boost_season : Upstream :=
  upstream 2 [player 3 "Rice"; player 5 "Saka"] []
    (fun gw => week [starter 5 true; substitute 3]
                 (if gw =? 2 then Some "bboost" else None))
    (fun playerId =>
       let p := if playerId =? 5 then 4 else 3 in
       [ {| round := 1; total_points := p |}; {| round := 2; total_points := p |} ]).

(** Three calls in the same hour, starting with an empty cache. *)
Definition three_calls : list (Z * option BootstrapData) :=
  [(1000, Some (bootstrap 1 []));
   (2000, Some (bootstrap 2 []));
   (3000000, Some (bootstrap 3 []))].

Definition stat (label : string) (active gws sts capped raw : Z) : PlayerStat :=
  {| name := label; team_label := "Arsenal"; stat_position := Some MID;
     totalPointsActive := active; gwInSquad := gws; starts := sts;
     cappedPoints := capped; playerPoints := raw |}.

End Sample.

(** ** The requests of a run *)

(** A pick whose player is among the bootstrap elements. *)
Definition known (pd : BootstrapData) (pick : Pick) : bool :=
  match find_player pd (element pick) with
  | Some _ => true
  | None => false
  end.

(** The requests the picks of one gameweek cost. *)
Definition pick_requests (pd : BootstrapData) (ps : list Pick) : list Call :=
  map (fun pick => GetElementSummary (element pick)) (filter (known pd) ps).

(** The requests of gameweek [gw]: its picks, then its known players. *)
Definition week_requests (up : Upstream) (managerId : string)
    (pd : BootstrapData) (gw : Z) : list Call :=
  GetEntryPicks managerId gw ::
  match entry_picks up managerId gw with
  | Some d => pick_requests pd (picks d)
  | None => []
  end.

(** Gameweeks [k + 1] to [k + n]. *)
Definition gameweeks_from (k n : nat) : list Z :=
  map (fun j => Z.of_nat j + 1) (seq k n).

Definition upfront_requests (managerId : string) : list Call :=
  [GetBootstrapStatic; GetEntry managerId; GetEntryHistory managerId;
   GetLeagueStandings].

(** Every request of gameweek [gw] is answered. *)
Definition week_answered (up : Upstream) (managerId : string)
    (pd : BootstrapData) (gw : Z) : Prop :=
  exists d,
    entry_picks up managerId gw = Some d /\
    forall pick, In pick (picks d) -> known pd pick = true ->
                 element_summary up (element pick) <> None.

(** ** What a player's record keeps *)

(** The fields copied from the bootstrap data when the record is created. *)
Definition same_identity (s s0 : PlayerStat) : Prop :=
  name s = name s0 /\ team_label s = team_label s0 /\
  stat_position s = stat_position s0.

(** Every record belongs to the bootstrap element found for its key, and
    counts no more starts than gameweeks in the squad. *)
Definition records_sound (pd : BootstrapData) (a : Acc) : Prop :=
  forall k s, In (k, s) (playerStats a) ->
    (exists p s0, find_player pd k = Some p /\ new_stat pd p = Some s0 /\
                  same_identity s s0) /\
    0 <= starts s <= gwInSquad s.

Definition capped_total (a : Acc) : Z :=
  sum (map cappedPoints (map snd (playerStats a))).

(** The points of all entries of [positionPoints]. *)
Definition position_total (pp : PositionPoints) : Z :=
  sum (map (fun p => sum (map points (map snd (get_position pp p))))
           [GKP; DEF; MID; FWD]).

(** ** More sample data *)

Module Sample2.

(** An upstream whose league standings cannot be fetched. *)
Definition no_standings : Upstream :=
  {| bootstrap_static := bootstrap_static Sample.captain_week;
     entry := entry Sample.captain_week;
     entry_history := entry_history Sample.captain_week;
     league_standings := None;
     entry_picks := entry_picks Sample.captain_week;
     element_summary := element_summary Sample.captain_week |}.

(** Two gameweeks; the picks of the second cannot be fetched. *)
Definition second_week_down : Upstream :=
  {| bootstrap_static := bootstrap_static Sample.no_ranks;
     entry := entry Sample.no_ranks;
     entry_history := entry_history Sample.no_ranks;
     league_standings := league_standings Sample.no_ranks;
     entry_picks := fun m gw => if gw =? 2 then None else entry_picks Sample.no_ranks m gw;
     element_summary := element_summary Sample.no_ranks |}.

End Sample2.

(** ** What [positionPoints] keeps *)

Definition position_eq_dec (p q : Position) : {p = q} + {p <> q}.
Proof. decide equality. Defined.

(** Every entry of [positionPoints] is the entry of a player with a record of
    that position, the same name and the same active points; a record without
    an entry, or without a position, has no active points; no dictionary
    lists a key twice. *)
Definition entries_match (a : Acc) : Prop :=
  NoDup (keys (playerStats a)) /\
  (forall pos, NoDup (keys (get_position (positionPoints a) pos))) /\
  (forall pos k e,
      Js.get (get_position (positionPoints a) pos) k = Some e ->
      exists s, Js.get (playerStats a) k = Some s /\
                stat_position s = Some pos /\
                points e = totalPointsActive s /\
                entry_label e = name s) /\
  (forall k s pos,
      Js.get (playerStats a) k = Some s ->
      stat_position s = Some pos ->
      Js.get (get_position (positionPoints a) pos) k = None ->
      totalPointsActive s = 0) /\
  (forall k s,
      Js.get (playerStats a) k = Some s ->
      stat_position s = None ->
      totalPointsActive s = 0).

(** ** The handler of [/api/player-stats/:position] *)

Module PlayerStatsRoute.

Definition lower_ascii (c : ascii) : ascii :=
  let n := nat_of_ascii c in
  if (65 <=? n)%nat && (n <=? 90)%nat then ascii_of_nat (n + 32) else c.

(** The Kelvin sign, U+212A, in UTF-8: the one character outside ASCII that
    lower-cases to an ASCII letter. *)
Definition is_kelvin (a b c : ascii) : bool :=
  (nat_of_ascii a =? 226)%nat && (nat_of_ascii b =? 132)%nat
  && (nat_of_ascii c =? 170)%nat.

(** [String.prototype.toLowerCase] on a string held as UTF-8, as far as a
    comparison with an ASCII key can tell: A to Z and the Kelvin sign become
    ASCII letters; any other character outside ASCII lower-cases to
    characters outside ASCII and is left as it is. *)
Fixpoint toLowerCase (s : string) : string :=
  match s with
  | EmptyString => EmptyString
  | String a t =>
      match t with
      | String b (String c rest) =>
          if is_kelvin a b c then String "k" (toLowerCase rest)
          else String (lower_ascii a) (toLowerCase t)
      | _ => String (lower_ascii a) (toLowerCase t)
      end
  end.

(** [positionMap[key]] when it is a number; the properties the object
    inherits are not. *)
Definition positionMap (key : string) : option Z :=
  if String.eqb key "gkp" then Some 1
  else if String.eqb key "def" then Some 2
  else if String.eqb key "mid" then Some 3
  else if String.eqb key "fwd" then Some 4
  else None.

(** [player.element_type === positionMap[...]]. *)
Definition has_type (code : option Z) (player : Player) : bool :=
  match code with
  | Some c => element_type player =? c
  | None => false
  end.

Inductive Body : Type :=
| ErrorBody (error : string)
| PlayersBody (filteredPlayers : list Player).

Record Response := { status : Z; body : Body }.

Definition player_stats (up : Upstream) (position : string) : Response * list Call :=
  match axios_get GetBootstrapStatic (bootstrap_static up) [] with
  | (Some data, log) =>
      let playerData := elements data in
      let filteredPlayers :=
        filter (has_type (positionMap (toLowerCase position))) playerData in
      ({| status := 200; body := PlayersBody filteredPlayers |}, log)
  | (None, log) =>
      ({| status := 500; body := ErrorBody "Failed to fetch player statistics" |}, log)
  end.

End PlayerStatsRoute.

(** ** The revision of the handler that reports the current team and the
    last five gameweeks (second listing of the Vercel file) *)

Module CurrentTeam.

Record TeamRef := { team_id : Z; short_name : string }.

Record Fixture := { is_home : bool; team_a : Z; team_h : Z; difficulty : Z }.

Record ElementSummary := { history : list RoundRecord; fixtures : list Fixture }.

Record Bootstrap := {
  events : list Event;
  teams : list TeamRef;
  elements : list Player
}.

Record Upstream := {
  bootstrap_static : option Bootstrap;
  entry : string -> option ManagerEntry;
  entry_history : string -> option ManagerHistory;
  league_standings : option (list StandingRow);
  entry_picks : string -> Z -> option GameweekPicks;
  element_summary : Z -> option ElementSummary
}.

Record NextFixture := { opponent : string; isHome : bool; next_difficulty : Z }.

Record TeamMember := { member_name : string; nextFixtures : list NextFixture }.

Record Last5Row := {
  row_name : string;
  row_position : option Position;
  row_team : string;
  last5GWPoints : list Z;
  totalLast5Points : Z
}.

Record Last5 := { players : list Last5Row; gameweeks : list string }.

(** The [analysis] object; its [managerInfo] is an empty object. *)
Record Analysis := {
  playerStats : list PlayerStat;
  positionSummary : list Report.PositionSummary;
  weeklyPoints : list Z;
  weeklyRanks : list Z;
  currentTeam : list TeamMember;
  last5GWsData : Last5
}.

Inductive Body : Type :=
| ErrorBody (error : string)
| AnalysisBody (analysis : Analysis).

Record Response := { status : Z; body : Body }.

Definition find_element (playerData : Bootstrap) (playerId : Z) : option Player :=
  find (fun p => id p =? playerId) (elements playerData).

(** [arr.map(f)] for a callback that can throw. *)
Fixpoint map_defined {A B} (f : A -> option B) (l : list A) : option (list B) :=
  match l with
  | [] => Some []
  | x :: t =>
      match f x with
      | None => None
      | Some y =>
          match map_defined f t with
          | None => None
          | Some ys => Some (y :: ys)
          end
      end
  end.

(** One of the next fixtures; reading [.short_name] of an opponent that is
    not among the teams throws. *)
Definition next_fixture (playerData : Bootstrap) (fixture : Fixture) : option NextFixture :=
  let isHome := is_home fixture in
  match find (fun t => team_id t =? (if isHome then team_a fixture else team_h fixture))
             (teams playerData) with
  | Some t =>
      Some {| opponent := short_name t; isHome := isHome;
              next_difficulty := difficulty fixture |}
  | None => None
  end.

(** [Array.from({ length: 5 }, (_, i) => currentGameweek - i)
      .filter(gw => gw > 0).reverse()]. *)
Definition last5GWs (currentGameweek : Z) : list Z :=
  rev (filter (fun gw => gw >? 0)
         (map (fun i => currentGameweek - Z.of_nat i) (seq 0 5))).

(** The row of one player, once his summary has arrived. *)
Definition history_row (playerData : Bootstrap) (last5 : list Z) (player : Player)
    (summary : ElementSummary) : option Last5Row :=
  let last5GWPoints := map (resolve_points (history summary)) last5 in
  match index (teams playerData) (team player - 1) with
  | None => None
  | Some t =>
      Some {| row_name := web_name player;
              row_position := index [GKP; DEF; MID; FWD] (element_type player - 1);
              row_team := short_name t;
              last5GWPoints := last5GWPoints;
              totalLast5Points :=
                fold_left (fun sum points => sum + points) last5GWPoints 0 |}
  end.

(** The known players of a squad, in squad order, and their requests. *)
Definition squad (playerData : Bootstrap) (managerPicks : list Pick) : list Player :=
  flat_map (fun pick =>
              match find_element playerData (element pick) with
              | Some player => [player]
              | None => []
              end) managerPicks.

Definition squad_requests (playerData : Bootstrap) (managerPicks : list Pick) : list Call :=
  map (fun player => GetElementSummary (id player)) (squad playerData managerPicks).

(** [`GW${gw}`]. *)
Definition label (gw : Z) : string :=
  ("GW" ++ NilZero.string_of_int (Z.to_int gw))%string.

Definition by_total (x y : Last5Row) : bool := totalLast5Points y <=? totalLast5Points x.

(** [.filter(data => data !== null)]. *)
Definition not_null {A} (l : list (option A)) : list A :=
  flat_map (fun data => match data with Some x => [x] | None => [] end) l.

Section Handler.
Variable up : Upstream.
Variable managerId : string.

Definition fetch_upfront
    : M (Bootstrap * ManagerEntry * ManagerHistory * list StandingRow) :=
  fun log =>
    let log' := log ++ [GetBootstrapStatic; GetEntry managerId;
                        GetEntryHistory managerId; GetLeagueStandings] in
    match bootstrap_static up, entry up managerId,
          entry_history up managerId, league_standings up with
    | Some b, Some e, Some h, Some l => (Some (b, e, h, l), log')
    | _, _, _, _ => (None, log')
    end.

(** [for (const pick of managerPicks)], filling [currentTeam]. *)
Fixpoint team_loop (playerData : Bootstrap) (managerPicks : list Pick)
    (currentTeam : list TeamMember) : M (list TeamMember) :=
  match managerPicks with
  | [] => ret currentTeam
  | pick :: rest =>
      match find_element playerData (element pick) with
      | None => team_loop playerData rest currentTeam
      | Some player =>
          fixturesResponse <- axios_get (GetElementSummary (id player))
                                (element_summary up (id player)) ;;
          nextFixtures <- defined (map_defined (next_fixture playerData)
                                     (firstn 5 (fixtures fixturesResponse))) ;;
          team_loop playerData rest
            (currentTeam ++ [ {| member_name := web_name player;
                                 nextFixtures := nextFixtures |} ])
      end
  end.

(** [Promise.all(managerPicks.map(async (pick) => ...))]: every callback runs
    up to its request before any answer is awaited, so all requests are
    issued; one rejection rejects the whole. *)
Definition history_promises (playerData : Bootstrap) (last5 : list Z)
    (managerPicks : list Pick) : M (list (option Last5Row)) :=
  fun log =>
    (map_defined
       (fun pick =>
          match find_element playerData (element pick) with
          | None => Some None
          | Some player =>
              match element_summary up (id player) with
              | None => None
              | Some summary =>
                  option_map Some (history_row playerData last5 player summary)
              end
          end) managerPicks,
     log ++ squad_requests playerData managerPicks).

Definition no_positions : PositionPoints :=
  {| of_GKP := []; of_DEF := []; of_MID := []; of_FWD := [] |}.

(** The [try] block. *)
Definition analyze : M Analysis :=
  '(playerData, managerEntryData, historyData, leagueData) <- fetch_upfront ;;
  current_event <- defined (find is_current (events playerData)) ;;
  let currentGameweek := event_id current_event in
  top <- defined (hd_error leagueData) ;;
  if (currentGameweek <? 0) || (4294967295 <? currentGameweek) then throw
  else
    let weeklyPoints := repeat 0 (Z.to_nat currentGameweek) in
    let weeklyRanks := repeat 0 (Z.to_nat currentGameweek) in
    managerPicksData <- axios_get (GetEntryPicks managerId currentGameweek)
                          (entry_picks up managerId currentGameweek) ;;
    let managerPicks := picks managerPicksData in
    currentTeam <- team_loop playerData managerPicks [] ;;
    let last5 := last5GWs currentGameweek in
    rows <- history_promises playerData last5 managerPicks ;;
    ret {| playerStats := Js.sort by_active_points (Js.values []);
           positionSummary := map (summarise no_positions) [GKP; DEF; MID; FWD];
           weeklyPoints := weeklyPoints;
           weeklyRanks := weeklyRanks;
           currentTeam := currentTeam;
           last5GWsData :=
             {| players := Js.sort by_total (not_null rows);
                gameweeks := map label last5 |} |}.

(** The handler: the response sent and the upstream requests issued.  This
    revision does not validate the manager id. *)
Definition analyze_manager : Response * list Call :=
  match analyze [] with
  | (Some analysis, log) => ({| status := 200; body := AnalysisBody analysis |}, log)
  | (None, log) => ({| status := 500; body := ErrorBody "Failed to analyze manager" |}, log)
  end.
End Handler.

(** *** Sample data *)

Definition sample_bootstrap : Bootstrap :=
  {| events := [ {| event_id := 3; is_current := true |} ];
     teams := [ {| team_id := 1; short_name := "ARS" |};
                {| team_id := 2; short_name := "CHE" |} ];
     elements := [Sample.player 3 "Rice"; Sample.player 5 "Saka"] |}.

Definition sample_summary (playerId : Z) : ElementSummary :=
  {| history := [ {| round := 1; total_points := playerId |};
                  {| round := 3; total_points := 2 * playerId |} ];
     fixtures := [ {| is_home := true; team_a := 2; team_h := 1; difficulty := 4 |} ] |}.

(** Gameweek 3 is current; the squad holds players 5 and 3 and an unknown
    player 9. *)
Definition sample : Upstream :=
  {| bootstrap_static := Some sample_bootstrap;
     entry := fun _ => Some Sample.manager;
     entry_history := fun _ => Some (Sample.history []);
     league_standings := Some [ {| total := 150 |} ];
     entry_picks := fun _ _ =>
       Some (Sample.week [Sample.starter 3 false; Sample.starter 9 false;
                          Sample.starter 5 true] None);
     element_summary := fun playerId => Some (sample_summary playerId) |}.

Definition sample_analysis : Analysis :=
  match body (fst (analyze_manager sample "abc")) with
  | AnalysisBody an => an
  | ErrorBody _ =>
      {| playerStats := []; positionSummary := []; weeklyPoints := [];
         weeklyRanks := []; currentTeam := [];
         last5GWsData := {| players := []; gameweeks := [] |} |}
  end.

End CurrentTeam.

(** ** The Vercel revision of the handler, which reads the bootstrap data
    through the cache (first listing of the Vercel file) *)

Module Vercel.

Record Info := {
  name : string;
  teamName : string;
  overallRanking : string;
  managerPoints : Z;
  allChipsUsed : string;
  lastSeasonRank : string;
  seasonBeforeLastRank : string;
  currentGameweek : Z
}.

Record Stat := {
  stat_id : Z;
  stat_name : string;
  stat_team : Z;
  position_label : option Position;
  totalPoints : Z;
  gamesPlayed : Z;
  last5Points : list Z
}.

Record UpcomingFixture := { opponent : string; difficulty : Z }.

(** A value of [playerDataMap]. *)
Record PlayerData := {
  player : Player;
  history : list RoundRecord;
  fixtures : list UpcomingFixture
}.

Record Performance := {
  perf_name : string;
  perf_gamesPlayed : Z;
  perf_totalPoints : Z
}.

Record Upcoming := {
  upcoming_id : Z;
  upcoming_name : string;
  upcoming_fixtures : list UpcomingFixture
}.

Record Analysis := {
  managerInfo : Info;
  playerStats : list Stat;
  weeklyPoints : list Z;
  weeklyRanks : list Z;
  last5GWPerformance : list Performance;
  upcomingFixtures : list Upcoming
}.

(** The 500 body also has a [details] field, which repeats what the failed
    request or the exception reported; it is not kept here. *)
Inductive Body : Type :=
| ErrorBody (error : string)
| AnalysisBody (analysis : Analysis).

Record Response := { status : Z; body : Body }.

(** What the batches work on: [playerDataMap], a [Map] in insertion order,
    and [analysis.playerStats]. *)
Record Loop := {
  playerDataMap : Js.obj PlayerData;
  stats : list Stat
}.

(** The callback of a batch.  Its body declares [const playerData] after the
    block entered when [playerDataMap] lacks the player, and that block reads
    [playerData.elements] first: the inner binding is still uninitialised
    there, so the read throws a [ReferenceError] and the rest of the block,
    the request and [playerDataMap.set] included, is never reached.  With
    the player in the map, the callback adds his statistics once. *)
Definition callback (pick : Pick) (st : Loop) : option Loop :=
  let playerId := element pick in
  match Js.get (playerDataMap st) playerId with
  | None => None
  | Some playerData =>
      match find (fun p => stat_id p =? playerId) (stats st) with
      | Some _ => Some st
      | None =>
          Some {| playerDataMap := playerDataMap st;
                  stats := stats st ++
                    [ {| stat_id := playerId;
                         stat_name := web_name (player playerData);
                         stat_team := team (player playerData);
                         position_label :=
                           index [GKP; DEF; MID; FWD]
                                 (element_type (player playerData) - 1);
                         totalPoints := 0;
                         gamesPlayed := 0;
                         last5Points := [] |} ] |}
      end
  end.

(** [batchPicks.map(async pick => ...)]: no callback reaches an [await], so
    they run one after the other, each to its end, also after one of them has
    thrown; the flag records a rejection. *)
Fixpoint run_callbacks (batchPicks : list Pick) (st : Loop) (rejected : bool)
    : Loop * bool :=
  match batchPicks with
  | [] => (st, rejected)
  | pick :: rest =>
      match callback pick st with
      | Some st' => run_callbacks rest st' rejected
      | None => run_callbacks rest st true
      end
  end.

(** [await Promise.all(...)] over one batch. *)
Definition batch (batchPicks : list Pick) (st : Loop) : M Loop :=
  match run_callbacks batchPicks st false with
  | (st', false) => ret st'
  | (_, true) => throw
  end.

Definition BATCH_SIZE : nat := 5.

(** [for (let i = 0; i < picks.length; i += BATCH_SIZE)]; [fuel] bounds the
    number of batches and is given the number of picks. *)
Fixpoint batch_loop (fuel : nat) (picks : list Pick) (st : Loop) : M Loop :=
  match fuel, picks with
  | O, _ => ret st
  | _, [] => ret st
  | S fuel', _ =>
      st' <- batch (firstn BATCH_SIZE picks) st ;;
      batch_loop fuel' (skipn BATCH_SIZE picks) st'
  end.

(** [Math.max(...historyData.current.map(h => h.event))], [None] being
    [-Infinity]. *)
Definition max_event (historyData : ManagerHistory) : option Z :=
  fold_right (fun h acc =>
                match acc with
                | None => Some (event h)
                | Some m => Some (Z.max (event h) m)
                end) None (current historyData).

Section Handler.
(** The global [isNaN] applied to a string; the conversion of the string to
    a number is not modelled. *)
Variable isNaN : string -> bool.
Variable up : Upstream.
Variable managerId : string.

(** [for (const gw of recentGameweeks)]. *)
Fixpoint recent_loop (recentGameweeks : list Z) (st : Loop) : M Loop :=
  match recentGameweeks with
  | [] => ret st
  | gw :: rest =>
      pickResponse <- axios_get (GetEntryPicks managerId gw)
                        (entry_picks up managerId gw) ;;
      st' <- batch_loop (List.length (picks pickResponse)) (picks pickResponse) st ;;
      recent_loop rest st'
  end.

(** One entry of [playerDataMap] in the two closing lists. *)
Definition performance (currentGameweek : Z) (data : PlayerData) : Performance :=
  let last5Points :=
    map total_points
        (filter (fun h => (round h >? currentGameweek - 5)
                          && (round h <=? currentGameweek)) (history data)) in
  {| perf_name := web_name (player data);
     perf_gamesPlayed := Z.of_nat (List.length last5Points);
     perf_totalPoints := fold_left (fun a b => a + b) last5Points 0 |}.

Definition upcoming (entry : Z * PlayerData) : Upcoming :=
  {| upcoming_id := fst entry;
     upcoming_name := web_name (player (snd entry));
     upcoming_fixtures := fixtures (snd entry) |}.

Definition by_total_points (x y : Stat) : bool := totalPoints y <=? totalPoints x.

(** The handler after its three upfront values have arrived. *)
Definition analyze (playerData : BootstrapData) (managerEntryData : ManagerEntry)
    (historyData : ManagerHistory) : M Analysis :=
  currentGameweek <-
    defined match find is_current (events playerData) with
            | Some currentEvent => Some (event_id currentEvent)
            | None => max_event historyData
            end ;;
  if (currentGameweek <? 0) || (4294967295 <? currentGameweek) then throw
  else
    let info :=
      {| name := (player_first_name managerEntryData ++ " "
                  ++ player_last_name managerEntryData)%string;
         teamName := entry_name managerEntryData;
         overallRanking :=
           match summary_overall_rank managerEntryData with
           | Some r => Js.toLocaleString_int r
           | None => "N/A"
           end;
         managerPoints := summary_overall_points managerEntryData;
         allChipsUsed :=
           (let s := Js.join ", " (map chip_name (chips historyData)) in
            if String.eqb s "" then "None" else s);
         lastSeasonRank := past_rank historyData 0;
         seasonBeforeLastRank := past_rank historyData 1;
         currentGameweek := currentGameweek |} in
    let gameweeks :=
      map (fun i => currentGameweek - Z.of_nat i) (seq 0 (Z.to_nat currentGameweek)) in
    let recentGameweeks := firstn 5 gameweeks in
    st <- recent_loop recentGameweeks {| playerDataMap := []; stats := [] |} ;;
    ret {| managerInfo := info;
           playerStats := Js.sort by_total_points (stats st);
           weeklyPoints := repeat 0 (Z.to_nat currentGameweek);
           weeklyRanks := repeat 0 (Z.to_nat currentGameweek);
           last5GWPerformance :=
             map (fun entry => performance currentGameweek (snd entry)) (playerDataMap st);
           upcomingFixtures := map upcoming (playerDataMap st) |}.

(** The handler, called at time [now] with the cache in state [cache]: the
    response, the requests issued and the cache afterwards.  The three
    upfront values are asked for together; [getBootstrapData] asks the
    provider only when the cache cannot answer, and stores an answer even if
    one of the other two requests fails. *)
Definition analyze_manager (now : Z) (cache : BootstrapCache.State)
    : Response * list Call * BootstrapCache.State :=
  if String.eqb managerId "" || isNaN managerId then
    ({| status := 400; body := ErrorBody "Invalid manager ID" |}, [], cache)
  else
    let '(playerData, cache') :=
      BootstrapCache.getBootstrapData now (bootstrap_static up) cache in
    let log :=
      (if BootstrapCache.fresh cache now then [] else [GetBootstrapStatic])
      ++ [GetEntry managerId; GetEntryHistory managerId] in
    match playerData, entry up managerId, entry_history up managerId with
    | Some playerData, Some managerEntryData, Some historyData =>
        match analyze playerData managerEntryData historyData log with
        | (Some analysis, log') =>
            ({| status := 200; body := AnalysisBody analysis |}, log', cache')
        | (None, log') =>
            ({| status := 500; body := ErrorBody "Failed to analyze manager" |}, log', cache')
        end
    | _, _, _ =>
        ({| status := 500; body := ErrorBody "Failed to analyze manager" |}, log, cache')
    end.

End Handler.

(** A stand-in for [isNaN] that is right on strings of digits. *)
Definition not_digits (s : string) : bool := negb (digits_only s).

End Vercel.

(** ** Sample data for the Vercel revision *)

Module VercelSample.

(** Gameweek 2 is current and its squad holds player 5. *)
Definition upstream : Upstream := Sample.no_ranks.

(** The same season with empty squads. *)
Definition empty_squads : Upstream :=
  Sample.upstream 2 [Sample.player 5 "Saka"] []
    (fun _ => Sample.week [] None) (fun _ => []).

Definition run (up : Upstream) (managerId : string) (now : Z)
    (cache : BootstrapCache.State) :=
  Vercel.analyze_manager Vercel.not_digits up managerId now cache.

End VercelSample.

(** * Properties *)

(** ** Dictionaries, arrays and sorting *)

Section SortFacts.
Variable A : Type.
Variable before : A -> A -> bool.

Lemma insert_sorted_perm (x : A) (l : list A) :
  Permutation (Js.insert_sorted before x l) (x :: l).
Proof.
  induction l as [|y t IH]; simpl.
  - apply Permutation_refl.
  - destruct (before x y).
    + apply Permutation_refl.
    + apply perm_trans with (y :: x :: t).
      * now apply perm_skip.
      * apply perm_swap.
Qed.

Lemma sort_perm (l : list A) : Permutation (Js.sort before l) l.
Proof.
  induction l as [|x t IH]; simpl.
  - apply perm_nil.
  - apply perm_trans with (x :: Js.sort before t).
    + apply insert_sorted_perm.
    + now apply perm_skip.
Qed.

(** An element is never moved over one of its own class. *)
Lemma insert_sorted_filter (p : A -> bool) (x : A) (l : list A) :
  (forall y, p x = true -> p y = true -> before x y = true) ->
  filter p (Js.insert_sorted before x l) = filter p (x :: l).
Proof.
  intros Hp. induction l as [|y t IH]; simpl; [reflexivity|].
  destruct (before x y) eqn:Hxy; [reflexivity|].
  simpl. rewrite IH. simpl.
  destruct (p x) eqn:Hx, (p y) eqn:Hy; try reflexivity.
  rewrite (Hp y eq_refl Hy) in Hxy. discriminate.
Qed.

Lemma sort_stable (p : A -> bool) (l : list A) :
  (forall x y, p x = true -> p y = true -> before x y = true) ->
  filter p (Js.sort before l) = filter p l.
Proof.
  intros Hp. induction l as [|x t IH]; simpl; [reflexivity|].
  rewrite insert_sorted_filter by (intros y; apply Hp).
  simpl. now rewrite IH.
Qed.

Hypothesis before_total : forall x y, before x y = false -> before y x = true.
Hypothesis before_trans :
  forall x y z, before x y = true -> before y z = true -> before x z = true.

Lemma insert_sorted_sorted (x : A) (l : list A) :
  StronglySorted (fun a b => before a b = true) l ->
  StronglySorted (fun a b => before a b = true) (Js.insert_sorted before x l).
Proof.
  induction 1 as [|y t Hs IH Hy]; simpl.
  - constructor; constructor.
  - destruct (before x y) eqn:Hxy.
    + constructor.
      * now constructor.
      * constructor; [exact Hxy|].
        rewrite Forall_forall in *. intros z Hz.
        apply before_trans with y; auto.
    + constructor; [exact IH|].
      rewrite Forall_forall in *. intros z Hz.
      apply (Permutation_in _ (insert_sorted_perm x t)) in Hz.
      destruct Hz as [<- | Hz]; auto.
Qed.

Lemma sort_sorted (l : list A) :
  StronglySorted (fun a b => before a b = true) (Js.sort before l).
Proof.
  induction l as [|x t IH]; simpl.
  - constructor.
  - now apply insert_sorted_sorted.
Qed.
End SortFacts.

Section ObjFacts.
Variable V : Type.
Implicit Types (o : Js.obj V) (k : Z) (v : V).

Lemma get_set_same o k v : Js.get (Js.set o k v) k = Some v.
Proof.
  induction o as [|[k' v'] o IH]; simpl.
  - now rewrite Z.eqb_refl.
  - destruct (k' =? k) eqn:E; simpl; rewrite E; auto.
Qed.

Lemma get_set_other o k k' v : k' <> k -> Js.get (Js.set o k v) k' = Js.get o k'.
Proof.
  intros Hne. induction o as [|[k0 v0] o IH]; simpl.
  - destruct (k =? k') eqn:E; [apply Z.eqb_eq in E; congruence | reflexivity].
  - destruct (k0 =? k) eqn:E; simpl.
    + apply Z.eqb_eq in E. subst k0.
      destruct (k =? k') eqn:E'; [apply Z.eqb_eq in E'; congruence | reflexivity].
    + now rewrite IH.
Qed.

Lemma get_In o k v : Js.get o k = Some v -> In (k, v) o.
Proof.
  induction o as [|[k' v'] o IH]; simpl; [discriminate|].
  destruct (k' =? k) eqn:E.
  - apply Z.eqb_eq in E. intros [= ->]. left. now subst.
  - intros H. right. auto.
Qed.

Lemma get_None_keys o k : Js.get o k = None -> ~ In k (keys o).
Proof.
  induction o as [|[k' v'] o IH]; simpl; [tauto|].
  destruct (k' =? k) eqn:E; [discriminate|].
  apply Z.eqb_neq in E. intros H [Hk | Hk]; [congruence | now apply IH].
Qed.

(** Writing a property leaves the others as they are. *)
Lemma In_set o k v k' v' :
  In (k', v') (Js.set o k v) -> In (k', v') o \/ (k', v') = (k, v).
Proof.
  induction o as [|[k0 v0] o IH]; simpl.
  - intros [H | []]. right. now symmetry.
  - destruct (k0 =? k) eqn:E; simpl.
    + apply Z.eqb_eq in E. subst k0. intros [H | H]; [right; now symmetry | left; now right].
    + intros [H | H]; [left; now left|]. destruct (IH H); [left; now right | now right].
Qed.

Lemma keys_set_present o k v v0 :
  Js.get o k = Some v0 -> keys (Js.set o k v) = keys o.
Proof.
  induction o as [|[k' v'] o IH]; simpl; [discriminate|].
  destruct (k' =? k) eqn:E; simpl; [reflexivity|].
  intros H. f_equal. now apply IH.
Qed.

Lemma keys_set_absent o k v :
  Js.get o k = None -> keys (Js.set o k v) = keys o ++ [k].
Proof.
  induction o as [|[k' v'] o IH]; simpl; [reflexivity|].
  destruct (k' =? k) eqn:E; simpl; [discriminate|].
  intros H. f_equal. now apply IH.
Qed.

Lemma NoDup_keys_set o k v : NoDup (keys o) -> NoDup (keys (Js.set o k v)).
Proof.
  intros Hnd. destruct (Js.get o k) eqn:E.
  - erewrite keys_set_present; eauto.
  - rewrite keys_set_absent by exact E.
    apply NoDup_incl_NoDup with (k :: keys o).
    + constructor; [now apply get_None_keys | exact Hnd].
    + rewrite length_app. simpl. lia.
    + intros x Hx. apply in_or_app. simpl in *. tauto.
Qed.

(** A total over the properties after one of them is written. *)
Lemma sum_set (f : V -> Z) o k v :
  sum (map f (map snd (Js.set o k v))) =
  sum (map f (map snd o))
  - match Js.get o k with Some v0 => f v0 | None => 0 end + f v.
Proof.
  induction o as [|[k' v'] o IH]; simpl; [lia|].
  destruct (k' =? k) eqn:E; simpl; [lia|].
  rewrite IH. lia.
Qed.

Lemma filter_split_perm {B} (p : B -> bool) (l : list B) :
  Permutation (filter p l ++ filter (fun x => negb (p x)) l) l.
Proof.
  induction l as [|x t IH]; simpl; [constructor|].
  destruct (p x); simpl.
  - now constructor.
  - apply Permutation_sym, Permutation_cons_app, Permutation_sym, IH.
Qed.

Lemma values_perm o : Permutation (Js.values o) (map snd o).
Proof.
  unfold Js.values. rewrite <- map_app. apply Permutation_map.
  eapply perm_trans; [|apply (filter_split_perm (fun kv => Js.is_array_index (fst kv)))].
  apply Permutation_app_tail, sort_perm.
Qed.

(** With array-index keys only, the values come in ascending key order. *)
Lemma values_index_keys o :
  Forall (fun k => Js.is_array_index k = true) (keys o) ->
  Js.values o = map snd (Js.sort (fun a b => fst a <=? fst b) o).
Proof.
  intros H. unfold Js.values.
  assert (Hall : forall kv, In kv o -> Js.is_array_index (fst kv) = true).
  { rewrite Forall_forall in H. intros kv Hin. apply H. now apply in_map. }
  assert (E1 : filter (fun kv => Js.is_array_index (fst kv)) o = o).
  { clear H. induction o as [|kv t IH]; simpl; [reflexivity|].
    rewrite (Hall kv) by now left. f_equal. apply IH. intros; apply Hall; now right. }
  assert (E2 : filter (fun kv => negb (Js.is_array_index (fst kv))) o = []).
  { clear H E1. induction o as [|kv t IH]; simpl; [reflexivity|].
    rewrite (Hall kv) by now left. simpl. apply IH. intros; apply Hall; now right. }
  rewrite E1, E2. simpl. now rewrite app_nil_r.
Qed.
End ObjFacts.

Lemma sum_app (l1 l2 : list Z) : sum (l1 ++ l2) = sum l1 + sum l2.
Proof. induction l1; simpl; lia. Qed.

Lemma sum_perm (l1 l2 : list Z) : Permutation l1 l2 -> sum l1 = sum l2.
Proof. induction 1; simpl; lia. Qed.

Lemma array_set_length {V} (l : list V) i v :
  List.length (Js.array_set l i v) = List.length l.
Proof.
  revert i. induction l as [|x t IH]; intros [|i]; simpl; auto.
Qed.

Lemma nth_array_set_same {V} (l : list V) i v d :
  (i < List.length l)%nat -> nth i (Js.array_set l i v) d = v.
Proof.
  revert i. induction l as [|x t IH]; intros [|i]; simpl; intros H; try lia; auto.
  apply IH. lia.
Qed.

Lemma nth_array_set_other {V} (l : list V) i j v d :
  i <> j -> nth j (Js.array_set l i v) d = nth j l d.
Proof.
  revert i j. induction l as [|x t IH]; intros [|i] [|j]; simpl; intros H; try congruence; auto.
Qed.

Lemma sum_array_set (l : list Z) i v :
  (i < List.length l)%nat -> sum (Js.array_set l i v) = sum l - nth i l 0 + v.
Proof.
  revert i. induction l as [|x t IH]; intros [|i]; simpl; intros H; try lia.
  rewrite IH by lia. lia.
Qed.

(** ** One pick *)

(** The record a pick works on, and the two branches it can end in. *)
Lemma accumulate_cases pd bb tc pick player p a g a' g' :
  accumulate pd bb tc pick player p (a, g) = Some (a', g') ->
  exists s0,
    (forall f, In f [totalPointsActive; gwInSquad; starts; cappedPoints; playerPoints] ->
               credited (playerStats a) (element pick) f = f s0) /\
    (((position pick <=? 11) || bb = true /\
      credit_active a g (element pick) (add_playerPoints s0 p)
        (position pick <=? 11) (is_captain pick) tc p = Some (a', g')) \/
     ((position pick <=? 11) || bb = false /\
      a' = credit_bench a (element pick) (add_playerPoints s0 p) p /\ g' = g)).
Proof.
  unfold accumulate, credited.
  destruct (Js.get (playerStats a) (element pick)) as [s|] eqn:Hget.
  - intros H. exists s. split; [reflexivity|].
    destruct ((position pick <=? 11) || bb); [left | right]; split; auto.
    injection H as <- <-. auto.
  - destruct (new_stat pd player) as [s|] eqn:Hnew; [|discriminate].
    intros H. exists s. split.
    + unfold new_stat in Hnew.
      destruct (index (teams pd) (team player - 1)) as [t|]; [|discriminate].
      injection Hnew as <-. intros f Hf. simpl in Hf.
      destruct Hf as [<- | [<- | [<- | [<- | [<- | []]]]]]; reflexivity.
    + destruct ((position pick <=? 11) || bb); [left | right]; split; auto.
      injection H as <- <-. auto.
Qed.

Lemma active_gate pick bb :
  position pick <= 11 \/ bb = true <-> (position pick <=? 11) || bb = true.
Proof.
  rewrite orb_true_iff, Z.leb_le. tauto.
Qed.

Ltac counters H :=
  rewrite ?(H totalPointsActive), ?(H gwInSquad), ?(H starts),
          ?(H cappedPoints), ?(H playerPoints) by (simpl; tauto).

(** C2. A pick counted as active adds to the player's active points and to
    the week's total three times its base points when it is the captain in a
    triple-captain week, twice when it is the captain otherwise, and the base
    points when it is not the captain; for a captain that same multiplied
    amount goes to [cappedPoints] and to the season's captaincy total. *)
Theorem captain_multiplier pd d pick player p a g a' g' :
  position pick <= 11 \/ chip_is d "bboost" = true ->
  accumulate pd (chip_is d "bboost") (chip_is d "3xc") pick player p (a, g)
    = Some (a', g') ->
  let c := contribution (is_captain pick) (chip_is d "3xc") p in
  let k := element pick in
  credited (playerStats a') k totalPointsActive
    = credited (playerStats a) k totalPointsActive + c /\
  g' = g + c /\
  totalPointsActiveSum a' = totalPointsActiveSum a + c /\
  (is_captain pick = true ->
     credited (playerStats a') k cappedPoints
       = credited (playerStats a) k cappedPoints + c /\
     totalCaptaincyPoints a' = totalCaptaincyPoints a + c) /\
  (is_captain pick = false ->
     credited (playerStats a') k cappedPoints = credited (playerStats a) k cappedPoints /\
     totalCaptaincyPoints a' = totalCaptaincyPoints a).
Proof.
  intros Hact Hacc c k. apply active_gate in Hact.
  destruct (accumulate_cases _ _ _ _ _ _ _ _ Hacc) as (s0 & Hs0 & [[_ H] | [Hb _]]);
    [|congruence].
  subst c k. counters Hs0. clear Hacc Hact Hs0. unfold credit_active, contribution in *.
  destruct (is_captain pick), (chip_is d "3xc"); simpl in H;
    destruct (stat_position s0); try discriminate;
    injection H as <- <-; simpl; unfold credited; rewrite get_set_same;
    destruct (position pick <=? 11); simpl;
    repeat split; intros; try discriminate; repeat split; lia.
Qed.

(** C4. A processed pick adds its points to the bench-loss total exactly when
    its squad position is above 11 and the week's chip is not bench boost, and
    then it adds nothing to the active points, the position totals, the weekly
    total, [gwInSquad] or [starts]. *)
Theorem bench_loss pd d pick player p a g a' g' :
  accumulate pd (chip_is d "bboost") (chip_is d "3xc") pick player p (a, g)
    = Some (a', g') ->
  let k := element pick in
  (position pick > 11 /\ chip_is d "bboost" = false ->
     totalPointsLostOnBench a' = totalPointsLostOnBench a + p /\
     credited (playerStats a') k totalPointsActive
       = credited (playerStats a) k totalPointsActive /\
     totalPointsActiveSum a' = totalPointsActiveSum a /\
     positionPoints a' = positionPoints a /\
     g' = g /\
     weeklyPoints a' = weeklyPoints a /\
     credited (playerStats a') k gwInSquad = credited (playerStats a) k gwInSquad /\
     credited (playerStats a') k starts = credited (playerStats a) k starts) /\
  (~ (position pick > 11 /\ chip_is d "bboost" = false) ->
     totalPointsLostOnBench a' = totalPointsLostOnBench a).
Proof.
  intros Hacc k.
  destruct (accumulate_cases _ _ _ _ _ _ _ _ Hacc) as (s0 & Hs0 & [[Hb H] | [Hb [-> ->]]]).
  - split.
    + intros [Hpos Hbb]. rewrite Hbb, orb_false_r in Hb. apply Z.leb_le in Hb. lia.
    + intros _. unfold credit_active in H.
      destruct (stat_position _); [|discriminate]. injection H as <- <-. reflexivity.
  - apply orb_false_iff in Hb. destruct Hb as [Hpos Hbb]. apply Z.leb_gt in Hpos. split.
    + intros _. subst k. counters Hs0. simpl. unfold credited. rewrite get_set_same. simpl.
      repeat split; reflexivity.
    + intros Hn. exfalso. apply Hn. split; [lia | exact Hbb].
Qed.

Lemma captain_multiplier_witness :
  let d := Sample.week [Sample.starter 5 true] (Some "3xc") in
  (position (Sample.starter 5 true) <= 11 \/ chip_is d "bboost" = true) /\
  snd (Sample.after d (Sample.starter 5 true) 4) = 0 + contribution true true 4.
Proof.
  intros d.
  assert (H1 : position (Sample.starter 5 true) <= 11 \/ chip_is d "bboost" = true)
    by (left; simpl; lia).
  split; [exact H1|].
  exact (proj1 (proj2 (@captain_multiplier (Sample.bootstrap 1 [Sample.player 5 "Saka"]) d
           (Sample.starter 5 true) (Sample.player 5 "Saka") 4 (initial 1) 0
           (fst (Sample.after d (Sample.starter 5 true) 4))
           (snd (Sample.after d (Sample.starter 5 true) 4)) H1 eq_refl))).
Defined.

Lemma bench_loss_witness :
  let d := Sample.week [Sample.substitute 5] None in
  (position (Sample.substitute 5) > 11 /\ chip_is d "bboost" = false) /\
  totalPointsLostOnBench (fst (Sample.after d (Sample.substitute 5) 6)) = 0 + 6.
Proof.
  intros d.
  assert (H1 : position (Sample.substitute 5) > 11 /\ chip_is d "bboost" = false)
    by (split; [simpl; lia | reflexivity]).
  split; [exact H1|].
  exact (proj1 (proj1 (@bench_loss (Sample.bootstrap 1 [Sample.player 5 "Saka"]) d
           (Sample.substitute 5) (Sample.player 5 "Saka") 6 (initial 1) 0
           (fst (Sample.after d (Sample.substitute 5) 6))
           (snd (Sample.after d (Sample.substitute 5) 6)) eq_refl) H1)).
Defined.

(** One turn of the loop over the picks, spelled out. *)
Lemma pick_loop_cons up pd gw bb tc pick rest st log :
  pick_loop up pd gw bb tc (pick :: rest) st log =
  match find_player pd (element pick) with
  | None => pick_loop up pd gw bb tc rest st log
  | Some player =>
      match element_summary up (element pick) with
      | None => (None, log ++ [GetElementSummary (element pick)])
      | Some h =>
          match accumulate pd bb tc pick player (resolve_points h gw) st with
          | Some st' =>
              pick_loop up pd gw bb tc rest st' (log ++ [GetElementSummary (element pick)])
          | None => (None, log ++ [GetElementSummary (element pick)])
          end
      end
  end.
Proof.
  cbn [pick_loop]. destruct (find_player pd (element pick)); [|reflexivity].
  unfold bind, axios_get. destruct (element_summary up (element pick)); [|reflexivity].
  destruct (accumulate pd bb tc pick p _ st); reflexivity.
Qed.

Lemma resolve_points_missing h gw :
  (forall r, In r h -> round r <> gw) -> resolve_points h gw = 0.
Proof.
  unfold resolve_points. induction h as [|r t IH]; simpl; intros H; [reflexivity|].
  destruct (round r =? gw) eqn:E.
  - apply Z.eqb_eq in E. exfalso. apply (H r); auto.
  - apply IH. intros r' Hr'. apply H. now right.
Qed.

Lemma index_positions t :
  1 <= t <= 4 -> index [GKP; DEF; MID; FWD] (t - 1) <> None.
Proof.
  intros H. assert (Ht : t = 1 \/ t = 2 \/ t = 3 \/ t = 4) by lia.
  destruct Ht as [-> | [-> | [-> | ->]]]; discriminate.
Qed.

(** C5. A squad member whose history has no record of the gameweek scores 0
    there; the pick is neither an error nor skipped: the loop goes on with the
    state the pick leaves, in which the raw points are as before and [starts]
    (with [gwInSquad]) of a pick in the first eleven positions is one more. *)
Theorem missing_round_scores_zero up pd d gw pick rest player h a g log :
  (forall r, In r h -> round r <> gw) ->
  find_player pd (element pick) = Some player ->
  element_summary up (element pick) = Some h ->
  index (teams pd) (team player - 1) <> None ->
  1 <= element_type player <= 4 ->
  (forall s, Js.get (playerStats a) (element pick) = Some s -> stat_position s <> None) ->
  let bb := chip_is d "bboost" in
  let tc := chip_is d "3xc" in
  let k := element pick in
  resolve_points h gw = 0 /\
  exists a' g',
    accumulate pd bb tc pick player 0 (a, g) = Some (a', g') /\
    pick_loop up pd gw bb tc (pick :: rest) (a, g) log
      = pick_loop up pd gw bb tc rest (a', g') (log ++ [GetElementSummary k]) /\
    g' = g /\
    credited (playerStats a') k playerPoints = credited (playerStats a) k playerPoints /\
    (position pick <= 11 ->
       credited (playerStats a') k starts = credited (playerStats a) k starts + 1 /\
       credited (playerStats a') k gwInSquad = credited (playerStats a) k gwInSquad + 1).
Proof.
  intros Hmiss Hfind Hsum Hteam Htype Hold bb tc k.
  pose proof (resolve_points_missing _ Hmiss) as H0.
  split; [exact H0|].
  assert (Hsome : exists st, accumulate pd bb tc pick player 0 (a, g) = Some st).
  { unfold accumulate, new_stat.
    destruct (Js.get (playerStats a) (element pick)) as [s|] eqn:Hget.
    - destruct ((position pick <=? 11) || bb); [|eauto].
      unfold credit_active.
      assert (Hp : stat_position s <> None) by now apply Hold.
      destruct (is_captain pick); simpl; destruct (stat_position s); try congruence; eauto.
    - destruct (index (teams pd) (team player - 1)) as [t|]; [|congruence].
      destruct ((position pick <=? 11) || bb); [|eauto].
      unfold credit_active. pose proof (index_positions Htype) as Hp.
      destruct (is_captain pick); simpl;
        destruct (index [GKP; DEF; MID; FWD] (element_type player - 1));
        try congruence; eauto. }
  destruct Hsome as [[a' g'] Hacc]. exists a', g'.
  split; [exact Hacc|]. split.
  { rewrite pick_loop_cons, Hfind, Hsum, H0, Hacc. reflexivity. }
  destruct (accumulate_cases _ _ _ _ _ _ _ _ Hacc) as (s0 & Hs0 & [[Hb H] | [Hb [-> ->]]]).
  - subst k. counters Hs0. unfold credit_active in H.
    destruct (is_captain pick); simpl in H;
      destruct (stat_position s0); try discriminate;
      injection H as <- <-; simpl; unfold credited; rewrite get_set_same;
      (split; [lia|]); (split; [destruct (position pick <=? 11); simpl; lia|]);
      intros Hpos; apply Z.leb_le in Hpos; rewrite Hpos; simpl; split; lia.
  - subst k. counters Hs0. simpl. unfold credited. rewrite get_set_same. simpl.
    split; [reflexivity|]. split; [lia|].
    intros Hpos. apply orb_false_iff in Hb. destruct Hb as [Hb _].
    apply Z.leb_gt in Hb. lia.
Qed.

Lemma missing_round_scores_zero_witness :
  (forall r, In r [ {| round := 1; total_points := 7 |} ] -> round r <> 2) /\
  resolve_points [ {| round := 1; total_points := 7 |} ] 2 = 0.
Proof.
  assert (H1 : forall r, In r [ {| round := 1; total_points := 7 |} ] -> round r <> 2).
  { intros r [<- | []]. simpl. lia. }
  split; [exact H1|].
  pose (pd := Sample.bootstrap 2 [Sample.player 5 "Saka"]).
  pose (up := Sample.upstream 2 [Sample.player 5 "Saka"] []
                (fun _ => Sample.week [Sample.starter 5 false] None)
                (fun _ => [ {| round := 1; total_points := 7 |} ])).
  refine (proj1 (@missing_round_scores_zero up pd (Sample.week [Sample.starter 5 false] None)
            2 (Sample.starter 5 false) [] (Sample.player 5 "Saka")
            [ {| round := 1; total_points := 7 |} ] (initial 2) 0 [] H1 eq_refl eq_refl _ _ _)).
  - simpl. discriminate.
  - simpl. lia.
  - simpl. discriminate.
Defined.

(** ** Validation *)

Lemma is_digit_spec c :
  is_digit c = true <-> In c (list_ascii_of_string "0123456789").
Proof.
  split.
  - unfold is_digit. intros H. apply andb_true_iff in H. destruct H as [H1 H2].
    apply Nat.leb_le in H1, H2.
    rewrite <- (ascii_nat_embedding c).
    assert (Hn : (nat_of_ascii c = 48 \/ nat_of_ascii c = 49 \/ nat_of_ascii c = 50 \/
                 nat_of_ascii c = 51 \/ nat_of_ascii c = 52 \/ nat_of_ascii c = 53 \/
                 nat_of_ascii c = 54 \/ nat_of_ascii c = 55 \/ nat_of_ascii c = 56 \/
                 nat_of_ascii c = 57)%nat) by lia.
    repeat (destruct Hn as [-> | Hn]; [simpl; tauto|]). rewrite Hn. simpl. tauto.
  - simpl. intros H.
    repeat (destruct H as [<- | H]; [reflexivity|]). destruct H.
Qed.

(** The test accepts the non-empty strings of decimal digits. *)
Lemma digits_only_spec s :
  digits_only s = true <->
  s <> "" /\
  Forall (fun c => In c (list_ascii_of_string "0123456789")) (list_ascii_of_string s).
Proof.
  unfold digits_only. destruct s as [|c s]; simpl list_ascii_of_string.
  - split; [discriminate | intros [H _]; congruence].
  - rewrite forallb_forall, Forall_forall. split.
    + intros H. split; [discriminate|]. intros x Hx. apply is_digit_spec. now apply H.
    + intros [_ H] x Hx. apply is_digit_spec. now apply H.
Qed.

(** C7. A request whose manager id is not made of digits only is answered
    400 with the body [{error: "Invalid manager ID format"}], and no upstream
    request is issued. *)
Theorem invalid_manager_id up managerId :
  digits_only managerId = false ->
  analyze_manager up managerId
    = ({| status := 400; body := ErrorBody "Invalid manager ID format" |}, []).
Proof.
  intros H. unfold analyze_manager. now rewrite H.
Qed.

Lemma invalid_manager_id_witness :
  digits_only "abc" = false /\
  analyze_manager Sample.captain_week "abc"
    = ({| status := 400; body := ErrorBody "Invalid manager ID format" |}, []).
Proof.
  split; [reflexivity|].
  apply (@invalid_manager_id Sample.captain_week "abc"). reflexivity.
Defined.

(** ** The loops *)

Section Loops.
Variable up : Upstream.
Variable managerId : string.
Variable pd : BootstrapData.
Variable hist : ManagerHistory.

(** A property kept by every processed pick holds after the picks. *)
Lemma pick_loop_inv (P : Acc * Z -> Prop) gw bb tc ps :
  (forall pick player h st st',
      In pick ps ->
      find_player pd (element pick) = Some player ->
      element_summary up (element pick) = Some h ->
      accumulate pd bb tc pick player (resolve_points h gw) st = Some st' ->
      P st -> P st') ->
  forall st log st' log',
    pick_loop up pd gw bb tc ps st log = (Some st', log') -> P st -> P st'.
Proof.
  induction ps as [|pick rest IH]; intros Hstep st log st' log' Hrun Hst.
  - injection Hrun as <- _. exact Hst.
  - rewrite pick_loop_cons in Hrun.
    assert (Hrest : forall st0 log0,
               pick_loop up pd gw bb tc rest st0 log0 = (Some st', log') -> P st0 -> P st').
    { intros st0 log0. apply IH. intros pk pl h s1 s2 Hin. apply Hstep. now right. }
    destruct (find_player pd (element pick)) as [player|] eqn:Hf; [|eauto].
    destruct (element_summary up (element pick)) as [h|] eqn:Hs; [|discriminate].
    destruct (accumulate pd bb tc pick player (resolve_points h gw) st) as [st1|] eqn:Ha;
      [|discriminate].
    eapply Hrest; [exact Hrun|]. eapply Hstep; eauto. now left.
Qed.

(** What one gameweek that completes has done. *)
Lemma gameweek_inv gw a log a' log' :
  gameweek up managerId pd hist gw a log = (Some a', log') ->
  exists d a1 g,
    entry_picks up managerId gw = Some d /\
    pick_loop up pd gw (chip_is d "bboost") (chip_is d "3xc") (picks d) (a, 0)
      (log ++ [GetEntryPicks managerId gw]) = (Some (a1, g), log') /\
    a' = update_weekly a1 gw g (resolve_rank hist gw).
Proof.
  unfold gameweek, bind, axios_get.
  destruct (entry_picks up managerId gw) as [d|]; [|discriminate].
  destruct (pick_loop up pd gw _ _ (picks d) (a, 0) _) as [[[a1 g]|] log1] eqn:Hp;
    [|discriminate].
  unfold ret. intros [= <- <-]. exists d, a1, g. auto.
Qed.

(** A property indexed by the number of gameweeks done, kept by each
    gameweek, holds after the loop. *)
Lemma gw_loop_inv (Q : nat -> Acc -> Prop) :
  (forall k a log a' log',
      gameweek up managerId pd hist (Z.of_nat k + 1) a log = (Some a', log') ->
      Q k a -> Q (S k) a') ->
  forall n k a log a' log',
    gw_loop up managerId pd hist n (Z.of_nat k + 1) a log = (Some a', log') ->
    Q k a -> Q (k + n)%nat a'.
Proof.
  intros Hstep. induction n as [|n IH]; intros k a log a' log' Hrun Hk.
  - injection Hrun as <- _. now rewrite Nat.add_0_r.
  - simpl in Hrun. unfold bind in Hrun.
    destruct (gameweek up managerId pd hist (Z.of_nat k + 1) a log) as [[a1|] log1] eqn:Hg;
      [|discriminate].
    replace (k + S n)%nat with (S k + n)%nat by lia.
    eapply IH; [|eapply Hstep; eauto].
    replace (Z.of_nat (S k) + 1) with (Z.of_nat k + 1 + 1) by lia. exact Hrun.
Qed.

(** The loop from the first gameweek. *)
Lemma gw_loop_from_start (Q : nat -> Acc -> Prop) :
  (forall k a log a' log',
      gameweek up managerId pd hist (Z.of_nat k + 1) a log = (Some a', log') ->
      Q k a -> Q (S k) a') ->
  forall n a log a' log',
    gw_loop up managerId pd hist n 1 a log = (Some a', log') ->
    Q O a -> Q n a'.
Proof.
  intros Hstep n a log a' log' Hrun H0.
  apply (gw_loop_inv Q Hstep n O a log Hrun H0).
Qed.

Lemma accumulate_same_weekly bb tc pick player p a g a' g' :
  accumulate pd bb tc pick player p (a, g) = Some (a', g') -> same_weekly a a'.
Proof.
  intros Hacc.
  destruct (accumulate_cases _ _ _ _ _ _ _ _ Hacc) as (s0 & _ & [[_ H] | [_ [-> ->]]]).
  - unfold credit_active in H. destruct (stat_position _); [|discriminate].
    injection H as <- <-. repeat split.
  - repeat split.
Qed.

Lemma pick_loop_same_weekly gw bb tc ps a g log a' g' log' :
  pick_loop up pd gw bb tc ps (a, g) log = (Some (a', g'), log') -> same_weekly a a'.
Proof.
  intros Hrun.
  apply (pick_loop_inv (fun st => same_weekly a (fst st)) gw bb tc ps) in Hrun.
  - exact Hrun.
  - intros pick player h [a1 g1] [a2 g2] _ _ _ Hacc H1. simpl in *.
    apply accumulate_same_weekly in Hacc. unfold same_weekly in *.
    repeat match goal with H : _ /\ _ |- _ => destruct H end.
    repeat split; congruence.
  - simpl. repeat split.
Qed.
End Loops.

(** ** Raw and active points *)

Lemma resolve_points_nonneg h gw :
  (forall r, In r h -> 0 <= total_points r) -> 0 <= resolve_points h gw.
Proof.
  intros H. unfold resolve_points.
  destruct (find _ h) as [r|] eqn:E; [|lia].
  apply find_some in E. apply H. tauto.
Qed.

Lemma accumulate_raw_covers pd bb tc pick player p a g a' g' :
  0 <= p ->
  accumulate pd bb tc pick player p (a, g) = Some (a', g') ->
  Forall (fun kv => raw_covers_uncapped (snd kv)) (playerStats a) ->
  Forall (fun kv => raw_covers_uncapped (snd kv)) (playerStats a').
Proof.
  intros Hp Hacc Hall.
  assert (Hset : forall s0 s1,
             (Js.get (playerStats a) (element pick) = Some s0 \/
              raw_covers_uncapped s0) ->
             (raw_covers_uncapped s0 -> raw_covers_uncapped s1) ->
             Forall (fun kv => raw_covers_uncapped (snd kv))
                    (Js.set (playerStats a) (element pick) s1)).
  { intros s0 s1 H0 H1. rewrite Forall_forall in *. intros [k v] Hin.
    apply In_set in Hin. destruct Hin as [Hin | [= -> ->]]; [now apply Hall|].
    simpl. apply H1. destruct H0 as [H0 | H0]; [|exact H0].
    apply get_In in H0. apply (Hall _ H0). }
  unfold accumulate in Hacc.
  set (existing := match Js.get (playerStats a) (element pick) with
                   | Some s => Some s
                   | None => new_stat pd player
                   end) in Hacc.
  destruct existing as [s0|] eqn:He; [|discriminate].
  assert (H0 : Js.get (playerStats a) (element pick) = Some s0 \/ raw_covers_uncapped s0).
  { subst existing. destruct (Js.get (playerStats a) (element pick)) as [s|].
    - left. congruence.
    - right. unfold new_stat in He. destruct (index _ _); [|discriminate].
      injection He as <-. unfold raw_covers_uncapped. simpl. lia. }
  destruct ((position pick <=? 11) || bb).
  - unfold credit_active in Hacc. destruct (stat_position _); [|discriminate].
    injection Hacc as <- <-. simpl. apply (Hset s0 _ H0).
    unfold raw_covers_uncapped.
    destruct (is_captain pick), (position pick <=? 11), tc; simpl; lia.
  - injection Hacc as <- <-. simpl. apply (Hset s0 _ H0).
    unfold raw_covers_uncapped. simpl. lia.
Qed.

(** C1, as the code has it.  When no reported score is negative, after any
    number of processed gameweeks every player's raw points are at least the
    active points earned outside captaincy
    ([playerPoints >= totalPointsActive - cappedPoints]); so raw points are at
    least the active points for every player without captaincy points. *)
Theorem raw_at_least_uncapped_active up managerId pd hist G n a :
  scores_nonneg up ->
  returns (gw_loop up managerId pd hist n 1 (initial G)) a ->
  forall playerId s,
    In (playerId, s) (playerStats a) ->
    playerPoints s >= totalPointsActive s - cappedPoints s /\
    (cappedPoints s = 0 -> playerPoints s >= totalPointsActive s).
Proof.
  intros Hnn (log & log' & Hrun) playerId s Hin.
  assert (Hall : Forall (fun kv => raw_covers_uncapped (snd kv)) (playerStats a)).
  { apply (gw_loop_from_start up managerId pd hist
             (fun _ a => Forall (fun kv => raw_covers_uncapped (snd kv)) (playerStats a)))
      in Hrun; [exact Hrun | | constructor].
    intros k a0 l0 a1 l1 Hgw Ha0.
    apply gameweek_inv in Hgw. destruct Hgw as (d & a2 & g & _ & Hpl & ->). simpl.
    apply (pick_loop_inv up pd
             (fun st => Forall (fun kv => raw_covers_uncapped (snd kv)) (playerStats (fst st))))
      in Hpl; [exact Hpl | | exact Ha0].
    intros pick player h [s1 g1] [s2 g2] _ _ Hsum Hacc Hs1. simpl in *.
    eapply accumulate_raw_covers; [|exact Hacc|exact Hs1].
    apply resolve_points_nonneg. intros r Hr. eapply Hnn; eauto. }
  rewrite Forall_forall in Hall. specialize (Hall _ Hin).
  unfold raw_covers_uncapped in Hall. simpl in Hall. split; intros; lia.
Qed.

Lemma raw_at_least_uncapped_active_witness :
  scores_nonneg Sample.captain_week /\
  In (5, Sample.stat "Saka" 10 1 1 10 5) (playerStats Sample.captain_week_state) /\
  5 >= 10 - 10.
Proof.
  assert (H1 : scores_nonneg Sample.captain_week).
  { intros playerId h r [= <-] [<- | []]. simpl. lia. }
  assert (H2 : In (5, Sample.stat "Saka" 10 1 1 10 5)
                  (playerStats Sample.captain_week_state)) by (left; reflexivity).
  split; [exact H1|]. split; [exact H2|].
  refine (proj1 (@raw_at_least_uncapped_active Sample.captain_week "42"
                   (Sample.bootstrap 1 [Sample.player 5 "Saka"])
                   (Sample.history [ {| event := 1; overall_rank := Some 1200 |} ])
                   1 1%nat Sample.captain_week_state H1 _ 5 _ H2)).
  exists [], [GetEntryPicks "42" 1; GetElementSummary 5]. reflexivity.
Defined.

(** C1 as stated fails: a captain who scores 5 in the only gameweek ends with
    5 raw points and 10 active points. *)
Lemma raw_below_active_counterexample :
  returns (gw_loop Sample.captain_week "42"
             (Sample.bootstrap 1 [Sample.player 5 "Saka"])
             (Sample.history [ {| event := 1; overall_rank := Some 1200 |} ])
             1 1 (initial 1))
          Sample.captain_week_state /\
  playerStats Sample.captain_week_state = [(5, Sample.stat "Saka" 10 1 1 10 5)] /\
  ~ (playerPoints (Sample.stat "Saka" 10 1 1 10 5)
       >= totalPointsActive (Sample.stat "Saka" 10 1 1 10 5)).
Proof.
  split; [|split].
  - exists [], [GetEntryPicks "42" 1; GetElementSummary 5]. reflexivity.
  - reflexivity.
  - simpl. lia.
Qed.

(** ** From the response back to the loop *)

Lemma analyze_manager_200 up managerId an log :
  analyze_manager up managerId = ({| status := 200; body := AnalysisBody an |}, log) ->
  exists e h top G a,
    run_loop up managerId [] = (Some (e, h, top, G, a), log) /\
    an = assemble e h top G a.
Proof.
  unfold analyze_manager. destruct (negb (digits_only managerId)); [discriminate|].
  unfold analyze, bind.
  destruct (run_loop up managerId []) as [[[[[[e h] top] G] a]|] log1]; simpl.
  - intros [= <- <-]. exists e, h, top, G, a. auto.
  - discriminate.
Qed.

Lemma run_loop_inv up managerId log e h top G a log' :
  run_loop up managerId log = (Some (e, h, top, G, a), log') ->
  exists pd ev log1,
    bootstrap_static up = Some pd /\
    entry_history up managerId = Some h /\
    find is_current (events pd) = Some ev /\
    G = event_id ev /\ 0 <= G /\
    gw_loop up managerId pd h (Z.to_nat G) 1 (initial G) log1 = (Some a, log').
Proof.
  unfold run_loop, bind, fetch_upfront.
  destruct (bootstrap_static up) as [pd|]; [|discriminate].
  destruct (entry up managerId) as [e0|]; [|discriminate].
  destruct (entry_history up managerId) as [h0|]; [|discriminate].
  destruct (league_standings up) as [l|]; [|discriminate].
  destruct (find is_current (events pd)) as [ev|] eqn:Hev; simpl; [|discriminate].
  destruct (hd_error l) as [t|]; simpl; [|discriminate].
  destruct ((event_id ev <? 0) || (4294967295 <? event_id ev)) eqn:Hrange; [discriminate|].
  destruct (gw_loop up managerId pd h0 _ 1 _ _) as [[a0|] l0] eqn:Hloop; [|discriminate].
  unfold ret. intros [= <- <- <- <- <- <-].
  apply orb_false_iff in Hrange. destruct Hrange as [Hlo _]. apply Z.ltb_ge in Hlo.
  exists pd, ev. eexists. repeat split; eauto.
Qed.

(** ** Weekly totals and player totals *)

Lemma accumulate_totals pd bb tc pick player p a g a' g' :
  accumulate pd bb tc pick player p (a, g) = Some (a', g') ->
  player_total a' - player_total a = g' - g /\
  totalPointsActiveSum a' - totalPointsActiveSum a = g' - g.
Proof.
  intros Hacc.
  destruct (accumulate_cases _ _ _ _ _ _ _ _ Hacc) as (s0 & Hs0 & [[_ H] | [_ [-> ->]]]).
  - unfold credit_active in H. destruct (stat_position _); [|discriminate].
    injection H as <- <-. unfold player_total. simpl. rewrite sum_set.
    fold (credited (playerStats a) (element pick) totalPointsActive).
    counters Hs0.
    destruct (is_captain pick), (position pick <=? 11), tc; simpl; lia.
  - unfold player_total. simpl. rewrite sum_set.
    fold (credited (playerStats a) (element pick) totalPointsActive).
    counters Hs0. simpl. lia.
Qed.

Lemma pick_loop_totals up pd gw bb tc ps a log a' g' log' :
  pick_loop up pd gw bb tc ps (a, 0) log = (Some (a', g'), log') ->
  player_total a' - player_total a = g' /\
  totalPointsActiveSum a' - totalPointsActiveSum a = g'.
Proof.
  intros Hrun.
  apply (pick_loop_inv up pd
           (fun st => player_total (fst st) - player_total a = snd st /\
                      totalPointsActiveSum (fst st) - totalPointsActiveSum a = snd st))
    in Hrun; [exact Hrun | | simpl; lia].
  intros pick player h [a1 g1] [a2 g2] _ _ _ Hacc [H1 H2]. simpl in *.
  apply accumulate_totals in Hacc. lia.
Qed.

Lemma gameweek_totals up managerId pd hist G k a log a' log' :
  gameweek up managerId pd hist (Z.of_nat k + 1) a log = (Some a', log') ->
  totals_agree G k a -> totals_agree G (S k) a'.
Proof.
  intros Hgw Hk Hle.
  destruct Hk as (Hlen & Hzero & Hsum & Hpl); [lia|].
  apply gameweek_inv in Hgw. destruct Hgw as (d & a1 & g & _ & Hpick & ->).
  pose proof Hpick as Hsame. apply pick_loop_same_weekly in Hsame.
  destruct Hsame as (Hwp & _).
  apply pick_loop_totals in Hpick. destruct Hpick as [Hp1 Hp2].
  unfold player_total in *. simpl.
  replace (Z.to_nat (Z.of_nat k + 1 - 1)) with k by lia.
  rewrite Hwp. repeat split.
  - rewrite array_set_length. exact Hlen.
  - intros j Hj. rewrite nth_array_set_other by lia. apply Hzero. lia.
  - rewrite sum_array_set by lia. rewrite (Hzero k) by lia. lia.
  - lia.
Qed.

Lemma sum_repeat_zero n : sum (repeat 0 n) = 0.
Proof. induction n; simpl; lia. Qed.

(** C3. When the analysis completes, the entries of [weeklyPoints] add up to
    what the [totalPointsActive] of all reported players add up to. *)
Theorem weekly_points_sum_to_player_points up managerId an log :
  analyze_manager up managerId = ({| status := 200; body := AnalysisBody an |}, log) ->
  sum (Report.weeklyPoints an) = sum (map totalPointsActive (Report.playerStats an)).
Proof.
  intros H200.
  destruct (analyze_manager_200 _ _ H200) as (e & h & top & G & a & Hrun & ->).
  destruct (run_loop_inv _ _ _ Hrun) as (pd & ev & log1 & _ & _ & _ & _ & HG & Hloop).
  apply (gw_loop_from_start up managerId pd h (totals_agree (Z.to_nat G))) in Hloop.
  - destruct Hloop as (_ & _ & Hsum & Hpl); [lia|].
    simpl. rewrite Hsum, <- Hpl. unfold player_total.
    apply sum_perm, Permutation_map, Permutation_sym.
    eapply perm_trans; [apply sort_perm | apply values_perm].
  - intros k a0 l0 a1 l1. apply gameweek_totals.
  - intros _. simpl. rewrite repeat_length, sum_repeat_zero. repeat split.
    intros j _. apply nth_repeat.
Qed.

Lemma weekly_points_sum_to_player_points_witness :
  fst (analyze_manager Sample.captain_week "42")
    = {| status := 200; body := AnalysisBody (Sample.analysis Sample.captain_week) |} /\
  sum (Report.weeklyPoints (Sample.analysis Sample.captain_week))
    = sum (map totalPointsActive (Report.playerStats (Sample.analysis Sample.captain_week))).
Proof.
  assert (H : analyze_manager Sample.captain_week "42"
              = ({| status := 200;
                    body := AnalysisBody (Sample.analysis Sample.captain_week) |},
                 snd (analyze_manager Sample.captain_week "42")))
    by (vm_compute; reflexivity).
  split; [vm_compute; reflexivity|].
  exact (weekly_points_sum_to_player_points _ _ H).
Defined.

(** ** Extrema *)

Lemma max_tracked_step arr k v g x :
  (k < List.length arr)%nat ->
  max_tracked arr k v g ->
  max_tracked (Js.array_set arr k x) (S k)
    (if x >? v then x else v) (if x >? v then Z.of_nat k + 1 else g).
Proof.
  intros Hk [Hbound Hpos].
  assert (Hv : 0 <= v) by (destruct Hpos as [[-> _] | [H _]]; lia).
  assert (Hold : forall j, (j < k)%nat -> nth j (Js.array_set arr k x) 0 = nth j arr 0).
  { intros j Hj. apply nth_array_set_other. lia. }
  pose proof (nth_array_set_same arr x 0 Hk) as Hnew.
  destruct (x >? v) eqn:Hx; [apply Z.gtb_lt in Hx | rewrite Z.gtb_ltb in Hx; apply Z.ltb_ge in Hx].
  - split.
    + intros j Hj. destruct (Nat.eq_dec j k) as [-> | Hne]; [lia|].
      rewrite Hold by lia. specialize (Hbound j). lia.
    + right. replace (Z.to_nat (Z.of_nat k + 1 - 1)) with k by lia.
      repeat split; try lia.
      intros j Hj. rewrite Hold by lia. specialize (Hbound j). lia.
  - split.
    + intros j Hj. destruct (Nat.eq_dec j k) as [-> | Hne]; [lia|].
      rewrite Hold by lia. apply Hbound. lia.
    + destruct Hpos as [H0 | (H0 & Hg & Hat & Hbefore)]; [now left | right].
      repeat split; try lia.
      * rewrite Hold by lia. exact Hat.
      * intros j Hj. rewrite Hold by lia. now apply Hbefore.
Qed.

Lemma min_tracked_step arr k v g x :
  (k < List.length arr)%nat ->
  min_tracked arr k v g ->
  min_tracked (Js.array_set arr k x) (S k)
    (if Js.ltb_num x v then Js.Fin x else v)
    (if Js.ltb_num x v then Z.of_nat k + 1 else g).
Proof.
  intros Hk Hmin.
  assert (Hold : forall j, (j < k)%nat -> nth j (Js.array_set arr k x) 0 = nth j arr 0).
  { intros j Hj. apply nth_array_set_other. lia. }
  pose proof (nth_array_set_same arr x 0 Hk) as Hnew.
  destruct k as [|k'].
  - destruct Hmin as [-> ->]. simpl Js.ltb_num. cbv iota. exists x.
    replace (Z.to_nat (Z.of_nat 0 + 1 - 1)) with O by lia.
    repeat split; try lia.
    intros j Hj. replace j with O by lia. lia.
  - destruct Hmin as (z & -> & Hbound & Hg & Hat & Hbefore). simpl Js.ltb_num.
    destruct (x <? z) eqn:Hx; [apply Z.ltb_lt in Hx | apply Z.ltb_ge in Hx].
    + exists x. replace (Z.to_nat (Z.of_nat (S k') + 1 - 1)) with (S k') by lia.
      repeat split; try lia.
      * intros j Hj. destruct (Nat.eq_dec j (S k')) as [-> | Hne]; [lia|].
        rewrite Hold by lia. specialize (Hbound j). lia.
      * intros j Hj. rewrite Hold by lia. specialize (Hbound j). lia.
    + exists z. repeat split; try lia.
      * intros j Hj. destruct (Nat.eq_dec j (S k')) as [-> | Hne]; [lia|].
        rewrite Hold by lia. apply Hbound. lia.
      * rewrite Hold by lia. exact Hat.
      * intros j Hj. rewrite Hold by lia. now apply Hbefore.
Qed.

Lemma gameweek_extrema up managerId pd hist G k a log a' log' :
  gameweek up managerId pd hist (Z.of_nat k + 1) a log = (Some a', log') ->
  extrema_tracked hist G k a -> extrema_tracked hist G (S k) a'.
Proof.
  intros Hgw Hk Hle.
  destruct Hk as (Hlp & Hlr & Hranks & Hhp & Hlop & Hhr & Hlor); [lia|].
  apply gameweek_inv in Hgw. destruct Hgw as (d & a1 & g & _ & Hpick & ->).
  apply pick_loop_same_weekly in Hpick.
  destruct Hpick as (E1 & E2 & E3 & E4 & E5 & E6 & E7 & E8 & E9 & E10).
  unfold extrema_tracked in *. simpl.
  rewrite E1, E2, E3, E4, E5, E6, E7, E8, E9, E10.
  replace (Z.to_nat (Z.of_nat k + 1 - 1)) with k by lia.
  rewrite !array_set_length.
  split; [exact Hlp|]. split; [exact Hlr|]. split.
  { intros j Hj. destruct (Nat.eq_dec j k) as [-> | Hne].
    - rewrite nth_array_set_same by lia. reflexivity.
    - rewrite nth_array_set_other by lia. apply Hranks. lia. }
  split; [apply max_tracked_step; [lia | exact Hhp]|].
  split; [apply min_tracked_step; [lia | exact Hlop]|].
  split; [apply min_tracked_step; [lia | exact Hhr]|].
  apply max_tracked_step; [lia | exact Hlor].
Qed.

(** The state the loop ends in, with the arrays complete. *)
Lemma run_loop_extrema up managerId log e h top G a log' :
  run_loop up managerId log = (Some (e, h, top, G, a), log') ->
  0 <= G /\ entry_history up managerId = Some h /\
  extrema_tracked h (Z.to_nat G) (Z.to_nat G) a.
Proof.
  intros Hrun.
  destruct (run_loop_inv _ _ _ Hrun) as (pd & ev & log1 & _ & Hh & _ & _ & HG & Hloop).
  split; [exact HG|]. split; [exact Hh|].
  apply (gw_loop_from_start up managerId pd h (extrema_tracked h (Z.to_nat G))) in Hloop.
  - exact Hloop.
  - intros k a0 l0 a1 l1. apply gameweek_extrema.
  - intros _. simpl. rewrite repeat_length.
    repeat split; try (intros j Hj; lia); left; split; reflexivity.
Qed.

Lemma bound_all (P : Z -> Prop) (arr : list Z) :
  (forall j, (j < List.length arr)%nat -> P (nth j arr 0)) ->
  forall x, In x arr -> P x.
Proof.
  intros H x Hin. destruct (In_nth arr x 0 Hin) as (j & Hj & <-). now apply H.
Qed.

Lemma max_tracked_full arr v g :
  max_tracked arr (List.length arr) v g ->
  (forall x, In x arr -> x <= v) /\
  (0 < v -> earliest arr v g) /\
  (v <= 0 -> g = 0).
Proof.
  intros [Hbound Hpos]. split; [|split].
  - apply (bound_all (fun x => x <= v)). exact Hbound.
  - intros Hv. destruct Hpos as [[-> _] | (_ & Hg & Hat & Hbefore)]; [lia|].
    repeat split; try lia; auto.
    intros j Hj. specialize (Hbefore j Hj). lia.
  - intros Hv. destruct Hpos as [[_ ->] | (H0 & _)]; lia.
Qed.

Lemma min_tracked_full arr v g :
  arr <> [] ->
  min_tracked arr (List.length arr) v g ->
  exists z, v = Js.Fin z /\ (forall x, In x arr -> z <= x) /\ earliest arr z g.
Proof.
  intros Hne Hmin. destruct arr as [|x0 t]; [congruence|].
  simpl List.length in Hmin. cbv beta iota delta [min_tracked] in Hmin.
  destruct Hmin as (z & -> & Hbound & Hg & Hat & Hbefore).
  exists z. split; [reflexivity|]. split.
  - apply (bound_all (fun x => z <= x)). exact Hbound.
  - repeat split; try exact Hat; try (simpl List.length; lia).
    intros j Hj. specialize (Hbefore j Hj). lia.
Qed.

(** C6, as the code has it.  The lowest weekly points and the best rank start
    at [Infinity] and are replaced under strict comparisons, so they are
    reported with the earliest gameweek that reaches them.  The highest
    weekly points and the worst rank start at 0: when the season's maximum is
    positive it is reported with the earliest gameweek that reaches it, and
    otherwise the reported gameweek stays 0. *)
Theorem earliest_extreme_retained up managerId an log :
  analyze_manager up managerId = ({| status := 200; body := AnalysisBody an |}, log) ->
  let info := Report.managerInfo an in
  let wp := Report.weeklyPoints an in
  let wr := Report.weeklyRanks an in
  ((forall x, In x wp -> x <= Report.highestPoints info) /\
   (0 < Report.highestPoints info ->
      earliest wp (Report.highestPoints info) (Report.highestPointsGW info)) /\
   (Report.highestPoints info <= 0 -> Report.highestPointsGW info = 0)) /\
  (wp <> [] ->
     exists z, Report.lowestPoints info = Js.Fin z /\
       (forall x, In x wp -> z <= x) /\
       earliest wp z (Report.lowestPointsGW info)) /\
  (wr <> [] ->
     exists z, Report.highestRank info = Js.toLocaleString (Js.Fin z) /\
       (forall x, In x wr -> z <= x) /\
       earliest wr z (Report.highestRankGW info)) /\
  (exists z, Report.lowestRank info = Js.toLocaleString_int z /\
     (forall x, In x wr -> x <= z) /\
     (0 < z -> earliest wr z (Report.lowestRankGW info)) /\
     (z <= 0 -> Report.lowestRankGW info = 0)).
Proof.
  intros H200.
  destruct (analyze_manager_200 _ _ H200) as (e & h & top & G & a & Hrun & ->).
  apply run_loop_extrema in Hrun. destruct Hrun as (_ & _ & Hex).
  destruct Hex as (Hlp & Hlr & _ & Hhp & Hlop & Hhr & Hlor); [lia|].
  rewrite <- Hlp in Hhp, Hlop. rewrite <- Hlr in Hhr, Hlor. simpl.
  split; [now apply max_tracked_full|].
  split; [intros Hne; now apply min_tracked_full|].
  split.
  - intros Hne. destruct (@min_tracked_full _ _ _ Hne Hhr) as (z & -> & Hz).
    exists z. split; [reflexivity | exact Hz].
  - exists (lowestRank a). split; [reflexivity|]. now apply max_tracked_full.
Qed.

Lemma earliest_extreme_retained_witness :
  Report.weeklyPoints (Sample.analysis Sample.seven_weeks) = [2; 3; 9; 1; 4; 2; 9] /\
  earliest [2; 3; 9; 1; 4; 2; 9] 9 3.
Proof.
  assert (H : analyze_manager Sample.seven_weeks "42"
              = ({| status := 200;
                    body := AnalysisBody (Sample.analysis Sample.seven_weeks) |},
                 snd (analyze_manager Sample.seven_weeks "42")))
    by (vm_compute; reflexivity).
  assert (E1 : Report.weeklyPoints (Sample.analysis Sample.seven_weeks)
               = [2; 3; 9; 1; 4; 2; 9]) by (vm_compute; reflexivity).
  assert (E2 : Report.highestPoints (Report.managerInfo (Sample.analysis Sample.seven_weeks))
               = 9) by (vm_compute; reflexivity).
  assert (E3 : Report.highestPointsGW (Report.managerInfo (Sample.analysis Sample.seven_weeks))
               = 3) by (vm_compute; reflexivity).
  split; [exact E1|].
  pose proof (proj1 (proj2 (proj1 (earliest_extreme_retained _ _ H)))) as T.
  rewrite E1, E2, E3 in T. apply T. lia.
Defined.

(** C6 as stated fails: in an opening gameweek in which nobody has scored
    yet the season's highest weekly points, 0, are reached in gameweek 1, and
    the reported gameweek is 0. *)
Lemma highest_points_gameweek_counterexample :
  let an := Sample.analysis Sample.opening_week in
  fst (analyze_manager Sample.opening_week "42")
    = {| status := 200; body := AnalysisBody an |} /\
  Report.weeklyPoints an = [0] /\
  Report.highestPoints (Report.managerInfo an) = 0 /\
  earliest [0] 0 1 /\
  Report.highestPointsGW (Report.managerInfo an) = 0.
Proof.
  intros an.
  split; [vm_compute; reflexivity|].
  split; [vm_compute; reflexivity|].
  split; [vm_compute; reflexivity|].
  split; [|vm_compute; reflexivity].
  unfold earliest. simpl. repeat split; try lia.
Qed.

Lemma resolve_rank_nonneg h gw :
  (forall r v, In r (current h) -> overall_rank r = Some v -> 0 <= v) ->
  0 <= resolve_rank h gw.
Proof.
  intros H. unfold resolve_rank.
  destruct (find _ (current h)) as [r|] eqn:E; [|lia].
  apply find_some in E. destruct E as [Hin _].
  destruct (overall_rank r) as [v|] eqn:Hv; [|lia]. eapply H; eauto.
Qed.

(** C10, as the code has it.  When the season history has no record for a
    processed gameweek [gw], or the record has no overall rank, and no
    recorded rank is negative, the entry of [weeklyRanks] for [gw] is 0, the
    reported best rank is "0", and its gameweek is the earliest one whose
    rank resolved to 0: [gw] itself or an earlier one. *)
Theorem missing_rank_reported_best up managerId an log h gw :
  analyze_manager up managerId = ({| status := 200; body := AnalysisBody an |}, log) ->
  entry_history up managerId = Some h ->
  1 <= gw <= Report.currentGameweek (Report.managerInfo an) ->
  (forall r, find (fun r => event r =? gw) (current h) = Some r -> overall_rank r = None) ->
  (forall r v, In r (current h) -> overall_rank r = Some v -> 0 <= v) ->
  let info := Report.managerInfo an in
  let wr := Report.weeklyRanks an in
  nth (Z.to_nat (gw - 1)) wr 0 = 0 /\
  Report.highestRank info = "0" /\
  earliest wr 0 (Report.highestRankGW info) /\
  Report.highestRankGW info <= gw /\
  (forall x, In x wr -> 0 <= x).
Proof.
  intros H200 Hh Hgw Hmiss Hnn.
  destruct (analyze_manager_200 _ _ H200) as (e & h' & top & G & a & Hrun & ->).
  apply run_loop_extrema in Hrun. destruct Hrun as (HG & Hh' & Hex).
  assert (h' = h) by congruence. subst h'. simpl in Hgw |- *.
  destruct Hex as (_ & Hlr & Hranks & _ & _ & Hhr & _); [lia|].
  assert (H0 : resolve_rank h gw = 0).
  { unfold resolve_rank. destruct (find _ (current h)) as [r|] eqn:E; [|reflexivity].
    now rewrite (Hmiss r eq_refl). }
  assert (Hat : nth (Z.to_nat (gw - 1)) (weeklyRanks a) 0 = 0).
  { rewrite Hranks by lia. rewrite <- H0. f_equal. lia. }
  assert (Hall : forall j, (j < Z.to_nat G)%nat -> 0 <= nth j (weeklyRanks a) 0).
  { intros j Hj. rewrite Hranks by lia. now apply resolve_rank_nonneg. }
  assert (Hne : weeklyRanks a <> []).
  { intros E. rewrite E in Hlr. simpl in Hlr. lia. }
  rewrite <- Hlr in Hhr.
  destruct (@min_tracked_full _ _ _ Hne Hhr) as (z & Ez & Hz & Hearly).
  assert (Hz0 : z = 0).
  { destruct Hearly as (Hg & Hnth & _).
    assert (z <= 0).
    { rewrite <- Hat. apply Hz, nth_In. lia. }
    assert (0 <= z).
    { rewrite <- Hnth. apply Hall. lia. }
    lia. }
  subst z. rewrite Ez.
  split; [exact Hat|]. split; [reflexivity|]. split; [exact Hearly|]. split.
  - destruct Hearly as (Hg & _ & Hbefore).
    destruct (Z_le_gt_dec (highestRankGW a) gw) as [Hle | Hgt]; [exact Hle|].
    exfalso. apply (Hbefore (Z.to_nat (gw - 1))); [lia | exact Hat].
  - apply (bound_all (fun x => 0 <= x)). rewrite Hlr. exact Hall.
Qed.

Lemma missing_rank_reported_best_witness :
  entry_history Sample.no_ranks "42" = Some (Sample.history []) /\
  Report.highestRank (Report.managerInfo (Sample.analysis Sample.no_ranks)) = "0".
Proof.
  assert (H : analyze_manager Sample.no_ranks "42"
              = ({| status := 200;
                    body := AnalysisBody (Sample.analysis Sample.no_ranks) |},
                 snd (analyze_manager Sample.no_ranks "42")))
    by (vm_compute; reflexivity).
  assert (Hgw : 1 <= 1 <= Report.currentGameweek
                             (Report.managerInfo (Sample.analysis Sample.no_ranks)))
    by (vm_compute; split; discriminate).
  split; [reflexivity|].
  refine (proj1 (proj2 (@missing_rank_reported_best Sample.no_ranks "42"
            (Sample.analysis Sample.no_ranks) _ (Sample.history []) 1
            H eq_refl Hgw _ _))).
  - intros r [=].
  - intros r v [].
Defined.

(** C10 as stated fails: with no season record for gameweeks 1 and 2, the
    rank of gameweek 2 resolves to 0 and the best rank is reported as "0",
    but its gameweek is 1, not 2. *)
Lemma second_missing_rank_counterexample :
  let an := Sample.analysis Sample.no_ranks in
  fst (analyze_manager Sample.no_ranks "42")
    = {| status := 200; body := AnalysisBody an |} /\
  find (fun h => event h =? 2) (current (Sample.history [])) = None /\
  nth 1 (Report.weeklyRanks an) 0 = 0 /\
  Report.highestRank (Report.managerInfo an) = "0" /\
  Report.highestRankGW (Report.managerInfo an) = 1.
Proof.
  intros an.
  split; [vm_compute; reflexivity|].
  split; [reflexivity|].
  split; [vm_compute; reflexivity|].
  split; vm_compute; reflexivity.
Qed.

(** ** The order of the reported players *)

Lemma accumulate_sets pd bb tc pick player p a g a' g' :
  accumulate pd bb tc pick player p (a, g) = Some (a', g') ->
  exists s, playerStats a' = Js.set (playerStats a) (element pick) s.
Proof.
  intros Hacc.
  destruct (accumulate_cases _ _ _ _ _ _ _ _ Hacc) as (s0 & _ & [[_ H] | [_ [-> ->]]]).
  - unfold credit_active in H. destruct (stat_position _); [|discriminate].
    injection H as <- <-. simpl. eauto.
  - simpl. eauto.
Qed.

Lemma find_player_id pd k player :
  find_player pd k = Some player -> In player (elements pd) /\ id player = k.
Proof.
  unfold find_player. intros H. apply find_some in H.
  destruct H as [Hin Hid]. apply Z.eqb_eq in Hid. auto.
Qed.

Lemma accumulate_index_keys pd bb tc pick player p a g a' g' :
  Js.is_array_index (element pick) = true ->
  accumulate pd bb tc pick player p (a, g) = Some (a', g') ->
  index_keys a -> index_keys a'.
Proof.
  intros Hk Hacc [Hnd Hall]. apply accumulate_sets in Hacc. destruct Hacc as [s Hs].
  unfold index_keys. rewrite Hs.
  split; [now apply NoDup_keys_set|].
  destruct (Js.get (playerStats a) (element pick)) eqn:E.
  - erewrite keys_set_present; eauto.
  - rewrite keys_set_absent by exact E. apply Forall_app. split; [exact Hall|].
    constructor; [exact Hk | constructor].
Qed.

Lemma gw_loop_index_keys up managerId pd hist n G a log log' :
  (forall p, In p (elements pd) -> Js.is_array_index (id p) = true) ->
  gw_loop up managerId pd hist n 1 (initial G) log = (Some a, log') ->
  index_keys a.
Proof.
  intros Hids Hloop.
  apply (gw_loop_from_start up managerId pd hist (fun _ a => index_keys a)) in Hloop.
  - exact Hloop.
  - intros k a0 l0 a1 l1 Hgw Ha0.
    apply gameweek_inv in Hgw. destruct Hgw as (d & a2 & g & _ & Hpl & ->).
    apply (pick_loop_inv up pd (fun st => index_keys (fst st))) in Hpl; [exact Hpl | | exact Ha0].
    intros pick player h [s1 g1] [s2 g2] _ Hfind _ Hacc Hs1. simpl in *.
    apply find_player_id in Hfind. destruct Hfind as [Hin Hid].
    eapply accumulate_index_keys; [|exact Hacc|exact Hs1].
    rewrite <- Hid. now apply Hids.
  - split; simpl; constructor.
Qed.

Lemma by_active_points_total x y :
  by_active_points x y = false -> by_active_points y x = true.
Proof. unfold by_active_points. intros H. apply Z.leb_gt in H. apply Z.leb_le. lia. Qed.

Lemma by_active_points_trans x y z :
  by_active_points x y = true -> by_active_points y z = true -> by_active_points x z = true.
Proof. unfold by_active_points. rewrite !Z.leb_le. lia. Qed.

Lemma StronglySorted_impl {A} (R R' : A -> A -> Prop) (l : list A) :
  (forall x y, In x l -> In y l -> R x y -> R' x y) ->
  StronglySorted R l -> StronglySorted R' l.
Proof.
  intros Himp Hs. induction Hs as [|x t Hs IH Hx]; constructor.
  - apply IH. intros u v Hu Hv. apply Himp; now right.
  - rewrite Forall_forall in *. intros y Hy. apply Himp; [now left | now right | auto].
Qed.

(** Distinct keys in ascending order are in strictly ascending order. *)
Lemma sorted_keys_strict {V} (l : list (Z * V)) :
  NoDup (map fst l) ->
  StronglySorted (fun x y => (fst x <=? fst y) = true) l ->
  StronglySorted (fun x y => fst x < fst y) l.
Proof.
  intros Hnd Hs. induction Hs as [|x t Hs IH Hx]; constructor.
  - apply IH. now inversion Hnd.
  - inversion Hnd as [|? ? Hnotin _]. subst.
    rewrite Forall_forall in *. intros y Hy.
    specialize (Hx y Hy). apply Z.leb_le in Hx.
    assert (fst x <> fst y).
    { intros E. apply Hnotin. rewrite E. now apply in_map. }
    lia.
Qed.

(** C9, as the code has it.  The reported [playerStats] are all accumulated
    records, in descending order of [totalPointsActive]; records with equal
    [totalPointsActive] come in ascending order of player id, the order in
    which [Object.values] enumerates integer keys (player ids being
    non-negative integers below 2^32 - 1). *)
Theorem player_stats_sorted up managerId pd e h top G a log :
  run_loop up managerId [] = (Some (e, h, top, G, a), log) ->
  bootstrap_static up = Some pd ->
  (forall p, In p (elements pd) -> 0 <= id p < 4294967295) ->
  let reported := Report.playerStats (assemble e h top G a) in
  Permutation reported (map snd (playerStats a)) /\
  StronglySorted (fun x y => totalPointsActive x >= totalPointsActive y) reported /\
  exists by_id,
    Permutation by_id (playerStats a) /\
    StronglySorted (fun x y => fst x < fst y) by_id /\
    forall v,
      filter (fun s => totalPointsActive s =? v) reported
        = filter (fun s => totalPointsActive s =? v) (map snd by_id).
Proof.
  intros Hrun Hpd Hids reported.
  destruct (run_loop_inv _ _ _ Hrun) as (pd' & ev & log1 & Hpd' & _ & _ & _ & _ & Hloop).
  assert (pd' = pd) by congruence. subst pd'.
  apply gw_loop_index_keys in Hloop.
  2:{ intros p Hp. specialize (Hids p Hp). unfold Js.is_array_index.
      apply andb_true_iff. rewrite Z.leb_le, Z.ltb_lt. lia. }
  destruct Hloop as [Hnd Hall].
  subst reported. simpl. rewrite (values_index_keys _ Hall).
  set (by_id := Js.sort (fun x y => fst x <=? fst y) (playerStats a)).
  split; [|split].
  - eapply perm_trans; [apply sort_perm|].
    apply Permutation_map. apply sort_perm.
  - eapply StronglySorted_impl;
      [|apply sort_sorted; [apply by_active_points_total | apply by_active_points_trans]].
    intros x y _ _ Hxy. unfold by_active_points in Hxy. apply Z.leb_le in Hxy. lia.
  - exists by_id. split; [apply sort_perm|]. split.
    + apply sorted_keys_strict.
      * eapply Permutation_NoDup; [|exact Hnd].
        apply Permutation_map, Permutation_sym, sort_perm.
      * apply sort_sorted.
        -- intros x y Hxy. apply Z.leb_gt in Hxy. apply Z.leb_le. lia.
        -- intros x y z. rewrite !Z.leb_le. lia.
    + intros v. apply sort_stable.
      intros x y Hx Hy. apply Z.eqb_eq in Hx, Hy. unfold by_active_points.
      apply Z.leb_le. lia.
Qed.

Lemma player_stats_sorted_witness :
  Report.playerStats (Sample.analysis Sample.tied)
    = [Sample.stat "Rice" 0 1 1 0 0; Sample.stat "Saka" 0 1 1 0 0] /\
  StronglySorted (fun x y => totalPointsActive x >= totalPointsActive y)
    [Sample.stat "Rice" 0 1 1 0 0; Sample.stat "Saka" 0 1 1 0 0].
Proof.
  assert (H : run_loop Sample.tied "42" []
              = (Some (Sample.manager,
                       Sample.history [ {| event := 1; overall_rank := Some 1200 |} ],
                       150, 1, Sample.tied_state),
                 snd (run_loop Sample.tied "42" [])))
    by (vm_compute; reflexivity).
  assert (Hids : forall p,
             In p (elements (Sample.bootstrap 1 [Sample.player 3 "Rice"; Sample.player 5 "Saka"])) ->
             0 <= id p < 4294967295).
  { intros p [<- | [<- | []]]; simpl; lia. }
  assert (E : Report.playerStats
                (assemble Sample.manager
                   (Sample.history [ {| event := 1; overall_rank := Some 1200 |} ])
                   150 1 Sample.tied_state)
              = [Sample.stat "Rice" 0 1 1 0 0; Sample.stat "Saka" 0 1 1 0 0])
    by (vm_compute; reflexivity).
  split; [vm_compute; reflexivity|].
  pose proof (proj1 (proj2 (@player_stats_sorted _ _ _ _ _ _ _ _ _ H eq_refl Hids))) as T.
  rewrite E in T. exact T.
Defined.

(** C9 as stated fails: player 5 enters the squad before player 3 and both
    end with the same active points, yet player 3 is reported first. *)
Lemma tie_order_counterexample :
  let an := Sample.analysis Sample.tied in
  fst (analyze_manager Sample.tied "42")
    = {| status := 200; body := AnalysisBody an |} /\
  returns (gw_loop Sample.tied "42"
             (Sample.bootstrap 1 [Sample.player 3 "Rice"; Sample.player 5 "Saka"])
             (Sample.history [ {| event := 1; overall_rank := Some 1200 |} ])
             1 1 (initial 1))
          Sample.tied_state /\
  playerStats Sample.tied_state
    = [(5, Sample.stat "Saka" 0 1 1 0 0); (3, Sample.stat "Rice" 0 1 1 0 0)] /\
  Report.playerStats an
    = [Sample.stat "Rice" 0 1 1 0 0; Sample.stat "Saka" 0 1 1 0 0] /\
  Report.playerStats an <> map snd (playerStats Sample.tied_state).
Proof.
  intros an.
  assert (E1 : playerStats Sample.tied_state
               = [(5, Sample.stat "Saka" 0 1 1 0 0); (3, Sample.stat "Rice" 0 1 1 0 0)])
    by (vm_compute; reflexivity).
  assert (E2 : Report.playerStats an
               = [Sample.stat "Rice" 0 1 1 0 0; Sample.stat "Saka" 0 1 1 0 0])
    by (vm_compute; reflexivity).
  split; [vm_compute; reflexivity|].
  split; [exists [], [GetEntryPicks "42" 1; GetElementSummary 5; GetElementSummary 3];
          vm_compute; reflexivity|].
  split; [exact E1|]. split; [exact E2|].
  rewrite E1, E2. simpl. discriminate.
Qed.

(** ** The bootstrap cache *)

Module CacheFacts.
Import BootstrapCache.

Lemma fresh_spec s now d t :
  bootstrapCache s = Some d ->
  bootstrapCacheTime s = Some t ->
  t <> 0 ->
  now - t < CACHE_DURATION ->
  fresh s now = true.
Proof.
  intros Hc Ht Hnz Hage. unfold fresh. rewrite Hc, Ht. simpl.
  apply andb_true_iff. split.
  - apply negb_true_iff, Z.eqb_neq. exact Hnz.
  - now apply Z.ltb_lt.
Qed.

Lemma hit s now answer d t :
  bootstrapCache s = Some d ->
  bootstrapCacheTime s = Some t ->
  t <> 0 ->
  now - t < CACHE_DURATION ->
  getBootstrapData now answer s = (Some d, s).
Proof.
  intros Hc Ht Hnz Hage. unfold getBootstrapData.
  rewrite (@fresh_spec s now d t Hc Ht Hnz Hage). now rewrite Hc.
Qed.

(** Calls that all come within the hour of a filled cache leave it alone. *)
Lemma calls_all_hit cs s d t :
  bootstrapCache s = Some d ->
  bootstrapCacheTime s = Some t ->
  t <> 0 ->
  Forall (fun now => now - t < CACHE_DURATION) (map fst cs) ->
  snd (calls cs s) = s.
Proof.
  intros Hc Ht Hnz. induction cs as [|[now answer] rest IH]; simpl; intros Hall.
  - reflexivity.
  - inversion Hall as [|? ? Hnow Hrest]. subst.
    rewrite (@hit s now answer d t Hc Ht Hnz Hnow).
    specialize (IH Hrest). destruct (calls rest s) as [rs s'']. simpl in *. exact IH.
Qed.

Lemma calls_within_window cs :
  within_window (map fst cs) ->
  Forall answered cs ->
  forall s, (fetches (snd (calls cs s)) <= fetches s + 1)%nat.
Proof.
  induction cs as [|[now answer] rest IH]; simpl; intros Hwin Hans s.
  - lia.
  - destruct Hwin as [Hafter Hwin]. inversion Hans as [|? ? [Hnow Hsome] Hrest]. subst.
    simpl in Hnow, Hsome. unfold getBootstrapData.
    destruct (fresh s now) eqn:Hfresh.
    + specialize (IH Hwin Hrest s). destruct (calls rest s) as [rs s'']. exact IH.
    + destruct answer as [data|]; [|congruence].
      set (s' := {| bootstrapCache := Some data; bootstrapCacheTime := Some now;
                    fetches := S (fetches s) |}).
      assert (Hstay : snd (calls rest s') = s').
      { apply (@calls_all_hit rest s' data now); auto. }
      destruct (calls rest s') as [rs s'']. simpl in *. subst s''. simpl. lia.
Qed.
End CacheFacts.

(** C8. A call made while the cache holds a payload stamped less than an
    hour before returns that payload and issues no request; so calls made one
    after the other within one cache window, with the provider answering,
    issue at most one request in total. *)
Theorem cache_window_single_fetch s now answer cs s0 :
  (forall d t,
      BootstrapCache.bootstrapCache s = Some d ->
      BootstrapCache.bootstrapCacheTime s = Some t ->
      t <> 0 ->
      now - t < BootstrapCache.CACHE_DURATION ->
      BootstrapCache.getBootstrapData now answer s = (Some d, s)) /\
  (BootstrapCache.within_window (map fst cs) ->
   Forall answered cs ->
   (BootstrapCache.fetches (snd (BootstrapCache.calls cs s0))
      <= BootstrapCache.fetches s0 + 1)%nat).
Proof.
  split.
  - intros d t. apply CacheFacts.hit.
  - intros Hwin Hans. now apply CacheFacts.calls_within_window.
Qed.

Lemma cache_window_single_fetch_witness :
  BootstrapCache.getBootstrapData 3000000 None Sample.filled
    = (Some (Sample.bootstrap 1 []), Sample.filled) /\
  (BootstrapCache.fetches
     (snd (BootstrapCache.calls Sample.three_calls BootstrapCache.start)) <= 0 + 1)%nat.
Proof.
  pose proof (@cache_window_single_fetch Sample.filled 3000000 None
                Sample.three_calls BootstrapCache.start) as [Hhit Hone].
  split.
  - apply (Hhit (Sample.bootstrap 1 []) 1000).
    + reflexivity.
    + reflexivity.
    + discriminate.
    + unfold BootstrapCache.CACHE_DURATION. lia.
  - apply Hone.
    + unfold BootstrapCache.CACHE_DURATION. simpl.
      repeat split; repeat constructor; lia.
    + repeat constructor; simpl; discriminate.
Defined.

Example toLocaleString_1234567 : Js.toLocaleString (Js.Fin 1234567) = "1,234,567".
Proof. reflexivity. Qed.

Example toLocaleString_0 : Js.toLocaleString (Js.Fin 0) = "0".
Proof. reflexivity. Qed.

Example values_index_keys_first :
  Js.values [(7, "g"); (-1, "m"); (3, "c")] = ["c"; "g"; "m"].
Proof. reflexivity. Qed.

Example captain_week_run :
  fst (analyze_manager Sample.captain_week "42") =
  {| status := 200;
     body := AnalysisBody
       {| Report.managerInfo :=
            {| Report.name := "Ada Byron"; Report.teamName := "Engines";
               Report.overallRanking := "1,200"; Report.managerPoints := 100;
               Report.allChipsUsed := "None";
               Report.lastSeasonRank := "Didn't Play";
               Report.seasonBeforeLastRank := "Didn't Play";
               Report.pointDifference := -50;
               Report.totalPointsLostOnBench := 0;
               Report.totalCaptaincyPoints := 10;
               Report.currentGameweek := 1;
               Report.highestPoints := 10; Report.highestPointsGW := 1;
               Report.lowestPoints := Js.Fin 10; Report.lowestPointsGW := 1;
               Report.highestRank := "1,200"; Report.highestRankGW := 1;
               Report.lowestRank := "1,200"; Report.lowestRankGW := 1 |};
          Report.playerStats := [Sample.stat "Saka" 10 1 1 10 5];
          Report.positionSummary :=
            [ {| Report.position := "GKP"; Report.totalPoints := 0; Report.players := [] |};
              {| Report.position := "DEF"; Report.totalPoints := 0; Report.players := [] |};
              {| Report.position := "MID"; Report.totalPoints := 10;
                 Report.players := [ {| entry_label := "Saka"; points := 10 |} ] |};
              {| Report.position := "FWD"; Report.totalPoints := 0; Report.players := [] |} ];
          Report.weeklyPoints := [10];
          Report.weeklyRanks := [1200] |} |}.
Proof. vm_compute. reflexivity. Qed.

(** The scenario of a two-gameweek season with bench boost in the second:
    the first week counts the captain twice and loses the bench, the second
    counts everybody. *)
Example bench_boost_season_run :
  let an := Sample.analysis Sample.bench_boost_season in
  Report.weeklyPoints an = [8; 11] /\
  Report.totalPointsLostOnBench (Report.managerInfo an) = 3 /\
  Report.totalCaptaincyPoints (Report.managerInfo an) = 16 /\
  Report.playerStats an
    = [Sample.stat "Saka" 16 2 2 16 8; Sample.stat "Rice" 3 1 0 0 6].
Proof.
  intros an.
  split; [vm_compute; reflexivity|].
  split; [vm_compute; reflexivity|].
  split; vm_compute; reflexivity.
Qed.

(** Gameweeks 3 and 7 share the season's highest points; gameweek 3 is the
    one reported. *)
Example seven_weeks_run :
  let info := Report.managerInfo (Sample.analysis Sample.seven_weeks) in
  Report.highestPoints info = 9 /\ Report.highestPointsGW info = 3 /\
  Report.lowestPoints info = Js.Fin 1 /\ Report.lowestPointsGW info = 4.
Proof.
  intros info.
  split; [vm_compute; reflexivity|].
  split; [vm_compute; reflexivity|].
  split; vm_compute; reflexivity.
Qed.

(** * Further properties of the analysis handler *)

(** ** Requests issued *)

Lemma pick_loop_requests up pd gw bb tc ps st log st' log' :
  pick_loop up pd gw bb tc ps st log = (Some st', log') ->
  log' = log ++ pick_requests pd ps.
Proof.
  revert st log. induction ps as [|pick rest IH]; intros st log Hrun.
  - injection Hrun as _ <-. unfold pick_requests. simpl. now rewrite app_nil_r.
  - rewrite pick_loop_cons in Hrun. unfold pick_requests, known. simpl.
    destruct (find_player pd (element pick)) as [player|] eqn:Hf.
    + destruct (element_summary up (element pick)) as [h|]; [|discriminate].
      destruct (accumulate pd bb tc pick player (resolve_points h gw) st) as [st1|];
        [|discriminate].
      apply IH in Hrun. rewrite Hrun. simpl. now rewrite <- app_assoc.
    + now apply IH in Hrun.
Qed.

Lemma gw_loop_requests up managerId pd hist n k a log a' log' :
  gw_loop up managerId pd hist n (Z.of_nat k + 1) a log = (Some a', log') ->
  log' = log ++ flat_map (week_requests up managerId pd) (gameweeks_from k n).
Proof.
  revert k a log. induction n as [|n IH]; intros k a log Hrun.
  - injection Hrun as _ <-. simpl. now rewrite app_nil_r.
  - simpl in Hrun. unfold bind in Hrun.
    destruct (gameweek up managerId pd hist (Z.of_nat k + 1) a log) as [[a1|] log1] eqn:Hg;
      [|discriminate].
    apply gameweek_inv in Hg. destruct Hg as (d & a2 & g & Hd & Hpl & _).
    apply pick_loop_requests in Hpl.
    replace (Z.of_nat k + 1 + 1) with (Z.of_nat (S k) + 1) in Hrun by lia.
    apply IH in Hrun. subst log' log1.
    unfold gameweeks_from. simpl. unfold week_requests at 2. rewrite Hd.
    simpl. now rewrite <- !app_assoc.
Qed.

Lemma run_loop_requests up managerId e h top G a log :
  run_loop up managerId [] = (Some (e, h, top, G, a), log) ->
  exists pd,
    bootstrap_static up = Some pd /\
    log = upfront_requests managerId
          ++ flat_map (week_requests up managerId pd) (gameweeks_from 0 (Z.to_nat G)).
Proof.
  unfold run_loop, bind, fetch_upfront.
  destruct (bootstrap_static up) as [pd|]; [|discriminate].
  destruct (entry up managerId) as [e0|]; [|discriminate].
  destruct (entry_history up managerId) as [h0|]; [|discriminate].
  destruct (league_standings up) as [l|]; [|discriminate].
  destruct (find is_current (events pd)) as [ev|]; simpl; [|discriminate].
  destruct (hd_error l) as [t|]; simpl; [|discriminate].
  destruct ((event_id ev <? 0) || (4294967295 <? event_id ev)); [discriminate|].
  destruct (gw_loop up managerId pd h0 _ 1 _ _) as [[a0|] l0] eqn:Hloop; [|discriminate].
  unfold ret. intros [= <- <- <- <- <- <-].
  exists pd. split; [reflexivity|].
  apply (gw_loop_requests up managerId pd h0 (Z.to_nat (event_id ev)) 0) in Hloop.
  exact Hloop.
Qed.

(** X1. A completed analysis has issued the four upfront requests and then,
    gameweek by gameweek, the picks request followed by one element-summary
    request for every pick whose player is in the bootstrap data, in squad
    order: a player picked in several gameweeks is requested once per
    gameweek. *)
Theorem requests_of_completed_analysis up managerId an log :
  analyze_manager up managerId = ({| status := 200; body := AnalysisBody an |}, log) ->
  exists pd,
    bootstrap_static up = Some pd /\
    log = upfront_requests managerId
          ++ flat_map (week_requests up managerId pd)
               (gameweeks_from 0
                  (Z.to_nat (Report.currentGameweek (Report.managerInfo an)))).
Proof.
  intros H200.
  destruct (analyze_manager_200 _ _ H200) as (e & h & top & G & a & Hrun & ->).
  simpl. now apply run_loop_requests in Hrun.
Qed.

Lemma requests_of_completed_analysis_witness :
  snd (analyze_manager Sample.bench_boost_season "42")
    = [GetBootstrapStatic; GetEntry "42"; GetEntryHistory "42"; GetLeagueStandings;
       GetEntryPicks "42" 1; GetElementSummary 5; GetElementSummary 3;
       GetEntryPicks "42" 2; GetElementSummary 5; GetElementSummary 3].
Proof.
  assert (H : analyze_manager Sample.bench_boost_season "42"
              = ({| status := 200;
                    body := AnalysisBody (Sample.analysis Sample.bench_boost_season) |},
                 snd (analyze_manager Sample.bench_boost_season "42")))
    by (vm_compute; reflexivity).
  destruct (requests_of_completed_analysis _ _ H) as (pd & Hpd & Hlog).
  injection Hpd as <-. rewrite Hlog. vm_compute. reflexivity.
Defined.

(** X2. When one of the four upfront requests fails, a request with a valid
    manager id is answered 500 after exactly those four requests: all four
    are issued whichever fails, and no gameweek is requested. *)
Theorem upfront_failure_is_500 up managerId :
  digits_only managerId = true ->
  bootstrap_static up = None \/ entry up managerId = None \/
  entry_history up managerId = None \/ league_standings up = None ->
  analyze_manager up managerId
    = ({| status := 500; body := ErrorBody "Failed to analyze manager" |},
       upfront_requests managerId).
Proof.
  intros Hid Hfail. unfold analyze_manager, analyze, run_loop, bind, fetch_upfront.
  rewrite Hid. simpl.
  destruct (bootstrap_static up), (entry up managerId),
    (entry_history up managerId), (league_standings up); try reflexivity.
  destruct Hfail as [H | [H | [H | H]]]; discriminate.
Qed.

Lemma upfront_failure_is_500_witness :
  digits_only "42" = true /\
  analyze_manager Sample2.no_standings "42"
    = ({| status := 500; body := ErrorBody "Failed to analyze manager" |},
       [GetBootstrapStatic; GetEntry "42"; GetEntryHistory "42"; GetLeagueStandings]).
Proof.
  split; [reflexivity|].
  apply (@upfront_failure_is_500 Sample2.no_standings "42"); [reflexivity|].
  right. right. right. reflexivity.
Defined.

(** ** Failures inside the loop *)

Lemma pick_loop_answered up pd gw bb tc ps st log st' log' :
  pick_loop up pd gw bb tc ps st log = (Some st', log') ->
  forall pick, In pick ps -> known pd pick = true ->
               element_summary up (element pick) <> None.
Proof.
  revert st log. induction ps as [|pick rest IH]; intros st log Hrun pk Hin Hknown.
  - destruct Hin.
  - rewrite pick_loop_cons in Hrun. unfold known in Hknown.
    destruct Hin as [<- | Hin].
    + destruct (find_player pd (element pick)) as [player|]; [|discriminate].
      destruct (element_summary up (element pick)); [discriminate | discriminate].
    + destruct (find_player pd (element pick)) as [player|].
      * destruct (element_summary up (element pick)) as [h|]; [|discriminate].
        destruct (accumulate pd bb tc pick player (resolve_points h gw) st) as [st1|];
          [|discriminate].
        eapply IH; eauto.
      * eapply IH; eauto.
Qed.

Lemma gw_loop_answered up managerId pd hist n a log a' log' :
  gw_loop up managerId pd hist n 1 a log = (Some a', log') ->
  forall gw, 1 <= gw <= Z.of_nat n -> week_answered up managerId pd gw.
Proof.
  intros Hrun.
  refine (@gw_loop_from_start up managerId pd hist
            (fun k _ => forall gw, 1 <= gw <= Z.of_nat k -> week_answered up managerId pd gw)
            _ n a log a' log' Hrun _).
  - intros k a0 l0 a1 l1 Hgw Hk gw Hrange.
    destruct (Z.eq_dec gw (Z.of_nat k + 1)) as [-> | Hne]; [|apply Hk; lia].
    apply gameweek_inv in Hgw. destruct Hgw as (d & a2 & g & Hd & Hpl & _).
    exists d. split; [exact Hd|]. intros pick. eapply pick_loop_answered; eauto.
  - intros gw Hrange. simpl in Hrange. lia.
Qed.

(** X3. The analysis is all or nothing: when the picks of one gameweek up to
    the current one cannot be fetched, or the element summary of one known
    player picked in such a gameweek cannot, a request with a valid manager
    id is answered 500 and no report is sent. *)
Theorem failed_gameweek_request_is_500 up managerId pd ev gw :
  digits_only managerId = true ->
  bootstrap_static up = Some pd ->
  find is_current (events pd) = Some ev ->
  1 <= gw <= event_id ev ->
  ~ week_answered up managerId pd gw ->
  fst (analyze_manager up managerId)
    = {| status := 500; body := ErrorBody "Failed to analyze manager" |}.
Proof.
  intros Hid Hpd Hev Hgw Hdown.
  destruct (analyze_manager up managerId) as [resp log] eqn:Hresp.
  pose proof Hresp as Hcase. unfold analyze_manager in Hcase. rewrite Hid in Hcase.
  simpl in Hcase.
  destruct (analyze up managerId []) as [[an|] log0]; injection Hcase as <- <-;
    [|reflexivity].
  exfalso. apply Hdown.
  destruct (analyze_manager_200 _ _ Hresp) as (e & h & top & G & a & Hrun & _).
  destruct (run_loop_inv _ _ _ Hrun) as (pd' & ev' & log1 & Hpd' & _ & Hev' & -> & HG & Hloop).
  assert (pd' = pd) by congruence. subst pd'.
  assert (ev' = ev) by congruence. subst ev'.
  eapply gw_loop_answered; [exact Hloop | lia].
Qed.

Lemma failed_gameweek_request_is_500_witness :
  ~ week_answered Sample2.second_week_down "42"
      (Sample.bootstrap 2 [Sample.player 5 "Saka"]) 2 /\
  fst (analyze_manager Sample2.second_week_down "42")
    = {| status := 500; body := ErrorBody "Failed to analyze manager" |}.
Proof.
  assert (Hdown : ~ week_answered Sample2.second_week_down "42"
                      (Sample.bootstrap 2 [Sample.player 5 "Saka"]) 2).
  { intros (d & Hd & _). discriminate. }
  split; [exact Hdown|].
  apply (@failed_gameweek_request_is_500 Sample2.second_week_down "42"
           (Sample.bootstrap 2 [Sample.player 5 "Saka"])
           {| event_id := 2; is_current := true |} 2);
    [reflexivity | reflexivity | reflexivity | simpl; lia | exact Hdown].
Defined.

(** ** The weekly arrays *)

(** X4. In a report, [weeklyPoints] and [weeklyRanks] have one entry per
    gameweek up to the current one, and the entry of [weeklyRanks] for a
    gameweek is the overall rank of the first season record of that gameweek,
    0 when there is none or it has no rank. *)
Theorem weekly_arrays_cover_the_season up managerId an log h :
  analyze_manager up managerId = ({| status := 200; body := AnalysisBody an |}, log) ->
  entry_history up managerId = Some h ->
  let G := Report.currentGameweek (Report.managerInfo an) in
  0 <= G /\
  Z.of_nat (List.length (Report.weeklyPoints an)) = G /\
  Z.of_nat (List.length (Report.weeklyRanks an)) = G /\
  forall gw, 1 <= gw <= G ->
    nth (Z.to_nat (gw - 1)) (Report.weeklyRanks an) 0 = resolve_rank h gw.
Proof.
  intros H200 Hh.
  destruct (analyze_manager_200 _ _ H200) as (e & h' & top & G & a & Hrun & ->).
  apply run_loop_extrema in Hrun. destruct Hrun as (HG & Hh' & Hex).
  assert (h' = h) by congruence. subst h'. simpl.
  destruct Hex as (Hlp & Hlr & Hranks & _); [lia|].
  split; [exact HG|]. split; [lia|]. split; [lia|].
  intros gw Hgw. rewrite Hranks by lia. f_equal. lia.
Qed.

Lemma weekly_arrays_cover_the_season_witness :
  entry_history Sample.captain_week "42"
    = Some (Sample.history [ {| event := 1; overall_rank := Some 1200 |} ]) /\
  Z.of_nat (List.length (Report.weeklyRanks (Sample.analysis Sample.captain_week))) = 1.
Proof.
  assert (H : analyze_manager Sample.captain_week "42"
              = ({| status := 200;
                    body := AnalysisBody (Sample.analysis Sample.captain_week) |},
                 snd (analyze_manager Sample.captain_week "42")))
    by (vm_compute; reflexivity).
  split; [reflexivity|].
  pose proof (@weekly_arrays_cover_the_season _ _ _ _ _ H eq_refl) as T.
  cbv zeta in T. destruct T as (_ & _ & T & _).
  replace (Report.currentGameweek (Report.managerInfo (Sample.analysis Sample.captain_week)))
    with 1 in T by (vm_compute; reflexivity).
  exact T.
Defined.

(** ** The records of the players *)

(** What a processed pick does to the record it works on. *)
Lemma accumulate_record pd bb tc pick player p a g a' g' :
  accumulate pd bb tc pick player p (a, g) = Some (a', g') ->
  exists s0 s1,
    (Js.get (playerStats a) (element pick) = Some s0 \/
     (Js.get (playerStats a) (element pick) = None /\ new_stat pd player = Some s0)) /\
    playerStats a' = Js.set (playerStats a) (element pick) s1 /\
    same_identity s1 s0 /\
    0 <= starts s1 - starts s0 <= gwInSquad s1 - gwInSquad s0 /\
    cappedPoints s1 - cappedPoints s0 = totalCaptaincyPoints a' - totalCaptaincyPoints a.
Proof.
  unfold accumulate.
  set (existing := match Js.get (playerStats a) (element pick) with
                   | Some s => Some s
                   | None => new_stat pd player
                   end).
  destruct existing as [s0|] eqn:He; [|discriminate].
  assert (Hsrc : Js.get (playerStats a) (element pick) = Some s0 \/
                 (Js.get (playerStats a) (element pick) = None /\
                  new_stat pd player = Some s0)).
  { subst existing. destruct (Js.get (playerStats a) (element pick)); auto. }
  destruct ((position pick <=? 11) || bb).
  - unfold credit_active. destruct (stat_position _) eqn:Hpos; [|discriminate].
    intros [= <- <-]. exists s0. eexists. split; [exact Hsrc|]. split; [reflexivity|].
    unfold same_identity.
    destruct (is_captain pick), (position pick <=? 11); simpl; repeat split; lia.
  - intros [= <- <-]. exists s0. eexists. split; [exact Hsrc|]. split; [reflexivity|].
    unfold same_identity. simpl. repeat split; lia.
Qed.

Lemma new_stat_zero pd player s0 :
  new_stat pd player = Some s0 ->
  totalPointsActive s0 = 0 /\ gwInSquad s0 = 0 /\ starts s0 = 0 /\
  cappedPoints s0 = 0 /\ playerPoints s0 = 0.
Proof.
  unfold new_stat. destruct (index _ _); [|discriminate].
  intros [= <-]. repeat split.
Qed.

Lemma accumulate_records_sound pd bb tc pick player p a g a' g' :
  find_player pd (element pick) = Some player ->
  accumulate pd bb tc pick player p (a, g) = Some (a', g') ->
  records_sound pd a -> records_sound pd a'.
Proof.
  intros Hfind Hacc Hinv k s Hin.
  destruct (accumulate_record _ _ _ _ _ _ _ _ Hacc)
    as (s0 & s1 & Hsrc & Hset & (Hn & Ht & Hp) & Hcount & _).
  rewrite Hset in Hin. apply In_set in Hin.
  destruct Hin as [Hin | [= -> ->]]; [now apply Hinv|].
  destruct Hsrc as [Hget | [_ Hnew]].
  - apply get_In in Hget. destruct (Hinv _ _ Hget) as ((pl & s00 & Hf & Hn0 & Hid) & Hc).
    split; [|lia]. exists pl, s00. split; [exact Hf|]. split; [exact Hn0|].
    destruct Hid as (? & ? & ?). repeat split; congruence.
  - destruct (new_stat_zero _ _ Hnew) as (_ & Hg0 & Hs0 & _).
    split; [|lia]. exists player, s0. repeat split; assumption.
Qed.

Lemma accumulate_capped_total pd bb tc pick player p a g a' g' :
  accumulate pd bb tc pick player p (a, g) = Some (a', g') ->
  capped_total a' - capped_total a = totalCaptaincyPoints a' - totalCaptaincyPoints a.
Proof.
  intros Hacc.
  destruct (accumulate_record _ _ _ _ _ _ _ _ Hacc)
    as (s0 & s1 & Hsrc & Hset & _ & _ & Hcap).
  unfold capped_total. rewrite Hset, sum_set.
  destruct Hsrc as [-> | [-> Hnew]]; [lia|].
  destruct (new_stat_zero _ _ Hnew) as (_ & _ & _ & H0 & _). lia.
Qed.

(** The state at the end of the loop keeps both. *)
Lemma gw_loop_records up managerId pd hist n G a log log' :
  gw_loop up managerId pd hist n 1 (initial G) log = (Some a, log') ->
  records_sound pd a /\ capped_total a = totalCaptaincyPoints a.
Proof.
  intros Hloop.
  refine (@gw_loop_from_start up managerId pd hist
            (fun _ a => records_sound pd a /\ capped_total a = totalCaptaincyPoints a)
            _ n (initial G) log a log' Hloop _).
  - intros k a0 l0 a1 l1 Hgw Ha0.
    apply gameweek_inv in Hgw. destruct Hgw as (d & a2 & g & _ & Hpl & ->).
    change (records_sound pd a2 /\ capped_total a2 = totalCaptaincyPoints a2).
    refine (@pick_loop_inv up pd
              (fun st => records_sound pd (fst st) /\
                         capped_total (fst st) = totalCaptaincyPoints (fst st))
              _ _ _ _ _ (a0, 0) _ (a2, g) _ Hpl Ha0).
    intros pick player h [s1 g1] [s2 g2] _ Hfind _ Hacc [Hs1 Hc1]. simpl in *. split.
    + eapply accumulate_records_sound; eauto.
    + apply accumulate_capped_total in Hacc. lia.
  - split; [intros k s []|reflexivity].
Qed.

Lemma reported_players up managerId an log :
  analyze_manager up managerId = ({| status := 200; body := AnalysisBody an |}, log) ->
  exists pd e h top G a,
    bootstrap_static up = Some pd /\
    an = assemble e h top G a /\
    Permutation (Report.playerStats an) (map snd (playerStats a)) /\
    records_sound pd a /\ capped_total a = totalCaptaincyPoints a.
Proof.
  intros H200.
  destruct (analyze_manager_200 _ _ H200) as (e & h & top & G & a & Hrun & ->).
  destruct (run_loop_inv _ _ _ Hrun) as (pd & ev & log1 & Hpd & _ & _ & _ & _ & Hloop).
  apply gw_loop_records in Hloop. destruct Hloop as [Hrec Hcap].
  exists pd, e, h, top, G, a.
  split; [exact Hpd|]. split; [reflexivity|]. split; [|split; assumption].
  simpl. eapply perm_trans; [apply sort_perm | apply values_perm].
Qed.

(** X5. In a report, [totalCaptaincyPoints] is the sum of the [cappedPoints]
    of the reported players. *)
Theorem captaincy_total_is_sum_of_capped up managerId an log :
  analyze_manager up managerId = ({| status := 200; body := AnalysisBody an |}, log) ->
  Report.totalCaptaincyPoints (Report.managerInfo an)
    = sum (map cappedPoints (Report.playerStats an)).
Proof.
  intros H200.
  destruct (reported_players _ _ H200) as (pd & e & h & top & G & a & _ & -> & Hperm & _ & Hcap).
  simpl in *. rewrite <- Hcap. unfold capped_total.
  symmetry. apply sum_perm, Permutation_map, Hperm.
Qed.

Lemma captaincy_total_is_sum_of_capped_witness :
  Report.totalCaptaincyPoints (Report.managerInfo (Sample.analysis Sample.bench_boost_season))
    = sum (map cappedPoints (Report.playerStats (Sample.analysis Sample.bench_boost_season))).
Proof.
  assert (H : analyze_manager Sample.bench_boost_season "42"
              = ({| status := 200;
                    body := AnalysisBody (Sample.analysis Sample.bench_boost_season) |},
                 snd (analyze_manager Sample.bench_boost_season "42")))
    by (vm_compute; reflexivity).
  exact (captaincy_total_is_sum_of_capped _ _ H).
Defined.

(** X6. Every reported player is a bootstrap element: the record carries the
    [web_name] of the first element with its id, the name of that element's
    team and the position label of its [element_type]; a pick whose player is
    not in the bootstrap data never produces a record. *)
Theorem reported_player_is_bootstrap_element up managerId an log pd s :
  analyze_manager up managerId = ({| status := 200; body := AnalysisBody an |}, log) ->
  bootstrap_static up = Some pd ->
  In s (Report.playerStats an) ->
  exists p t,
    find_player pd (id p) = Some p /\
    name s = web_name p /\
    index (teams pd) (team p - 1) = Some t /\
    team_label s = team_name t /\
    stat_position s = index [GKP; DEF; MID; FWD] (element_type p - 1).
Proof.
  intros H200 Hpd Hin.
  destruct (reported_players _ _ H200)
    as (pd' & e & h & top & G & a & Hpd' & -> & Hperm & Hrec & _).
  assert (pd' = pd) by congruence. subst pd'.
  apply (Permutation_in _ Hperm) in Hin. apply in_map_iff in Hin.
  destruct Hin as ([k s'] & <- & Hin). simpl.
  destruct (Hrec _ _ Hin) as ((p & s0 & Hf & Hnew & Hn & Ht & Hp) & _).
  pose proof (find_player_id _ _ Hf) as [_ Hid].
  unfold new_stat in Hnew.
  destruct (index (teams pd) (team p - 1)) as [t|] eqn:Hteam; [|discriminate].
  injection Hnew as <-. simpl in *.
  exists p, t. rewrite Hid. repeat split; assumption.
Qed.

Lemma reported_player_is_bootstrap_element_witness :
  In (Sample.stat "Saka" 10 1 1 10 5)
     (Report.playerStats (Sample.analysis Sample.captain_week)) /\
  exists p, name (Sample.stat "Saka" 10 1 1 10 5) = web_name p.
Proof.
  assert (H : analyze_manager Sample.captain_week "42"
              = ({| status := 200;
                    body := AnalysisBody (Sample.analysis Sample.captain_week) |},
                 snd (analyze_manager Sample.captain_week "42")))
    by (vm_compute; reflexivity).
  assert (Hin : In (Sample.stat "Saka" 10 1 1 10 5)
                   (Report.playerStats (Sample.analysis Sample.captain_week)))
    by (vm_compute; left; reflexivity).
  split; [exact Hin|].
  destruct (@reported_player_is_bootstrap_element _ _ _ _ _ _ H eq_refl Hin)
    as (p & t & _ & Hname & _).
  exists p. exact Hname.
Defined.

(** X7. No reported player has more [starts] than [gwInSquad], and neither
    counter is negative. *)
Theorem starts_within_squad_weeks up managerId an log s :
  analyze_manager up managerId = ({| status := 200; body := AnalysisBody an |}, log) ->
  In s (Report.playerStats an) ->
  0 <= starts s <= gwInSquad s.
Proof.
  intros H200 Hin.
  destruct (reported_players _ _ H200)
    as (pd & e & h & top & G & a & _ & -> & Hperm & Hrec & _).
  apply (Permutation_in _ Hperm) in Hin. apply in_map_iff in Hin.
  destruct Hin as ([k s'] & <- & Hin). simpl. now destruct (Hrec _ _ Hin).
Qed.

Lemma starts_within_squad_weeks_witness :
  0 <= starts (Sample.stat "Rice" 3 1 0 0 6) <= gwInSquad (Sample.stat "Rice" 3 1 0 0 6).
Proof.
  assert (H : analyze_manager Sample.bench_boost_season "42"
              = ({| status := 200;
                    body := AnalysisBody (Sample.analysis Sample.bench_boost_season) |},
                 snd (analyze_manager Sample.bench_boost_season "42")))
    by (vm_compute; reflexivity).
  apply (@starts_within_squad_weeks _ _ _ _ _ H).
  vm_compute. right. left. reflexivity.
Defined.

(** ** The position summary *)

Lemma fold_left_points (l : list PositionEntry) (z : Z) :
  fold_left (fun sum player => sum + points player) l z = z + sum (map points l).
Proof.
  revert z. induction l as [|x t IH]; intros z; simpl; [lia|].
  rewrite IH. lia.
Qed.

Lemma get_set_position pp pos o pos' :
  get_position (set_position pp pos o) pos'
    = if position_eq_dec pos' pos then o else get_position pp pos'.
Proof.
  destruct pos, pos'; simpl; reflexivity.
Qed.

Lemma position_total_set pp pos o :
  position_total (set_position pp pos o)
    = position_total pp
      - sum (map points (map snd (get_position pp pos)))
      + sum (map points (map snd o)).
Proof.
  unfold position_total. destruct pos; simpl; lia.
Qed.

(** The two branches of a processed pick, with what they write. *)
Lemma accumulate_shape pd bb tc pick player p a g a' g' :
  accumulate pd bb tc pick player p (a, g) = Some (a', g') ->
  exists s0 s1,
    (Js.get (playerStats a) (element pick) = Some s0 \/
     (Js.get (playerStats a) (element pick) = None /\ new_stat pd player = Some s0)) /\
    playerStats a' = Js.set (playerStats a) (element pick) s1 /\
    same_identity s1 s0 /\
    ((exists pos c,
         stat_position s0 = Some pos /\
         totalPointsActive s1 = totalPointsActive s0 + c /\
         totalPointsActiveSum a' = totalPointsActiveSum a + c /\
         positionPoints a'
           = set_position (positionPoints a) pos
               (Js.set (get_position (positionPoints a) pos) (element pick)
                  match Js.get (get_position (positionPoints a) pos) (element pick) with
                  | Some e => {| entry_label := entry_label e; points := points e + c |}
                  | None => {| entry_label := name s0; points := 0 + c |}
                  end)) \/
     (totalPointsActive s1 = totalPointsActive s0 /\
      totalPointsActiveSum a' = totalPointsActiveSum a /\
      positionPoints a' = positionPoints a)).
Proof.
  unfold accumulate.
  set (existing := match Js.get (playerStats a) (element pick) with
                   | Some s => Some s
                   | None => new_stat pd player
                   end).
  destruct existing as [s0|] eqn:He; [|discriminate].
  assert (Hsrc : Js.get (playerStats a) (element pick) = Some s0 \/
                 (Js.get (playerStats a) (element pick) = None /\
                  new_stat pd player = Some s0)).
  { subst existing. destruct (Js.get (playerStats a) (element pick)); auto. }
  destruct ((position pick <=? 11) || bb).
  - unfold credit_active.
    destruct (stat_position _) as [pos|] eqn:Hpos; [|discriminate].
    intros [= <- <-]. exists s0. eexists. split; [exact Hsrc|]. split; [reflexivity|].
    split.
    { unfold same_identity.
      destruct (is_captain pick), (position pick <=? 11); simpl; repeat split. }
    left. exists pos.
    exists (if is_captain pick then p * (if tc then 3 else 2) else p).
    assert (Hpos0 : stat_position s0 = Some pos).
    { destruct (is_captain pick); exact Hpos. }
    split; [exact Hpos0|]. split.
    { destruct (is_captain pick), (position pick <=? 11); reflexivity. }
    split; [reflexivity|]. simpl. f_equal. f_equal.
    destruct (Js.get (get_position (positionPoints a) pos) (element pick)); simpl;
      [reflexivity|].
    f_equal. destruct (is_captain pick); reflexivity.
  - intros [= <- <-]. exists s0. eexists. split; [exact Hsrc|]. split; [reflexivity|].
    split; [unfold same_identity; simpl; repeat split|].
    right. simpl. repeat split.
Qed.

Lemma accumulate_position_total pd bb tc pick player p a g a' g' :
  accumulate pd bb tc pick player p (a, g) = Some (a', g') ->
  position_total (positionPoints a') - position_total (positionPoints a)
    = totalPointsActiveSum a' - totalPointsActiveSum a.
Proof.
  intros Hacc.
  destruct (accumulate_shape _ _ _ _ _ _ _ _ Hacc)
    as (s0 & s1 & _ & _ & _ & [(pos & c & _ & _ & Hsum & Hpp) | (_ & Hsum & Hpp)]).
  - rewrite Hpp, position_total_set, sum_set, Hsum.
    destruct (Js.get (get_position (positionPoints a) pos) (element pick)); simpl; lia.
  - rewrite Hpp, Hsum. lia.
Qed.

Lemma In_get {V} (o : Js.obj V) k v :
  NoDup (keys o) -> In (k, v) o -> Js.get o k = Some v.
Proof.
  induction o as [|[k' v'] o IH]; simpl; intros Hnd Hin; [destruct Hin|].
  inversion Hnd as [|? ? Hnotin Hnd']. subst.
  destruct Hin as [[= -> ->] | Hin].
  - now rewrite Z.eqb_refl.
  - destruct (k' =? k) eqn:E; [|now apply IH].
    apply Z.eqb_eq in E. subst k'. exfalso. apply Hnotin.
    change k with (fst (k, v)). now apply in_map.
Qed.

Lemma accumulate_entries_match pd bb tc pick player p a g a' g' :
  accumulate pd bb tc pick player p (a, g) = Some (a', g') ->
  entries_match a -> entries_match a'.
Proof.
  intros Hacc (Hnd & Hndp & Hent & Hrec & Hnopos).
  destruct (accumulate_shape _ _ _ _ _ _ _ _ Hacc)
    as (s0 & s1 & Hsrc & Hset & (Hn & _ & Hp) & Hbranch).
  set (k := element pick) in *.
  assert (Hstat0 : forall s, Js.get (playerStats a) k = Some s -> s = s0).
  { intros s Hs. destruct Hsrc as [H | [H _]]; congruence. }
  assert (Hzero : forall pos, stat_position s0 = Some pos ->
             Js.get (get_position (positionPoints a) pos) k = None ->
             totalPointsActive s0 = 0).
  { intros pos Hpos Hnone. destruct Hsrc as [H | [_ H]].
    - eapply Hrec; eauto.
    - now destruct (new_stat_zero _ _ H). }
  assert (Hzero' : stat_position s0 = None -> totalPointsActive s0 = 0).
  { intros Hpos. destruct Hsrc as [H | [_ H]].
    - eapply Hnopos; eauto.
    - now destruct (new_stat_zero _ _ H). }
  assert (Hother : forall k', k' <> k -> Js.get (playerStats a') k' = Js.get (playerStats a) k').
  { intros k' Hne. rewrite Hset. now apply get_set_other. }
  assert (Hself : Js.get (playerStats a') k = Some s1).
  { rewrite Hset. apply get_set_same. }
  split; [rewrite Hset; now apply NoDup_keys_set|].
  destruct Hbranch as [(pos0 & c & Hpos0 & Htpa & _ & Hpp) | (Htpa & _ & Hpp)].
  - rewrite Hpp. split; [|split; [|split]].
    + intros pos. rewrite get_set_position.
      destruct (position_eq_dec pos pos0); [now apply NoDup_keys_set | apply Hndp].
    + intros pos k' e. rewrite get_set_position.
      destruct (position_eq_dec pos pos0) as [-> | Hnepos].
      * destruct (Z.eq_dec k' k) as [-> | Hnek].
        -- rewrite get_set_same. intros [= <-]. exists s1.
           split; [exact Hself|]. split; [congruence|].
           destruct (Js.get (get_position (positionPoints a) pos0) k) as [e0|] eqn:He0; simpl.
           ++ destruct (Hent _ _ _ He0) as (s & Hs & _ & Hpts & Hlab).
              apply Hstat0 in Hs. subst s. split; [lia | congruence].
           ++ rewrite (Hzero pos0 Hpos0 He0) in Htpa. split; [lia | congruence].
        -- rewrite get_set_other by exact Hnek. intros He.
           destruct (Hent _ _ _ He) as (s & Hs & Hrest).
           exists s. rewrite (Hother k' Hnek). auto.
      * intros He. destruct (Hent _ _ _ He) as (s & Hs & Hspos & Hrest).
        destruct (Z.eq_dec k' k) as [-> | Hnek].
        -- apply Hstat0 in Hs. subst s. congruence.
        -- exists s. rewrite (Hother k' Hnek). auto.
    + intros k' s pos. destruct (Z.eq_dec k' k) as [-> | Hnek].
      * rewrite Hself. intros [= <-] Hspos.
        assert (pos = pos0) by congruence. subst pos.
        rewrite get_set_position.
        destruct (position_eq_dec pos0 pos0); [|congruence].
        rewrite get_set_same. discriminate.
      * rewrite (Hother k' Hnek). intros Hs Hspos. rewrite get_set_position.
        destruct (position_eq_dec pos pos0) as [-> | Hnepos].
        -- rewrite get_set_other by exact Hnek. eapply Hrec; eauto.
        -- eapply Hrec; eauto.
    + intros k' s. destruct (Z.eq_dec k' k) as [-> | Hnek].
      * rewrite Hself. intros [= <-] Hspos. congruence.
      * rewrite (Hother k' Hnek). apply Hnopos.
  - rewrite Hpp. split; [exact Hndp|]. split; [|split].
    + intros pos k' e He. destruct (Hent _ _ _ He) as (s & Hs & Hspos & Hpts & Hlab).
      destruct (Z.eq_dec k' k) as [-> | Hnek].
      * apply Hstat0 in Hs. subst s. exists s1.
        split; [exact Hself|]. repeat split; congruence.
      * exists s. rewrite (Hother k' Hnek). auto.
    + intros k' s pos. destruct (Z.eq_dec k' k) as [-> | Hnek].
      * rewrite Hself. intros [= <-] Hspos Hnone. rewrite Htpa.
        apply (Hzero pos); congruence.
      * rewrite (Hother k' Hnek). eapply Hrec.
    + intros k' s. destruct (Z.eq_dec k' k) as [-> | Hnek].
      * rewrite Hself. intros [= <-] Hspos. rewrite Htpa. apply Hzero'. congruence.
      * rewrite (Hother k' Hnek). apply Hnopos.
Qed.

Lemma gw_loop_positions up managerId pd hist n G a log log' :
  gw_loop up managerId pd hist n 1 (initial G) log = (Some a, log') ->
  entries_match a /\ position_total (positionPoints a) = totalPointsActiveSum a.
Proof.
  intros Hloop.
  refine (@gw_loop_from_start up managerId pd hist
            (fun _ a => entries_match a /\
                        position_total (positionPoints a) = totalPointsActiveSum a)
            _ n (initial G) log a log' Hloop _).
  - intros k a0 l0 a1 l1 Hgw Ha0.
    apply gameweek_inv in Hgw. destruct Hgw as (d & a2 & g & _ & Hpl & ->).
    change (entries_match a2 /\ position_total (positionPoints a2) = totalPointsActiveSum a2).
    refine (@pick_loop_inv up pd
              (fun st => entries_match (fst st) /\
                         position_total (positionPoints (fst st))
                           = totalPointsActiveSum (fst st))
              _ _ _ _ _ (a0, 0) _ (a2, g) _ Hpl Ha0).
    intros pick player h [s1 g1] [s2 g2] _ _ _ Hacc [Hs1 Hc1]. simpl in *. split.
    + eapply accumulate_entries_match; eauto.
    + apply accumulate_position_total in Hacc. lia.
  - split; [|reflexivity].
    split; [constructor|]. split; [intros []; constructor|].
    split; [intros [] k e; discriminate|].
    split; [intros k s pos; discriminate | intros k s; discriminate].
Qed.

Lemma by_points_total x y : by_points x y = false -> by_points y x = true.
Proof. unfold by_points. intros H. apply Z.leb_gt in H. apply Z.leb_le. lia. Qed.

Lemma by_points_trans x y z :
  by_points x y = true -> by_points y z = true -> by_points x z = true.
Proof. unfold by_points. rewrite !Z.leb_le. lia. Qed.

Lemma summarise_total pp pos :
  Report.totalPoints (summarise pp pos)
    = sum (map points (map snd (get_position pp pos))).
Proof.
  unfold summarise. simpl. rewrite fold_left_points. simpl.
  apply sum_perm, Permutation_map, values_perm.
Qed.

Lemma reported_positions up managerId an log :
  analyze_manager up managerId = ({| status := 200; body := AnalysisBody an |}, log) ->
  exists e h top G a,
    an = assemble e h top G a /\
    entries_match a /\
    position_total (positionPoints a) = sum (weeklyPoints a).
Proof.
  intros H200.
  destruct (analyze_manager_200 _ _ H200) as (e & h & top & G & a & Hrun & ->).
  destruct (run_loop_inv _ _ _ Hrun) as (pd & ev & log1 & _ & _ & _ & _ & HG & Hloop).
  pose proof Hloop as Hpos. apply gw_loop_positions in Hpos. destruct Hpos as [Hent Htot].
  apply (gw_loop_from_start up managerId pd h (totals_agree (Z.to_nat G))) in Hloop.
  - destruct Hloop as (_ & _ & Hsum & _); [lia|].
    exists e, h, top, G, a. split; [reflexivity|]. split; [exact Hent | lia].
  - intros k a0 l0 a1 l1. apply gameweek_totals.
  - intros _. simpl. rewrite repeat_length, sum_repeat_zero. repeat split.
    intros j _. apply nth_repeat.
Qed.

(** X8. The position summary of a report has the four entries GKP, DEF, MID
    and FWD in that order; the [totalPoints] of each is the sum of the points
    of its players, who are listed by descending points; and the four totals
    add up to the sum of [weeklyPoints]. *)
Theorem position_summary_totals up managerId an log :
  analyze_manager up managerId = ({| status := 200; body := AnalysisBody an |}, log) ->
  map Report.position (Report.positionSummary an) = ["GKP"; "DEF"; "MID"; "FWD"] /\
  (forall ps, In ps (Report.positionSummary an) ->
     Report.totalPoints ps = sum (map points (Report.players ps)) /\
     StronglySorted (fun x y => points x >= points y) (Report.players ps)) /\
  sum (map Report.totalPoints (Report.positionSummary an)) = sum (Report.weeklyPoints an).
Proof.
  intros H200.
  destruct (reported_positions _ _ H200) as (e & h & top & G & a & -> & _ & Htot).
  split; [reflexivity|]. split.
  - intros ps Hin. simpl in Hin.
    assert (Hps : exists pos, ps = summarise (positionPoints a) pos).
    { destruct Hin as [<- | [<- | [<- | [<- | []]]]]; eauto. }
    destruct Hps as [pos ->]. split.
    + unfold summarise. simpl. rewrite fold_left_points. simpl.
      apply sum_perm, Permutation_map, Permutation_sym, sort_perm.
    + eapply StronglySorted_impl;
        [|apply sort_sorted; [apply by_points_total | apply by_points_trans]].
      intros x y _ _ Hxy. unfold by_points in Hxy. apply Z.leb_le in Hxy. lia.
  - cbn [Report.positionSummary Report.weeklyPoints assemble map].
    rewrite !summarise_total. rewrite <- Htot. reflexivity.
Qed.

Lemma position_summary_totals_witness :
  sum (map Report.totalPoints
         (Report.positionSummary (Sample.analysis Sample.bench_boost_season)))
    = sum (Report.weeklyPoints (Sample.analysis Sample.bench_boost_season)).
Proof.
  assert (H : analyze_manager Sample.bench_boost_season "42"
              = ({| status := 200;
                    body := AnalysisBody (Sample.analysis Sample.bench_boost_season) |},
                 snd (analyze_manager Sample.bench_boost_season "42")))
    by (vm_compute; reflexivity).
  exact (proj2 (proj2 (position_summary_totals _ _ H))).
Defined.

Lemma in_summary an_pp ps :
  In ps (map (summarise an_pp) [GKP; DEF; MID; FWD]) ->
  exists pos, ps = summarise an_pp pos.
Proof.
  simpl. intros [<- | [<- | [<- | [<- | []]]]]; eauto.
Qed.

(** X9. Every player listed under a position in the summary is a reported
    player of that position, with the same name and with [totalPointsActive]
    equal to the points listed. *)
Theorem position_entry_is_reported_player up managerId an log ps e :
  analyze_manager up managerId = ({| status := 200; body := AnalysisBody an |}, log) ->
  In ps (Report.positionSummary an) ->
  In e (Report.players ps) ->
  exists s,
    In s (Report.playerStats an) /\
    name s = entry_label e /\
    totalPointsActive s = points e /\
    option_map position_label (stat_position s) = Some (Report.position ps).
Proof.
  intros H200 Hps He.
  destruct (reported_positions _ _ H200)
    as (en & h & top & G & a & -> & (Hnd & Hndp & Hent & _) & _).
  apply in_summary in Hps. destruct Hps as [pos ->]. simpl in He.
  apply (Permutation_in _ (sort_perm _ _)) in He.
  apply (Permutation_in _ (values_perm _)) in He.
  apply in_map_iff in He. destruct He as ([k e'] & <- & He). simpl.
  apply In_get in He; [|apply Hndp].
  destruct (Hent _ _ _ He) as (s & Hs & Hpos & Hpts & Hlab).
  exists s. split; [|split; [congruence | split; [congruence|]]].
  - apply Permutation_in with (map snd (playerStats a)).
    + apply Permutation_sym. eapply perm_trans; [apply sort_perm | apply values_perm].
    + apply get_In in Hs. change s with (snd (k, s)). now apply in_map.
  - rewrite Hpos. reflexivity.
Qed.

Lemma position_entry_is_reported_player_witness :
  exists s,
    In s (Report.playerStats (Sample.analysis Sample.captain_week)) /\
    name s = "Saka" /\ totalPointsActive s = 10.
Proof.
  assert (H : analyze_manager Sample.captain_week "42"
              = ({| status := 200;
                    body := AnalysisBody (Sample.analysis Sample.captain_week) |},
                 snd (analyze_manager Sample.captain_week "42")))
    by (vm_compute; reflexivity).
  assert (Hps : In (summarise (positionPoints Sample.captain_week_state) MID)
                   (Report.positionSummary (Sample.analysis Sample.captain_week)))
    by (vm_compute; right; right; left; reflexivity).
  assert (He : In {| entry_label := "Saka"; points := 10 |}
                  (Report.players (summarise (positionPoints Sample.captain_week_state) MID)))
    by (vm_compute; left; reflexivity).
  destruct (position_entry_is_reported_player _ _ _ _ H Hps He) as (s & Hin & Hn & Ht & _).
  exists s. auto.
Defined.

(** X10. Conversely, every reported player with active points is listed under
    his position, with his name and his [totalPointsActive] as points. *)
Theorem active_player_is_listed up managerId an log s :
  analyze_manager up managerId = ({| status := 200; body := AnalysisBody an |}, log) ->
  In s (Report.playerStats an) ->
  totalPointsActive s <> 0 ->
  exists ps e,
    In ps (Report.positionSummary an) /\
    In e (Report.players ps) /\
    option_map position_label (stat_position s) = Some (Report.position ps) /\
    entry_label e = name s /\
    points e = totalPointsActive s.
Proof.
  intros H200 Hin Hact.
  destruct (reported_positions _ _ H200)
    as (en & h & top & G & a & -> & (Hnd & Hndp & Hent & Hrec & Hnopos) & _).
  simpl in Hin.
  apply (Permutation_in _ (sort_perm _ _)) in Hin.
  apply (Permutation_in _ (values_perm _)) in Hin.
  apply in_map_iff in Hin. destruct Hin as ([k s'] & <- & Hin). simpl in *.
  apply In_get in Hin; [|exact Hnd].
  destruct (stat_position s') as [pos|] eqn:Hpos.
  2:{ exfalso. apply Hact. eapply Hnopos; eauto. }
  destruct (Js.get (get_position (positionPoints a) pos) k) as [e|] eqn:He.
  2:{ exfalso. apply Hact. eapply Hrec; eauto. }
  destruct (Hent _ _ _ He) as (s & Hs & _ & Hpts & Hlab).
  assert (s = s') by congruence. subst s.
  exists (summarise (positionPoints a) pos), e.
  split; [|split; [|split; [reflexivity | split; assumption]]].
  - destruct pos; simpl; tauto.
  - simpl. apply Permutation_in with (map snd (get_position (positionPoints a) pos)).
    + apply Permutation_sym. eapply perm_trans; [apply sort_perm | apply values_perm].
    + apply get_In in He. change e with (snd (k, e)). now apply in_map.
Qed.

Lemma active_player_is_listed_witness :
  In (Sample.stat "Saka" 10 1 1 10 5)
     (Report.playerStats (Sample.analysis Sample.captain_week)) /\
  exists ps e,
    In ps (Report.positionSummary (Sample.analysis Sample.captain_week)) /\
    In e (Report.players ps) /\ points e = 10.
Proof.
  assert (H : analyze_manager Sample.captain_week "42"
              = ({| status := 200;
                    body := AnalysisBody (Sample.analysis Sample.captain_week) |},
                 snd (analyze_manager Sample.captain_week "42")))
    by (vm_compute; reflexivity).
  assert (Hin : In (Sample.stat "Saka" 10 1 1 10 5)
                   (Report.playerStats (Sample.analysis Sample.captain_week)))
    by (vm_compute; left; reflexivity).
  split; [exact Hin|].
  destruct (@active_player_is_listed _ _ _ _ _ H Hin) as (ps & e & H1 & H2 & _ & _ & H3).
  - simpl. discriminate.
  - exists ps, e. auto.
Defined.

(** * The handler of [/api/player-stats/:position] *)

Lemma filter_none {A} (l : list A) : filter (fun _ => false) l = [].
Proof. induction l; simpl; auto. Qed.

(** X11. A position that is none of gkp, def, mid and fwd in any letter case
    is answered 200 with an empty list, after the one bootstrap request: it
    is not an error. *)
Theorem unknown_position_is_empty up position data :
  PlayerStatsRoute.positionMap (PlayerStatsRoute.toLowerCase position) = None ->
  bootstrap_static up = Some data ->
  PlayerStatsRoute.player_stats up position
    = ({| PlayerStatsRoute.status := 200;
          PlayerStatsRoute.body := PlayerStatsRoute.PlayersBody [] |},
       [GetBootstrapStatic]).
Proof.
  intros Hpos Hdata. unfold PlayerStatsRoute.player_stats, axios_get.
  rewrite Hdata, Hpos. simpl. unfold PlayerStatsRoute.has_type.
  now rewrite filter_none.
Qed.

Lemma unknown_position_is_empty_witness :
  PlayerStatsRoute.positionMap (PlayerStatsRoute.toLowerCase "Keeper") = None /\
  PlayerStatsRoute.player_stats Sample.tied "Keeper"
    = ({| PlayerStatsRoute.status := 200;
          PlayerStatsRoute.body := PlayerStatsRoute.PlayersBody [] |},
       [GetBootstrapStatic]).
Proof.
  split; [reflexivity|].
  apply (@unknown_position_is_empty Sample.tied "Keeper"
           (Sample.bootstrap 1 [Sample.player 3 "Rice"; Sample.player 5 "Saka"]));
    reflexivity.
Defined.

(** X12. For a position that reads gkp, def, mid or fwd in any letter case,
    the answer lists exactly the bootstrap players whose [element_type] is
    the code of that position (1 to 4 in that order), in bootstrap order. *)
Theorem known_position_lists_its_players up position data code :
  PlayerStatsRoute.positionMap (PlayerStatsRoute.toLowerCase position) = Some code ->
  bootstrap_static up = Some data ->
  exists l,
    PlayerStatsRoute.player_stats up position
      = ({| PlayerStatsRoute.status := 200;
            PlayerStatsRoute.body := PlayerStatsRoute.PlayersBody l |},
         [GetBootstrapStatic]) /\
    (forall p, In p l <-> In p (elements data) /\ element_type p = code) /\
    (exists keep, l = filter keep (elements data)).
Proof.
  intros Hpos Hdata. unfold PlayerStatsRoute.player_stats, axios_get.
  rewrite Hdata, Hpos. simpl. eexists. split; [reflexivity|]. split.
  - intros p. rewrite filter_In. unfold PlayerStatsRoute.has_type.
    rewrite Z.eqb_eq. tauto.
  - eexists. reflexivity.
Qed.

Lemma known_position_lists_its_players_witness :
  PlayerStatsRoute.positionMap (PlayerStatsRoute.toLowerCase "MiD") = Some 3 /\
  exists l,
    PlayerStatsRoute.player_stats Sample.tied "MiD"
      = ({| PlayerStatsRoute.status := 200;
            PlayerStatsRoute.body := PlayerStatsRoute.PlayersBody l |},
         [GetBootstrapStatic]) /\
    In (Sample.player 5 "Saka") l.
Proof.
  split; [reflexivity|].
  destruct (@known_position_lists_its_players Sample.tied "MiD"
              (Sample.bootstrap 1 [Sample.player 3 "Rice"; Sample.player 5 "Saka"]) 3
              eq_refl eq_refl) as (l & Hl & Hin & _).
  exists l. split; [exact Hl|].
  apply Hin. split; [right; left; reflexivity | reflexivity].
Defined.

(** * More on the bootstrap cache *)

(** X13. Once the stored payload is an hour old or older (the boundary of
    exactly 3 600 000 ms included), or while nothing is stored, a call asks
    the provider: answered, it returns the new payload and stores it stamped
    with the time of the call; not answered, it rejects and leaves payload and
    stamp as they were, without returning the stale payload. *)
Theorem expired_cache_refetches s now answer :
  (BootstrapCache.bootstrapCache s = None \/
   exists t, BootstrapCache.bootstrapCacheTime s = Some t /\
             BootstrapCache.CACHE_DURATION <= now - t) ->
  let '(result, s') := BootstrapCache.getBootstrapData now answer s in
  result = answer /\
  BootstrapCache.fetches s' = S (BootstrapCache.fetches s) /\
  match answer with
  | Some data =>
      BootstrapCache.bootstrapCache s' = Some data /\
      BootstrapCache.bootstrapCacheTime s' = Some now
  | None =>
      BootstrapCache.bootstrapCache s' = BootstrapCache.bootstrapCache s /\
      BootstrapCache.bootstrapCacheTime s' = BootstrapCache.bootstrapCacheTime s
  end.
Proof.
  intros Hold.
  assert (Hstale : BootstrapCache.fresh s now = false).
  { unfold BootstrapCache.fresh. destruct Hold as [-> | (t & -> & Hage)]; [reflexivity|].
    destruct (BootstrapCache.bootstrapCache s); [|reflexivity].
    apply andb_false_iff. right. apply Z.ltb_ge. exact Hage. }
  unfold BootstrapCache.getBootstrapData. rewrite Hstale.
  destruct answer; simpl; auto.
Qed.

Lemma expired_cache_refetches_witness :
  BootstrapCache.CACHE_DURATION <= 3601000 - 1000 /\
  fst (BootstrapCache.getBootstrapData 3601000 None Sample.filled) = None.
Proof.
  assert (Hage : BootstrapCache.CACHE_DURATION <= 3601000 - 1000)
    by (unfold BootstrapCache.CACHE_DURATION; lia).
  split; [exact Hage|].
  pose proof (@expired_cache_refetches Sample.filled 3601000 None
                (or_intror (ex_intro _ 1000 (conj eq_refl Hage)))) as T.
  destruct (BootstrapCache.getBootstrapData 3601000 None Sample.filled) as [r s'].
  exact (proj1 T).
Defined.

Lemma call_keeps_pairing now answer s :
  (BootstrapCache.bootstrapCache s = None <-> BootstrapCache.bootstrapCacheTime s = None) ->
  let s' := snd (BootstrapCache.getBootstrapData now answer s) in
  (BootstrapCache.bootstrapCache s' = None <-> BootstrapCache.bootstrapCacheTime s' = None) /\
  (BootstrapCache.fetches s <= BootstrapCache.fetches s' <= S (BootstrapCache.fetches s))%nat /\
  (forall d, fst (BootstrapCache.getBootstrapData now answer s) = Some d ->
             BootstrapCache.bootstrapCache s' = Some d).
Proof.
  intros Hpair. unfold BootstrapCache.getBootstrapData.
  destruct (BootstrapCache.fresh s now) eqn:Hf; simpl.
  - split; [exact Hpair|]. split; [lia | auto].
  - destruct answer as [data|]; simpl.
    + split; [split; discriminate|]. split; [lia | auto].
    + split; [exact Hpair|]. split; [lia | discriminate].
Qed.

(** X14. Whatever calls were made since the process started, payload and
    stamp are stored together or not at all, the provider has been asked at
    most once per call, and a call that returned a payload returned the one
    stored when it ended. *)
Theorem cache_kept_consistent cs now answer :
  let s := snd (BootstrapCache.calls cs BootstrapCache.start) in
  let '(result, s') := BootstrapCache.getBootstrapData now answer s in
  (BootstrapCache.bootstrapCache s' = None <-> BootstrapCache.bootstrapCacheTime s' = None) /\
  (BootstrapCache.fetches s' <= S (List.length cs))%nat /\
  (forall d, result = Some d -> BootstrapCache.bootstrapCache s' = Some d).
Proof.
  assert (Hinv : forall cs s0,
             (BootstrapCache.bootstrapCache s0 = None
              <-> BootstrapCache.bootstrapCacheTime s0 = None) ->
             let s := snd (BootstrapCache.calls cs s0) in
             (BootstrapCache.bootstrapCache s = None
              <-> BootstrapCache.bootstrapCacheTime s = None) /\
             (BootstrapCache.fetches s <= BootstrapCache.fetches s0 + List.length cs)%nat).
  { clear. induction cs as [|[now answer] rest IH]; intros s0 Hpair; simpl.
    - split; [exact Hpair | lia].
    - pose proof (call_keeps_pairing now answer s0 Hpair) as (Hp1 & Hf1 & _).
      destruct (BootstrapCache.getBootstrapData now answer s0) as [r s1]. simpl in *.
      specialize (IH s1 Hp1). destruct (BootstrapCache.calls rest s1) as [rs s2].
      simpl in *. destruct IH as [IH1 IH2]. split; [exact IH1 | lia]. }
  intros s.
  destruct (Hinv cs BootstrapCache.start) as [Hp Hf]; [simpl; tauto|].
  fold s in Hp, Hf.
  pose proof (call_keeps_pairing now answer s Hp) as (Hp1 & Hf1 & Hres).
  destruct (BootstrapCache.getBootstrapData now answer s) as [result s'].
  simpl in *. split; [exact Hp1|]. split; [lia | exact Hres].
Qed.

(** * The revision with the current team and the last five gameweeks *)

Module CurrentTeamFacts.
Import CurrentTeam.

Lemma map_defined_length {A B} (f : A -> option B) l l' :
  map_defined f l = Some l' -> List.length l' = List.length l.
Proof.
  revert l'. induction l as [|x t IH]; simpl; intros l'.
  - intros [= <-]. reflexivity.
  - destruct (f x); [|discriminate]. destruct (map_defined f t); [|discriminate].
    intros [= <-]. simpl. f_equal. now apply IH.
Qed.

(** What the loop over the picks has done when it completes. *)
Lemma team_loop_spec up pd ps acc log team log' :
  team_loop up pd ps acc log = (Some team, log') ->
  log' = log ++ squad_requests pd ps /\
  map member_name team = map member_name acc ++ map web_name (squad pd ps) /\
  (Forall (fun m => (List.length (nextFixtures m) <= 5)%nat) acc ->
   Forall (fun m => (List.length (nextFixtures m) <= 5)%nat) team).
Proof.
  revert acc log. induction ps as [|pick rest IH]; intros acc log Hrun.
  - injection Hrun as <- <-. unfold squad_requests. simpl.
    rewrite !app_nil_r. auto.
  - cbn [team_loop] in Hrun. unfold squad_requests, squad. cbn [flat_map].
    destruct (find_element pd (element pick)) as [player|] eqn:Hf.
    + unfold bind, axios_get in Hrun.
      destruct (element_summary up (id player)) as [fx|]; [|discriminate].
      destruct (map_defined (next_fixture pd) (firstn 5 (fixtures fx))) as [nf|] eqn:Hnf;
        [|discriminate].
      simpl in Hrun. apply IH in Hrun. destruct Hrun as (-> & Hnames & Hshort).
      split; [|split].
      * unfold squad_requests, squad. simpl. now rewrite <- app_assoc.
      * rewrite Hnames, map_app. simpl. now rewrite <- app_assoc.
      * intros Hacc. apply Hshort. apply Forall_app. split; [exact Hacc|].
        constructor; [|constructor]. simpl.
        rewrite (map_defined_length _ _ Hnf). apply firstn_le_length.
    + apply IH in Hrun. exact Hrun.
Qed.

(** The rows that come back, one per known player. *)
Lemma rows_spec up pd last5 ps rows :
  map_defined
    (fun pick =>
       match find_element pd (element pick) with
       | None => Some None
       | Some player =>
           match element_summary up (id player) with
           | None => None
           | Some summary => option_map Some (history_row pd last5 player summary)
           end
       end) ps = Some rows ->
  map row_name (not_null rows) = map web_name (squad pd ps) /\
  Forall (fun row =>
            List.length (last5GWPoints row) = List.length last5 /\
            totalLast5Points row = sum (last5GWPoints row)) (not_null rows).
Proof.
  revert rows. induction ps as [|pick rest IH]; simpl; intros rows.
  - intros [= <-]. simpl. auto.
  - unfold squad. cbn [flat_map].
    destruct (find_element pd (element pick)) as [player|].
    + destruct (element_summary up (id player)) as [summary|]; [|discriminate].
      unfold history_row.
      destruct (index (teams pd) (team player - 1)) as [t|]; simpl; [|discriminate].
      destruct (map_defined _ rest) as [rows'|]; [|discriminate].
      intros [= <-]. destruct (IH rows' eq_refl) as [Hn Hr].
      unfold not_null. simpl. split; [f_equal; exact Hn|].
      constructor; [|exact Hr]. simpl. split.
      * now rewrite length_map.
      * generalize (map (resolve_points (history summary)) last5). intros l.
        assert (H : forall z, fold_left (fun sum points => sum + points) l z = z + sum l).
        { induction l as [|x t' IHl]; intros z; simpl; [lia|]. rewrite IHl. lia. }
        rewrite H. lia.
    + destruct (map_defined _ rest) as [rows'|]; [|discriminate].
      intros [= <-]. destruct (IH rows' eq_refl) as [Hn Hr].
      unfold not_null. simpl. split; assumption.
Qed.

(** A 200 response taken apart. *)
Lemma current_team_200 up managerId an log :
  analyze_manager up managerId = ({| status := 200; body := AnalysisBody an |}, log) ->
  exists pd ev d,
    bootstrap_static up = Some pd /\
    find is_current (events pd) = Some ev /\
    0 <= event_id ev /\
    entry_picks up managerId (event_id ev) = Some d /\
    log = upfront_requests managerId ++ [GetEntryPicks managerId (event_id ev)]
          ++ squad_requests pd (picks d) ++ squad_requests pd (picks d) /\
    playerStats an = [] /\
    positionSummary an = map (summarise no_positions) [GKP; DEF; MID; FWD] /\
    weeklyPoints an = repeat 0 (Z.to_nat (event_id ev)) /\
    weeklyRanks an = repeat 0 (Z.to_nat (event_id ev)) /\
    map member_name (currentTeam an) = map web_name (squad pd (picks d)) /\
    Forall (fun m => (List.length (nextFixtures m) <= 5)%nat) (currentTeam an) /\
    gameweeks (last5GWsData an) = map label (last5GWs (event_id ev)) /\
    Permutation (map row_name (players (last5GWsData an)))
                (map web_name (squad pd (picks d))) /\
    Forall (fun row =>
              List.length (last5GWPoints row) = List.length (last5GWs (event_id ev)) /\
              totalLast5Points row = sum (last5GWPoints row))
           (players (last5GWsData an)) /\
    StronglySorted (fun x y => totalLast5Points x >= totalLast5Points y)
                   (players (last5GWsData an)).
Proof.
  unfold analyze_manager.
  destruct (analyze up managerId []) as [[an0|] log0] eqn:Hrun; [|discriminate].
  intros [= <- <-]. revert Hrun.
  unfold analyze, bind, fetch_upfront.
  destruct (bootstrap_static up) as [pd|]; [|discriminate].
  destruct (entry up managerId) as [e0|]; [|discriminate].
  destruct (entry_history up managerId) as [h0|]; [|discriminate].
  destruct (league_standings up) as [l|]; [|discriminate].
  destruct (find is_current (events pd)) as [ev|] eqn:Hev; simpl; [|discriminate].
  destruct (hd_error l) as [t|]; simpl; [|discriminate].
  destruct ((event_id ev <? 0) || (4294967295 <? event_id ev)) eqn:Hrange; [discriminate|].
  unfold axios_get.
  destruct (entry_picks up managerId (event_id ev)) as [d|] eqn:Hd; [|discriminate].
  destruct (team_loop up pd (picks d) [] _) as [[team|] log1] eqn:Hteam; [|discriminate].
  unfold history_promises.
  destruct (map_defined _ (picks d)) as [rows|] eqn:Hrows; [|discriminate].
  unfold ret. intros [= <- <-].
  apply team_loop_spec in Hteam. destruct Hteam as (-> & Hnames & Hshort).
  apply rows_spec in Hrows. destruct Hrows as [Hrn Hrr].
  apply orb_false_iff in Hrange. destruct Hrange as [Hlo _]. apply Z.ltb_ge in Hlo.
  exists pd, ev, d. simpl.
  split; [reflexivity|]. split; [auto|]. split; [exact Hlo|].
  split; [auto|]. split.
  { unfold upfront_requests. simpl. rewrite <- ?app_assoc. reflexivity. }
  split; [reflexivity|]. split; [reflexivity|]. split; [reflexivity|].
  split; [reflexivity|]. split; [exact Hnames|].
  split; [apply Hshort; constructor|]. split; [reflexivity|]. split.
  { rewrite <- Hrn. apply Permutation_map, sort_perm. }
  split.
  { rewrite Forall_forall in *. intros row Hrow. apply Hrr.
    eapply Permutation_in; [apply sort_perm | exact Hrow]. }
  eapply StronglySorted_impl; [|apply sort_sorted].
  - intros x y _ _ Hxy. unfold by_total in Hxy. apply Z.leb_le in Hxy. lia.
  - intros x y Hxy. unfold by_total in *. apply Z.leb_gt in Hxy. apply Z.leb_le. lia.
  - intros x y z. unfold by_total. rewrite !Z.leb_le. lia.
Qed.

End CurrentTeamFacts.

(** X15. The last five gameweeks are the positive gameweeks from four before
    the current one up to the current one, in ascending order: fewer than
    five early in the season, none for a current gameweek of 0 or less. *)
Theorem last_five_gameweeks currentGameweek :
  (forall gw, In gw (CurrentTeam.last5GWs currentGameweek)
              <-> 0 < gw /\ currentGameweek - 4 <= gw <= currentGameweek) /\
  StronglySorted Z.lt (CurrentTeam.last5GWs currentGameweek) /\
  (List.length (CurrentTeam.last5GWs currentGameweek) <= 5)%nat.
Proof.
  unfold CurrentTeam.last5GWs. simpl.
  replace (currentGameweek - 0) with currentGameweek by lia.
  destruct (currentGameweek >? 0) eqn:H0; destruct (currentGameweek - 1 >? 0) eqn:H1;
    destruct (currentGameweek - 2 >? 0) eqn:H2; destruct (currentGameweek - 3 >? 0) eqn:H3;
    destruct (currentGameweek - 4 >? 0) eqn:H4;
    rewrite ?Z.gtb_ltb in *;
    repeat match goal with
           | H : (_ <? _) = true |- _ => apply Z.ltb_lt in H
           | H : (_ <? _) = false |- _ => apply Z.ltb_ge in H
           end; try lia; simpl;
    (split; [intros gw; simpl; lia |
             split; [repeat constructor; lia | lia]]).
Qed.

(** X16. A report of this revision lists in [currentTeam] the squad of the
    current gameweek: the known players in squad order, each with at most
    five next fixtures; [last5GWsData] has a row for each of them. *)
Theorem current_team_is_the_squad up managerId an log :
  CurrentTeam.analyze_manager up managerId
    = ({| CurrentTeam.status := 200; CurrentTeam.body := CurrentTeam.AnalysisBody an |}, log) ->
  exists pd ev d,
    CurrentTeam.bootstrap_static up = Some pd /\
    find is_current (CurrentTeam.events pd) = Some ev /\
    CurrentTeam.entry_picks up managerId (event_id ev) = Some d /\
    map CurrentTeam.member_name (CurrentTeam.currentTeam an)
      = map web_name (CurrentTeam.squad pd (picks d)) /\
    Forall (fun m => (List.length (CurrentTeam.nextFixtures m) <= 5)%nat)
           (CurrentTeam.currentTeam an) /\
    Permutation (map CurrentTeam.row_name (CurrentTeam.players (CurrentTeam.last5GWsData an)))
                (map web_name (CurrentTeam.squad pd (picks d))).
Proof.
  intros H200.
  destruct (CurrentTeamFacts.current_team_200 _ _ H200)
    as (pd & ev & d & H1 & H2 & _ & H4 & _ & _ & _ & _ & _ & H10 & H11 & _ & H13 & _).
  exists pd, ev, d. auto 10.
Qed.

(** X17. In a report of this revision every row of [last5GWsData] has one
    score per gameweek label, its [totalLast5Points] is the sum of those
    scores, the rows come by descending total, and there are at most five
    labels. *)
Theorem last_five_rows up managerId an log :
  CurrentTeam.analyze_manager up managerId
    = ({| CurrentTeam.status := 200; CurrentTeam.body := CurrentTeam.AnalysisBody an |}, log) ->
  let data := CurrentTeam.last5GWsData an in
  (List.length (CurrentTeam.gameweeks data) <= 5)%nat /\
  Forall (fun row =>
            List.length (CurrentTeam.last5GWPoints row)
              = List.length (CurrentTeam.gameweeks data) /\
            CurrentTeam.totalLast5Points row = sum (CurrentTeam.last5GWPoints row))
         (CurrentTeam.players data) /\
  StronglySorted (fun x y => CurrentTeam.totalLast5Points x >= CurrentTeam.totalLast5Points y)
                 (CurrentTeam.players data).
Proof.
  intros H200.
  destruct (CurrentTeamFacts.current_team_200 _ _ H200)
    as (pd & ev & d & _ & _ & _ & _ & _ & _ & _ & _ & _ & _ & _ & Hg & _ & Hrows & Hsorted).
  cbv zeta. rewrite Hg, length_map.
  split; [apply last_five_gameweeks|]. split; [exact Hrows | exact Hsorted].
Qed.

(** X18. A completed analysis of this revision has issued the four upfront
    requests, the picks request of the current gameweek, and then the element
    summary of every known player of the squad twice: once for the fixtures,
    once more for the history.  The manager id is not validated. *)
Theorem current_team_requests up managerId an log :
  CurrentTeam.analyze_manager up managerId
    = ({| CurrentTeam.status := 200; CurrentTeam.body := CurrentTeam.AnalysisBody an |}, log) ->
  exists pd ev d,
    CurrentTeam.bootstrap_static up = Some pd /\
    find is_current (CurrentTeam.events pd) = Some ev /\
    CurrentTeam.entry_picks up managerId (event_id ev) = Some d /\
    log = upfront_requests managerId ++ [GetEntryPicks managerId (event_id ev)]
          ++ CurrentTeam.squad_requests pd (picks d)
          ++ CurrentTeam.squad_requests pd (picks d).
Proof.
  intros H200.
  destruct (CurrentTeamFacts.current_team_200 _ _ H200)
    as (pd & ev & d & H1 & H2 & _ & H4 & H5 & _).
  exists pd, ev, d. auto.
Qed.

(** X19. This revision has no gameweek loop: its report has no player
    statistics, every entry of [weeklyPoints] and [weeklyRanks] is 0, and
    every position of the summary has total 0 and no players. *)
Theorem current_team_report_has_no_statistics up managerId an log :
  CurrentTeam.analyze_manager up managerId
    = ({| CurrentTeam.status := 200; CurrentTeam.body := CurrentTeam.AnalysisBody an |}, log) ->
  CurrentTeam.playerStats an = [] /\
  Forall (fun x => x = 0) (CurrentTeam.weeklyPoints an) /\
  Forall (fun x => x = 0) (CurrentTeam.weeklyRanks an) /\
  Forall (fun ps => Report.totalPoints ps = 0 /\ Report.players ps = [])
         (CurrentTeam.positionSummary an).
Proof.
  intros H200.
  destruct (CurrentTeamFacts.current_team_200 _ _ H200)
    as (pd & ev & d & _ & _ & _ & _ & _ & H6 & H7 & H8 & H9 & _).
  rewrite H6, H7, H8, H9.
  split; [reflexivity|]. split; [|split].
  - apply Forall_forall. intros x Hx. now apply repeat_spec in Hx.
  - apply Forall_forall. intros x Hx. now apply repeat_spec in Hx.
  - repeat constructor.
Qed.

Lemma current_team_sample_200 :
  CurrentTeam.analyze_manager CurrentTeam.sample "abc"
    = ({| CurrentTeam.status := 200;
          CurrentTeam.body := CurrentTeam.AnalysisBody CurrentTeam.sample_analysis |},
       snd (CurrentTeam.analyze_manager CurrentTeam.sample "abc")).
Proof. vm_compute. reflexivity. Qed.

Lemma current_team_is_the_squad_witness :
  map CurrentTeam.member_name (CurrentTeam.currentTeam CurrentTeam.sample_analysis)
    = ["Rice"; "Saka"].
Proof.
  destruct (current_team_is_the_squad _ _ current_team_sample_200)
    as (pd & ev & d & Hpd & Hev & Hd & Hnames & _).
  injection Hpd as <-. injection Hev as <-. injection Hd as <-.
  rewrite Hnames. vm_compute. reflexivity.
Defined.

Lemma last_five_rows_witness :
  (List.length (CurrentTeam.gameweeks (CurrentTeam.last5GWsData CurrentTeam.sample_analysis))
     <= 5)%nat.
Proof.
  exact (proj1 (last_five_rows _ _ current_team_sample_200)).
Defined.

Lemma current_team_requests_witness :
  snd (CurrentTeam.analyze_manager CurrentTeam.sample "abc")
    = [GetBootstrapStatic; GetEntry "abc"; GetEntryHistory "abc"; GetLeagueStandings;
       GetEntryPicks "abc" 3; GetElementSummary 3; GetElementSummary 5;
       GetElementSummary 3; GetElementSummary 5].
Proof.
  destruct (current_team_requests _ _ current_team_sample_200)
    as (pd & ev & d & Hpd & Hev & Hd & Hlog).
  injection Hpd as <-. injection Hev as <-. injection Hd as <-.
  rewrite Hlog. vm_compute. reflexivity.
Defined.

Lemma current_team_report_has_no_statistics_witness :
  CurrentTeam.playerStats CurrentTeam.sample_analysis = [].
Proof.
  exact (proj1 (current_team_report_has_no_statistics _ _ current_team_sample_200)).
Defined.

(** * The Vercel revision *)

#[local] Arguments firstn : simpl never.
#[local] Arguments skipn : simpl never.

Module VercelFacts.
Import Vercel.

Lemma run_callbacks_empty_map batchPicks st rejected :
  playerDataMap st = [] ->
  run_callbacks batchPicks st rejected
    = (st, match batchPicks with [] => rejected | _ :: _ => true end).
Proof.
  intros Hempty. revert rejected.
  induction batchPicks as [|pick rest IH]; intros rejected; simpl; [reflexivity|].
  unfold callback. rewrite Hempty. simpl. rewrite IH. now destruct rest.
Qed.

(** The batches issue no request. *)
Lemma batch_loop_log fuel picks st log r log' :
  batch_loop fuel picks st log = (r, log') -> log' = log.
Proof.
  revert picks st log. induction fuel as [|fuel IH]; intros picks st log;
    cbn [batch_loop].
  - intros H. inversion H; subst; reflexivity.
  - destruct picks as [|pick rest]; [intros H; inversion H; subst; reflexivity|].
    unfold bind, batch.
    destruct (run_callbacks (firstn BATCH_SIZE (pick :: rest)) st false) as [st1 [|]].
    + intros H. inversion H; subst; reflexivity.
    + apply IH.
Qed.

(** With an empty map the batches complete only on an empty squad. *)
Lemma batch_loop_empty_map picks st log st' log' :
  playerDataMap st = [] ->
  batch_loop (List.length picks) picks st log = (Some st', log') ->
  picks = [] /\ st' = st.
Proof.
  intros Hempty. destruct picks as [|pick rest]; cbn [List.length batch_loop].
  - intros H. inversion H; subst. auto.
  - unfold bind, batch. rewrite (@run_callbacks_empty_map _ st false Hempty).
    cbn [firstn BATCH_SIZE]. intros H. inversion H.
Qed.

(** The loop over the recent gameweeks: what it requests, and what it needs
    to complete. *)
Lemma recent_loop_spec up managerId gws st log r log' :
  playerDataMap st = [] ->
  recent_loop up managerId gws st log = (r, log') ->
  (exists asked,
      log' = log ++ map (GetEntryPicks managerId) asked /\
      (List.length asked <= List.length gws)%nat) /\
  (forall st', r = Some st' ->
      st' = st /\
      forall gw, In gw gws ->
        exists d, entry_picks up managerId gw = Some d /\ picks d = []).
Proof.
  intros Hempty. revert log. induction gws as [|gw rest IH]; intros log; simpl.
  - intros H. inversion H; subst. split.
    + exists []. simpl. rewrite app_nil_r. auto.
    + intros st' [= <-]. split; [reflexivity | intros gw []].
  - unfold bind, axios_get.
    destruct (entry_picks up managerId gw) as [d|] eqn:Hd.
    + destruct (batch_loop (List.length (picks d)) (picks d) st _) as [[st1|] log1] eqn:Hb.
      * pose proof (batch_loop_log _ _ _ _ Hb) as ->.
        destruct (batch_loop_empty_map _ _ _ Hempty Hb) as [Hpicks ->].
        intros Hrest. apply IH in Hrest. destruct Hrest as [(asked & -> & Hlen) Hdone].
        split.
        -- exists (gw :: asked). simpl. rewrite <- app_assoc. split; [reflexivity | lia].
        -- intros st' Hr. destruct (Hdone st' Hr) as [-> Hall]. split; [reflexivity|].
           intros gw' [<- | Hin]; eauto.
      * pose proof (batch_loop_log _ _ _ _ Hb) as ->.
        intros [= <- <-]. split.
        -- exists [gw]. simpl. split; [reflexivity | lia].
        -- discriminate.
    + intros [= <- <-]. split.
      * exists [gw]. simpl. split; [reflexivity | lia].
      * discriminate.
Qed.

Lemma recent_gameweeks_head G :
  1 <= G ->
  exists rest,
    firstn 5 (map (fun i => G - Z.of_nat i) (seq 0 (Z.to_nat G))) = G :: rest.
Proof.
  intros HG. destruct (Z.to_nat G) as [|n] eqn:E; [lia|].
  cbn [seq map]. change 5%nat with (S 4). rewrite firstn_cons.
  change (Z.of_nat 0) with 0. rewrite Z.sub_0_r. eauto.
Qed.

(** The requests and the cache after any request to the handler. *)
Lemma handler_shape isNaN up managerId now cache r log cache' :
  analyze_manager isNaN up managerId now cache = (r, log, cache') ->
  (String.eqb managerId "" || isNaN managerId = true /\ log = [] /\ cache' = cache) \/
  (String.eqb managerId "" || isNaN managerId = false /\
   cache' = snd (BootstrapCache.getBootstrapData now (bootstrap_static up) cache) /\
   exists asked,
     log = (if BootstrapCache.fresh cache now then [] else [GetBootstrapStatic])
           ++ [GetEntry managerId; GetEntryHistory managerId]
           ++ map (GetEntryPicks managerId) asked /\
     (List.length asked <= 5)%nat).
Proof.
  unfold analyze_manager.
  destruct (String.eqb managerId "" || isNaN managerId);
    [intros [= _ <- <-]; left; auto|].
  intros Hrun. right. split; [reflexivity|]. revert Hrun.
  destruct (BootstrapCache.getBootstrapData now (bootstrap_static up) cache) as [pd cache1].
  cbn [snd].
  set (pre := (if BootstrapCache.fresh cache now then [] else [GetBootstrapStatic])
              ++ [GetEntry managerId; GetEntryHistory managerId]).
  assert (Hnone : exists asked,
             pre = (if BootstrapCache.fresh cache now then [] else [GetBootstrapStatic])
                   ++ [GetEntry managerId; GetEntryHistory managerId]
                   ++ map (GetEntryPicks managerId) asked /\
             (List.length asked <= 5)%nat).
  { exists []. cbn [map]. rewrite app_nil_r. split; [reflexivity | cbn; lia]. }
  destruct pd as [pd|]; [|intros [= _ <- <-]; auto].
  destruct (entry up managerId) as [e|]; [|intros [= _ <- <-]; auto].
  destruct (entry_history up managerId) as [h|]; [|intros [= _ <- <-]; auto].
  destruct (analyze up managerId pd e h pre) as [r0 log0] eqn:Hrun.
  assert (Hlog : exists asked,
             log0 = (if BootstrapCache.fresh cache now then [] else [GetBootstrapStatic])
                    ++ [GetEntry managerId; GetEntryHistory managerId]
                    ++ map (GetEntryPicks managerId) asked /\
             (List.length asked <= 5)%nat).
  { revert Hrun. unfold analyze, bind, defined.
    destruct (match find is_current (events pd) with
              | Some currentEvent => Some (event_id currentEvent)
              | None => max_event h
              end) as [G|]; cbn [ret throw];
      [|intros H; inversion H; subst; exact Hnone].
    destruct ((G <? 0) || (4294967295 <? G));
      [intros H; inversion H; subst; exact Hnone|].
    destruct (recent_loop up managerId _ _ pre) as [r1 log1] eqn:Hloop.
    apply recent_loop_spec in Hloop; [|reflexivity].
    destruct Hloop as [(asked & -> & Hlen) _].
    assert (Hfive : (List.length asked <= 5)%nat).
    { etransitivity; [exact Hlen|]. apply firstn_le_length. }
    intros H. exists asked. split; [|exact Hfive].
    destruct r1; inversion H; subst; unfold pre; rewrite <- app_assoc; reflexivity. }
  destruct r0; intros [= _ <- <-]; auto.
Qed.

End VercelFacts.

(** X20. In the Vercel revision a manager id that is empty or not a number
    is answered 400 with [{error: "Invalid manager ID"}]; no request is
    issued and the cache is not touched. *)
Theorem vercel_invalid_manager_id isNaN up managerId now cache :
  managerId = "" \/ isNaN managerId = true ->
  Vercel.analyze_manager isNaN up managerId now cache
    = ({| Vercel.status := 400; Vercel.body := Vercel.ErrorBody "Invalid manager ID" |},
       [], cache).
Proof.
  intros Hbad. unfold Vercel.analyze_manager.
  destruct Hbad as [-> | ->]; [reflexivity|]. now rewrite orb_true_r.
Qed.

Lemma vercel_invalid_manager_id_witness :
  Vercel.not_digits "abc" = true /\
  VercelSample.run VercelSample.upstream "abc" 1000 BootstrapCache.start
    = ({| Vercel.status := 400; Vercel.body := Vercel.ErrorBody "Invalid manager ID" |},
       [], BootstrapCache.start).
Proof.
  split; [reflexivity|].
  apply (@vercel_invalid_manager_id Vercel.not_digits VercelSample.upstream "abc" 1000
           BootstrapCache.start).
  right. reflexivity.
Defined.

(** X21. Whatever it is asked, the Vercel revision requests the bootstrap
    data only when the cache cannot answer, then the entry and its history,
    then the picks of at most five gameweeks: it never requests an element
    summary. *)
Theorem vercel_requests isNaN up managerId now cache :
  let log := snd (fst (Vercel.analyze_manager isNaN up managerId now cache)) in
  log = [] \/
  exists asked,
    log = (if BootstrapCache.fresh cache now then [] else [GetBootstrapStatic])
          ++ [GetEntry managerId; GetEntryHistory managerId]
          ++ map (GetEntryPicks managerId) asked /\
    (List.length asked <= 5)%nat.
Proof.
  destruct (Vercel.analyze_manager isNaN up managerId now cache) as [[r log] cache'] eqn:E.
  apply VercelFacts.handler_shape in E.
  cbn [fst snd]. destruct E as [(_ & -> & _) | (_ & _ & H)]; auto.
Qed.

(** X22. When the squad of the current gameweek is not empty, the Vercel
    revision answers 500: the first callback of the first batch throws before
    any request, so the handler stops after the picks request of that
    gameweek. *)
Theorem vercel_squad_is_500 isNaN up managerId now cache pd e h ev d :
  managerId <> "" ->
  isNaN managerId = false ->
  fst (BootstrapCache.getBootstrapData now (bootstrap_static up) cache) = Some pd ->
  entry up managerId = Some e ->
  entry_history up managerId = Some h ->
  find is_current (events pd) = Some ev ->
  1 <= event_id ev <= 4294967295 ->
  entry_picks up managerId (event_id ev) = Some d ->
  picks d <> [] ->
  fst (Vercel.analyze_manager isNaN up managerId now cache)
    = ({| Vercel.status := 500; Vercel.body := Vercel.ErrorBody "Failed to analyze manager" |},
       (if BootstrapCache.fresh cache now then [] else [GetBootstrapStatic])
       ++ [GetEntry managerId; GetEntryHistory managerId;
           GetEntryPicks managerId (event_id ev)]).
Proof.
  intros Hne Hnan Hpd He Hh Hev HG Hd Hpicks.
  unfold Vercel.analyze_manager.
  apply String.eqb_neq in Hne. rewrite Hne, Hnan. simpl.
  destruct (BootstrapCache.getBootstrapData now (bootstrap_static up) cache) as [pd0 cache'].
  simpl in Hpd. subst pd0. rewrite He, Hh.
  unfold Vercel.analyze, bind, defined. rewrite Hev. simpl.
  assert (Hrange : (event_id ev <? 0) || (4294967295 <? event_id ev) = false).
  { apply orb_false_iff. split; [apply Z.ltb_ge | apply Z.ltb_ge]; lia. }
  rewrite Hrange.
  destruct (@VercelFacts.recent_gameweeks_head (event_id ev)) as [rest ->]; [lia|].
  cbn [Vercel.recent_loop]. unfold bind, axios_get. rewrite Hd.
  destruct (picks d) as [|pick others] eqn:Hp; [congruence|].
  cbn [List.length Vercel.batch_loop]. unfold bind, Vercel.batch.
  rewrite VercelFacts.run_callbacks_empty_map by reflexivity.
  simpl. rewrite <- app_assoc. reflexivity.
Qed.

Lemma vercel_squad_is_500_witness :
  fst (VercelSample.run VercelSample.upstream "42" 1000 BootstrapCache.start)
    = ({| Vercel.status := 500; Vercel.body := Vercel.ErrorBody "Failed to analyze manager" |},
       [GetBootstrapStatic; GetEntry "42"; GetEntryHistory "42"; GetEntryPicks "42" 2]).
Proof.
  apply (@vercel_squad_is_500 Vercel.not_digits VercelSample.upstream "42" 1000
           BootstrapCache.start (Sample.bootstrap 2 [Sample.player 5 "Saka"])
           Sample.manager (Sample.history [])
           {| event_id := 2; is_current := true |}
           (Sample.week [Sample.starter 5 false] None));
    try reflexivity.
  - discriminate.
  - simpl. lia.
  - discriminate.
Defined.

(** X23. A report of the Vercel revision is always empty: a 200 answer has
    no player statistics, no last-five performance and no upcoming fixtures,
    and every entry of its weekly arrays is 0. *)
Theorem vercel_report_is_empty isNaN up managerId now cache an log cache' :
  Vercel.analyze_manager isNaN up managerId now cache
    = ({| Vercel.status := 200; Vercel.body := Vercel.AnalysisBody an |}, log, cache') ->
  Vercel.playerStats an = [] /\
  Vercel.last5GWPerformance an = [] /\
  Vercel.upcomingFixtures an = [] /\
  Forall (fun x => x = 0) (Vercel.weeklyPoints an) /\
  Forall (fun x => x = 0) (Vercel.weeklyRanks an).
Proof.
  unfold Vercel.analyze_manager.
  destruct (String.eqb managerId "" || isNaN managerId); [discriminate|].
  destruct (BootstrapCache.getBootstrapData now (bootstrap_static up) cache) as [pd cache1].
  destruct pd as [pd|]; [|discriminate].
  destruct (entry up managerId) as [e|]; [|discriminate].
  destruct (entry_history up managerId) as [h|]; [|discriminate].
  unfold Vercel.analyze, bind, defined.
  destruct (match find is_current (events pd) with
            | Some currentEvent => Some (event_id currentEvent)
            | None => Vercel.max_event h
            end) as [G|]; simpl; [|discriminate].
  destruct ((G <? 0) || (4294967295 <? G)); simpl; [discriminate|].
  destruct (Vercel.recent_loop up managerId _ _ _) as [[st|] log1] eqn:Hloop;
    [|discriminate].
  apply VercelFacts.recent_loop_spec in Hloop; [|reflexivity].
  destruct Hloop as [_ Hdone]. destruct (Hdone st eq_refl) as [-> _].
  unfold ret. intros [= <- _ _]. simpl.
  split; [reflexivity|]. split; [reflexivity|]. split; [reflexivity|].
  split; apply Forall_forall; intros x Hx; now apply repeat_spec in Hx.
Qed.

Lemma vercel_report_is_empty_witness :
  exists an log cache',
    VercelSample.run VercelSample.empty_squads "42" 1000 BootstrapCache.start
      = ({| Vercel.status := 200; Vercel.body := Vercel.AnalysisBody an |}, log, cache') /\
    Vercel.playerStats an = [].
Proof.
  eexists. eexists. eexists.
  assert (H : forall an log cache',
             VercelSample.run VercelSample.empty_squads "42" 1000 BootstrapCache.start
               = ({| Vercel.status := 200; Vercel.body := Vercel.AnalysisBody an |},
                  log, cache') ->
             Vercel.playerStats an = [])
    by (intros an log cache' H; exact (proj1 (vercel_report_is_empty _ _ _ _ _ H))).
  split; [vm_compute; reflexivity|].
  eapply H. vm_compute. reflexivity.
Defined.



(** The first request fetches the bootstrap data and fails on the squad; the
    second, a second later, is served from the cache. *)
Example vercel_two_requests :
  let first := VercelSample.run VercelSample.upstream "42" 1000 BootstrapCache.start in
  let second := VercelSample.run VercelSample.upstream "7" 2000 (snd first) in
  snd (fst first)
    = [GetBootstrapStatic; GetEntry "42"; GetEntryHistory "42"; GetEntryPicks "42" 2] /\
  snd (fst second) = [GetEntry "7"; GetEntryHistory "7"; GetEntryPicks "7" 2] /\
  BootstrapCache.fetches (snd second) = 1%nat.
Proof.
  intros first second.
  split; [vm_compute; reflexivity|]. split; vm_compute; reflexivity.
Qed.

(** * The season-history fields of the report *)

Lemma past_rank_last h :
  past_rank h 0 = match rev (past h) with
                  | p :: _ => Js.toLocaleString_int (rank p)
                  | [] => "Didn't Play"
                  end.
Proof.
  unfold past_rank.
  assert (E : past h = rev (rev (past h))) by (symmetry; apply rev_involutive).
  destruct (rev (past h)) as [|p r]; rewrite E; [reflexivity|].
  cbn [rev]. rewrite length_app, length_rev. cbn [List.length].
  replace (0 <? List.length r + 1)%nat with true by (symmetry; apply Nat.ltb_lt; lia).
  rewrite nth_error_app2 by (rewrite length_rev; lia).
  rewrite length_rev.
  replace (List.length r + 1 - 1 - 0 - List.length r)%nat with O by lia.
  reflexivity.
Qed.

Lemma past_rank_before_last h :
  past_rank h 1 = match rev (past h) with
                  | _ :: q :: _ => Js.toLocaleString_int (rank q)
                  | _ => "Didn't Play"
                  end.
Proof.
  unfold past_rank.
  assert (E : past h = rev (rev (past h))) by (symmetry; apply rev_involutive).
  destruct (rev (past h)) as [|p [|q r]]; rewrite E; [reflexivity | reflexivity|].
  cbn [rev]. rewrite !length_app, length_rev. cbn [List.length].
  replace (1 <? List.length r + 1 + 1)%nat with true by (symmetry; apply Nat.ltb_lt; lia).
  rewrite nth_error_app1 by (rewrite length_app, length_rev; cbn; lia).
  rewrite nth_error_app2 by (rewrite length_rev; lia).
  rewrite length_rev.
  replace (List.length r + 1 + 1 - 1 - 1 - List.length r)%nat with O by lia.
  reflexivity.
Qed.

(** X25. In a report, [lastSeasonRank] is the rank of the last entry of the
    past seasons and [seasonBeforeLastRank] that of the entry before it, in
    the locale's number format; each is "Didn't Play" when the history has no
    such entry. *)
Theorem past_season_ranks up managerId an log h :
  analyze_manager up managerId = ({| status := 200; body := AnalysisBody an |}, log) ->
  entry_history up managerId = Some h ->
  Report.lastSeasonRank (Report.managerInfo an)
    = match rev (past h) with
      | p :: _ => Js.toLocaleString_int (rank p)
      | [] => "Didn't Play"
      end /\
  Report.seasonBeforeLastRank (Report.managerInfo an)
    = match rev (past h) with
      | _ :: q :: _ => Js.toLocaleString_int (rank q)
      | _ => "Didn't Play"
      end.
Proof.
  intros H200 Hh.
  destruct (analyze_manager_200 _ _ H200) as (e & h' & top & G & a & Hrun & ->).
  destruct (run_loop_inv _ _ _ Hrun) as (pd & ev & log1 & _ & Hh' & _).
  assert (h' = h) by congruence. subst h'. simpl.
  split; [apply past_rank_last | apply past_rank_before_last].
Qed.

Lemma past_season_ranks_witness :
  entry_history Sample.captain_week "42"
    = Some (Sample.history [ {| event := 1; overall_rank := Some 1200 |} ]) /\
  Report.lastSeasonRank (Report.managerInfo (Sample.analysis Sample.captain_week))
    = "Didn't Play".
Proof.
  assert (H : analyze_manager Sample.captain_week "42"
              = ({| status := 200;
                    body := AnalysisBody (Sample.analysis Sample.captain_week) |},
                 snd (analyze_manager Sample.captain_week "42")))
    by (vm_compute; reflexivity).
  split; [reflexivity|].
  exact (proj1 (@past_season_ranks _ _ _ _ _ H eq_refl)).
Defined.

Example past_rank_of_three_seasons :
  let h := {| current := []; chips := [];
              past := [ {| rank := 250000 |}; {| rank := 1200345 |}; {| rank := 987 |} ] |} in
  past_rank h 0 = "987" /\ past_rank h 1 = "1,200,345".
Proof. split; reflexivity. Qed.
